(** * TITAN-API: task compiler, RDF node naming and status aggregation

    A shallow embedding of
    - [titan/models/workflow.py]: [State], the graph model, [parse_to_list]
      and [parse_to_rdf];
    - [titan/routes/v3/workflow.py]: the [/status] and [/fstatus] handlers,
      from the reading of the engine's report to the workflow state;
    - [titan/routes/v2/workflow.py]: the [/status] handler, likewise;
    together with the properties the specification states about them.

    Modelling choices.
    - Python values are a small JSON-like datatype; dictionaries are
      association lists in insertion order, with Python's assignment
      (replace in place, or append); exceptions are an error monad with an
      explicit [try ... except].
    - The compiler and the exporter receive the dictionary of a validated
      workflow ([WorkflowManager.execute] passes [workflow.dict()]), so the
      workflow is a record with the fields the models declare; [operators]
      and [links] may be [None], as the model allows.
    - The validation done by the [Task] model and the behaviour of
      [strconv.convert] belong to third-party packages: the first is a
      parameter of the v3 handlers, the second a parameter of the compiler
      (with one instance written from the specification).
    - What the engine client returns (the report and the HTTP status code)
      is an argument of the handlers. *)

From Stdlib Require Import String Ascii List ZArith Bool Lia.
From Stdlib Require Import Floats Uint63.
Import ListNotations.

Local Open Scope string_scope.
Local Open Scope list_scope.

Set Implicit Arguments.

(* ================================================================== *)
(** * Python runtime model *)
(* ================================================================== *)

Module Py.

(** ** Exceptions *)

Inductive exn : Type :=
| KeyError
| AttributeError
| TypeError
| ValueError
| ValidationError
| AssertionError.

Definition exn_eqb (a b : exn) : bool :=
  match a, b with
  | KeyError, KeyError
  | AttributeError, AttributeError
  | TypeError, TypeError
  | ValueError, ValueError
  | ValidationError, ValidationError
  | AssertionError, AssertionError => true
  | _, _ => false
  end.

(** A computation either returns or raises. *)
Inductive exc (A : Type) : Type :=
| Ok (a : A)
| Raise (e : exn).
Arguments Ok {A} a.
Arguments Raise {A} e.

Definition bind {A B} (m : exc A) (k : A -> exc B) : exc B :=
  match m with
  | Ok a => k a
  | Raise e => Raise e
  end.

(** [try: m  except e: h] -- only the named exception is handled. *)
Definition try_except {A} (m : exc A) (e : exn) (h : exc A) : exc A :=
  match m with
  | Ok a => Ok a
  | Raise e' => if exn_eqb e' e then h else Raise e'
  end.

(** [try: m  except Exception: h] -- every exception is handled. *)
Definition try_except_Exception {A} (m : exc A) (h : A) : A :=
  match m with
  | Ok a => a
  | Raise _ => h
  end.

(** [assert b] *)
Definition assert (b : bool) : exc unit :=
  if b then Ok tt else Raise AssertionError.

(** A [for] loop whose body may raise and that appends one element per
    iteration: the first exception stops the loop. *)
Fixpoint for_each {A B} (f : A -> exc B) (l : list A) : exc (list B) :=
  match l with
  | [] => Ok []
  | x :: l' =>
      match f x with
      | Ok y => match for_each f l' with
                | Ok ys => Ok (y :: ys)
                | Raise e => Raise e
                end
      | Raise e => Raise e
      end
  end.

(** A [for] loop that threads a state and whose body may raise. *)
Fixpoint for_fold {S A} (body : S -> A -> exc S) (l : list A) (s : S)
  : exc S :=
  match l with
  | [] => Ok s
  | x :: l' =>
      match body s x with
      | Ok s' => for_fold body l' s'
      | Raise e => Raise e
      end
  end.

(** ** Dictionaries

    A [dict] keeps its items in insertion order; assigning to an existing
    key replaces the value in place, assigning to a new key appends. *)

Class PyKey (K : Type) : Type :=
  { key_eqb : K -> K -> bool;
    key_eqb_spec : forall a b : K, reflect (a = b) (key_eqb a b) }.

#[export] Instance string_PyKey : PyKey string :=
  {| key_eqb := String.eqb; key_eqb_spec := String.eqb_spec |}.

Definition dict (K V : Type) : Type := list (K * V).

Section Dict.
Context {K V : Type} `{PyKey K}.

(** [d.get(k)] *)
Fixpoint dict_get (d : dict K V) (k : K) : option V :=
  match d with
  | [] => None
  | (k', v) :: d' => if key_eqb k' k then Some v else dict_get d' k
  end.

(** [d[k]] *)
Definition getitem (d : dict K V) (k : K) : exc V :=
  match dict_get d k with
  | Some v => Ok v
  | None => Raise KeyError
  end.

(** [d[k] = v] *)
Fixpoint dict_set (d : dict K V) (k : K) (v : V) : dict K V :=
  match d with
  | [] => [(k, v)]
  | (k', v') :: d' =>
      if key_eqb k' k then (k', v) :: d' else (k', v') :: dict_set d' k v
  end.

Definition keys (d : dict K V) : list K := map fst d.
Definition values (d : dict K V) : list V := map snd d.

(** A loop [for k, v in items: d[k] = v] started from [d]. *)
Definition set_items (d : dict K V) (items : list (K * V)) : dict K V :=
  fold_left (fun acc kv => dict_set acc (fst kv) (snd kv)) items d.
End Dict.

(** ** Values *)

(** The values that travel through JSON documents and task parameters. *)
#[warnings="-register-all"]
Inductive pyval : Type :=
| PyNone
| PyBool (b : bool)
| PyInt (z : Z)
| PyFloat (f : float)
| PyStr (s : string)
| PyList (l : list pyval)
| PyDict (d : list (string * pyval)).

(** Truth value of an object, as used by [if x:]. *)
Definition truthy (v : pyval) : bool :=
  match v with
  | PyNone => false
  | PyBool b => b
  | PyInt z => negb (Z.eqb z 0)
  | PyFloat f => negb (PrimFloat.eqb f 0%float)
  | PyStr s => negb (String.eqb s "")
  | PyList l => match l with [] => false | _ => true end
  | PyDict d => match d with [] => false | _ => true end
  end.

(** [str.upper()] on ASCII strings.  Strings are modelled as byte strings
    and only the ASCII letters are mapped, which is all the state names
    need; Python also maps some other letters onto ASCII ones, so a
    statement that an upper-cased string names no state is made for ASCII
    strings only (see [TaskModel.is_ascii]). *)
Definition upper_ascii (c : ascii) : ascii :=
  let n := nat_of_ascii c in
  if (97 <=? n)%nat && (n <=? 122)%nat then ascii_of_nat (n - 32) else c.

Fixpoint upper (s : string) : string :=
  match s with
  | EmptyString => EmptyString
  | String c s' => String (upper_ascii c) (upper s')
  end.

Fixpoint chars (s : string) : list string :=
  match s with
  | EmptyString => []
  | String c s' => String c EmptyString :: chars s'
  end.

(** [for x in v]: lists yield their elements, dictionaries their keys,
    strings their characters; the other values are not iterable. *)
Definition iterate (v : pyval) : exc (list pyval) :=
  match v with
  | PyList l => Ok l
  | PyDict d => Ok (map (fun kv => PyStr (fst kv)) d)
  | PyStr s => Ok (map PyStr (chars s))
  | _ => Raise TypeError
  end.

(** [all(l)] and [any(l)] *)
Definition all (l : list bool) : bool := forallb (fun b => b) l.
Definition any (l : list bool) : bool := existsb (fun b => b) l.

End Py.
Import Py.

Declare Scope py_scope.
Delimit Scope py_scope with py.
Notation "x <- m ;; k" := (Py.bind m (fun x => k))
  (at level 61, m at next level, right associativity) : py_scope.
Notation "m ;;; k" := (Py.bind m (fun _ => k))
  (at level 61, right associativity) : py_scope.
Local Open Scope py_scope.

(* ================================================================== *)
(** * Execution states ([titan/models/workflow.py], class [State]) *)
(* ================================================================== *)

Inductive State : Type :=
| STATUS_UNKNOWN
| STATUS_REVOKED
| STATUS_PENDING
| STATUS_RUNNING
| STATUS_FAILED
| STATUS_DONE.

(** [State] is a [str] enumeration: a member compares equal to its value. *)
Definition State_value (st : State) : string :=
  match st with
  | STATUS_UNKNOWN => "UNKNOWN"
  | STATUS_REVOKED => "REVOKED"
  | STATUS_PENDING => "PENDING"
  | STATUS_RUNNING => "RUNNING"
  | STATUS_FAILED => "FAILED"
  | STATUS_DONE => "DONE"
  end.

(** [s in stats] for a string [s] and a list of [State] members. *)
Definition str_in_states (s : string) (stats : list State) : bool :=
  existsb (fun st => String.eqb s (State_value st)) stats.

(* ================================================================== *)
(** * Status aggregation *)
(* ================================================================== *)

Module StatusV3.

(** The nested helper of both handlers:
    [_check(comp, stats) = comp([s in stats for s in tasks_statuses_only])]. *)
Definition _check (tasks_statuses_only : list string)
    (comp : list bool -> bool) (stats : list State) : bool :=
  comp (map (fun s => str_in_states s stats) tasks_statuses_only).

(** [/status], the [if]/[elif] chain that follows [# check global status]. *)
Definition status_workflow_status
    (is_revoked : bool) (tasks_statuses_only : list string) : State :=
  let _check := _check tasks_statuses_only in
  if is_revoked then STATUS_REVOKED
  else if _check Py.all [STATUS_DONE] then STATUS_DONE
  else if _check Py.any [STATUS_FAILED] then STATUS_FAILED
  else if _check Py.all [STATUS_PENDING] then STATUS_PENDING
  else if _check Py.any [STATUS_PENDING] && negb (_check Py.any [STATUS_FAILED])
    then STATUS_PENDING
  else if _check Py.any [STATUS_RUNNING] && negb (_check Py.any [STATUS_FAILED])
    then STATUS_RUNNING
  else STATUS_UNKNOWN.

(** [/fstatus], the same chain in the second handler. *)
Definition fstatus_workflow_status
    (is_revoked : bool) (tasks_statuses_only : list string) : State :=
  let _check := _check tasks_statuses_only in
  if is_revoked then STATUS_REVOKED
  else if _check Py.all [STATUS_DONE] then STATUS_DONE
  else if _check Py.any [STATUS_FAILED] then STATUS_FAILED
  else if _check Py.all [STATUS_PENDING] then STATUS_PENDING
  else if _check Py.any [STATUS_PENDING] && negb (_check Py.any [STATUS_FAILED])
    then STATUS_PENDING
  else if _check Py.any [STATUS_RUNNING] && negb (_check Py.any [STATUS_FAILED])
    then STATUS_RUNNING
  else STATUS_UNKNOWN.

Section Handlers.
(** Building a [Task] from one entry of the engine's report: the
    validation performed by the [Task] model, [true] when the entry is
    accepted. *)
Variable Task_validates : list (string * pyval) -> bool.

(** One iteration of [for task in response["tasks"]]: build the [Task]
    (the accepted entry stands for it), then read and upper-case the
    status of the entry. *)
Definition read_task (task : pyval) : exc (pyval * string) :=
  match task with
  | PyDict d =>
      if Task_validates d then
        match dict_get d "status" with
        | Some (PyStr s) => Ok (task, upper s)
        | _ => Raise AttributeError
        end
      else Raise ValidationError
  | _ => Raise TypeError
  end.

(** [response.get("is_revoked")] used as a condition. *)
Definition is_revoked (response : dict string pyval) : bool :=
  match dict_get response "is_revoked" with
  | Some v => truthy v
  | None => false
  end.

(** The body of the [try] block of [/status] for one workflow.
    [executed] is the workflow's last execution id, [response] and
    [status_code] are what the engine client returned. *)
Definition status_try (executed : option string)
    (response : dict string pyval) (status_code : Z)
  : exc (list pyval * State) :=
  assert (match executed with Some e => negb (String.eqb e "") | None => false end) ;;;
  assert (negb (Z.eqb status_code 0)) ;;;
  assert (Z.eqb status_code 200) ;;;
  tasks <- getitem response "tasks" ;;
  tasks <- iterate tasks ;;
  read <- for_each read_task tasks ;;
  let tasks_with_status := map fst read in
  let tasks_statuses_only := map snd read in
  Ok (tasks_with_status,
      status_workflow_status (is_revoked response) tasks_statuses_only).

(** [/status]: the workflow starts as [(tasks=None, status=UNKNOWN)] and
    keeps that value when anything in the [try] block raises. *)
Definition status_of_workflow (executed : option string)
    (response : dict string pyval) (status_code : Z)
  : option (list pyval) * State :=
  try_except_Exception
    (r <- status_try executed response status_code ;;
     Ok (Some (fst r), snd r))
    (None, STATUS_UNKNOWN).

(** The body of the [try] block of [/fstatus]. *)
Definition fstatus_try (executed : option string)
    (response : dict string pyval) (status_code : Z)
  : exc (list pyval * State) :=
  assert (match executed with Some e => negb (String.eqb e "") | None => false end) ;;;
  assert (negb (Z.eqb status_code 0)) ;;;
  assert (Z.eqb status_code 200) ;;;
  tasks <- getitem response "tasks" ;;
  tasks <- iterate tasks ;;
  read <- for_each read_task tasks ;;
  let tasks_with_status := map fst read in
  let tasks_statuses_only := map snd read in
  Ok (tasks_with_status,
      fstatus_workflow_status (is_revoked response) tasks_statuses_only).

Definition fstatus_of_workflow (executed : option string)
    (response : dict string pyval) (status_code : Z)
  : option (list pyval) * State :=
  try_except_Exception
    (r <- fstatus_try executed response status_code ;;
     Ok (Some (fst r), snd r))
    (None, STATUS_UNKNOWN).
End Handlers.

End StatusV3.

Module StatusV2.

Definition _check (tasks_status_only : list string)
    (comp : list bool -> bool) (stats : list State) : bool :=
  comp (map (fun s => str_in_states s stats) tasks_status_only).

(** [/status] of the v2 router, the chain after the definition of [_check]. *)
Definition workflow_status (tasks_status_only : list string) : State :=
  let _check := _check tasks_status_only in
  if _check Py.all [STATUS_DONE] then STATUS_DONE
  else if _check Py.all [STATUS_PENDING] then STATUS_PENDING
  else if _check Py.all [STATUS_PENDING; STATUS_RUNNING] then STATUS_RUNNING
  else if _check Py.any [STATUS_FAILED] then STATUS_FAILED
  else STATUS_UNKNOWN.

(** [task.get(k)] where the receiver must be a mapping. *)
Definition task_get (task : pyval) (k : string) : exc pyval :=
  match task with
  | PyDict d => Ok (match dict_get d k with Some v => v | None => PyNone end)
  | _ => Raise AttributeError
  end.

(** One iteration of [for task in response["tasks"]]. *)
Definition read_task (task : pyval) : exc (pyval * string) :=
  st <- task_get task "status" ;;
  _status <- match st with
             | PyStr s => Ok (upper s)
             | _ => Raise AttributeError
             end ;;
  name <- task_get task "name" ;;
  params <- task_get task "params" ;;
  inputs <- task_get task "inputs" ;;
  created_at <- task_get task "created_at" ;;
  updated_at <- task_get task "updated_at" ;;
  result <- task_get task "result" ;;
  Ok (PyDict [("name", name); ("params", params); ("inputs", inputs);
              ("created_at", created_at); ("updated_at", updated_at);
              ("result", result); ("status", PyStr _status)],
      _status).

(** From [# read tasks] to the end of the chain: nothing is caught here.
    The construction of the result that follows the chain is in
    [StatusV2Full.status]. *)
Definition status_block (response : dict string pyval)
  : exc (list pyval * State) :=
  tasks <- getitem response "tasks" ;;
  tasks <- iterate tasks ;;
  read <- for_each read_task tasks ;;
  let tasks_with_status := map fst read in
  let tasks_status_only := map snd read in
  Ok (tasks_with_status, workflow_status tasks_status_only).

End StatusV2.

(* ================================================================== *)
(** * Graph model ([titan/models/workflow.py]) *)
(* ================================================================== *)

(** [Union[str, int]]: the operator and connector references of a link. *)
Inductive idx : Type :=
| IdxStr (s : string)
| IdxInt (z : Z).

Definition idx_eqb (a b : idx) : bool :=
  match a, b with
  | IdxStr s, IdxStr t => String.eqb s t
  | IdxInt x, IdxInt y => Z.eqb x y
  | _, _ => false
  end.

#[export] Instance idx_PyKey : PyKey idx.
Proof.
  refine {| key_eqb := idx_eqb |}.
  intros [s | x] [t | y]; simpl; try (constructor; discriminate).
  - destruct (String.eqb_spec s t); constructor; congruence.
  - destruct (Z.eqb_spec x y); constructor; congruence.
Defined.

Record Properties : Type :=
  { prop_name : string }.

Record ParameterProperties : Type :=
  { param_name : string;
    param_value : pyval;
    param_defaultValue : pyval }.

Record Definition_ : Type :=
  { uri : string }.

Record InputOutput : Type :=
  { io_properties : Properties;
    io_definition : option Definition_ }.

Record OperatorProperties : Type :=
  { op_name : string;
    op_module : string;
    op_inputs : dict string InputOutput;
    op_outputs : dict string InputOutput }.

Record OperatorParameters : Type :=
  { par_properties : ParameterProperties;
    par_definition : option Definition_ }.

Record Operator : Type :=
  { properties : OperatorProperties;
    parameters : dict string OperatorParameters;
    definition : option Definition_ }.

Record Link : Type :=
  { fromOperator : idx;
    fromConnector : idx;
    toOperator : idx;
    toConnector : idx }.

(** [operators] and [links] default to [None]; the timestamps play no role
    in the compiler and are left out. *)
Record WorkflowRequest : Type :=
  { operators : option (dict string Operator);
    links : option (dict string Link);
    metadata : dict string pyval }.

(** One element of the list returned by [parse_to_list]:
    [{"name": .., "module": .., "params": .., "inputs": ..}]; an input is
    either a string or [None]. *)
Record TaskSpec : Type :=
  { t_name : string;
    t_module : string;
    t_params : dict string pyval;
    t_inputs : dict string (option string) }.

(* ================================================================== *)
(** * Task compiler ([parse_to_list]) *)
(* ================================================================== *)

Module Compiler.

(** [links = collections.defaultdict(dict)], keyed by destination operator
    and then by destination connector. *)
Definition link_index : Type := dict idx (dict idx (idx * idx)).

(** [links[k]] on the [defaultdict]: a missing key is first inserted with
    an empty dictionary. *)
Definition defaultdict_getitem (links : link_index) (k : idx)
  : link_index * dict idx (idx * idx) :=
  match dict_get links k with
  | Some inner => (links, inner)
  | None => (dict_set links k [], [])
  end.

(** [links[a][b] = v] *)
Definition index_assign (links : link_index) (a b : idx) (v : idx * idx)
  : link_index :=
  let (links', inner) := defaultdict_getitem links a in
  dict_set links' a (dict_set inner b v).

(** The first loop, [for link in _links.values()]. *)
Definition build_links (_links : dict string Link) : link_index :=
  fold_left
    (fun links kv =>
       let link := snd kv in
       let to_op_idx := toOperator link in
       let to_con_idx := toConnector link in
       let from_op_idx := fromOperator link in
       let from_con_idx := fromConnector link in
       index_assign links to_op_idx to_con_idx (from_op_idx, from_con_idx))
    _links [].

(** Subscripting a dictionary whose keys are all strings with a link
    reference: an integer is equal to no string key. *)
Definition getitem_idx {V} (d : dict string V) (k : idx) : exc V :=
  match k with
  | IdxStr s => getitem d s
  | IdxInt _ => Raise KeyError
  end.

(** What the [try] block of the input loop computes once [links[op_idx]]
    has been fetched: the name of the producing output. *)
Definition resolve_input (_operators : dict string Operator)
    (inner : dict idx (idx * idx)) (in_idx : string) : exc string :=
  lk <- getitem inner (IdxStr in_idx) ;;
  let from_op := fst lk in
  let from_conn := snd lk in
  src <- getitem_idx _operators from_op ;;
  let from_op_name := op_name (properties src) in
  src' <- getitem_idx _operators from_op ;;
  from_op_con_name <- getitem_idx (op_outputs (properties src')) from_conn ;;
  Ok (from_op_name ++ "." ++ prop_name (io_properties from_op_con_name))%string.

(** One iteration of [for in_idx, in_data in ...inputs.items()]; the state
    is the link index (which the lookup may extend) and [inputs]. *)
Definition input_step (_operators : dict string Operator) (op_idx : string)
    (st : link_index * dict string (option string))
    (kv : string * InputOutput)
  : exc (link_index * dict string (option string)) :=
  let links := fst st in
  let inputs := snd st in
  let in_idx := fst kv in
  let in_data := snd kv in
  let in_properties := io_properties in_data in
  let in_name := prop_name in_properties in
  let (links', inner) := defaultdict_getitem links (IdxStr op_idx) in
  v <- try_except
         (s <- resolve_input _operators inner in_idx ;; Ok (Some s))
         KeyError
         (Ok None) ;;
  Ok (links', dict_set inputs in_name v).

Section WithConvert.
(** [strconv.convert], a function of a third-party package. *)
Variable convert : pyval -> exc pyval.

(** [try: param_value = strconv.convert(param_value)
     except ValueError: pass] *)
Definition coerce (param_value : pyval) : exc pyval :=
  try_except (convert param_value) ValueError (Ok param_value).

(** One iteration of [for param_idx, param_data in ...parameters.items()]. *)
Definition param_step (params : dict string pyval)
    (kv : string * OperatorParameters) : exc (dict string pyval) :=
  let param_data := snd kv in
  let param_properties := par_properties param_data in
  let param_name := param_name param_properties in
  let param_value := param_value param_properties in
  param_value <- coerce param_value ;;
  Ok (dict_set params param_name param_value).

(** One iteration of [for op_idx, op_data in _operators.items()]. *)
Definition operator_step (_operators : dict string Operator)
    (st : link_index * list TaskSpec) (kv : string * Operator)
  : exc (link_index * list TaskSpec) :=
  let links := fst st in
  let tasks := snd st in
  let op_idx := fst kv in
  let op_data := snd kv in
  let name := op_name (properties op_data) in
  let module := op_module (properties op_data) in
  params <- for_fold param_step (parameters op_data) [] ;;
  r <- for_fold (input_step _operators op_idx)
         (op_inputs (properties op_data))
       (links, ([] : dict string (option string))) ;;
  Ok (fst r,
      tasks ++ [ {| t_name := name; t_module := module;
                    t_params := params; t_inputs := snd r |} ]).

Definition parse_to_list (workflow : WorkflowRequest)
  : exc (list TaskSpec) :=
  _links <- match links workflow with
            | Some l => Ok l
            | None => Raise AttributeError
            end ;;
  let links := build_links _links in
  _operators <- match operators workflow with
                | Some o => Ok o
                | None => Raise AttributeError
                end ;;
  r <- for_fold (operator_step _operators) _operators (links, []) ;;
  Ok (snd r).
End WithConvert.

End Compiler.

(* ================================================================== *)
(** * Parameter coercion ([strconv.convert]) *)
(* ================================================================== *)

Module Strconv.

(** [strconv.convert] belongs to a third-party package whose code is not
    part of the repository.  The definitions of this module are written
    from the specification's description of the coercion: "recognize
    integers, floats, booleans, and fall back to string". *)

(** Modelled from the spec: the decimal digits, as used by the integer and
    float readers of [strconv]. *)
Definition is_digit (c : ascii) : bool :=
  let n := nat_of_ascii c in (48 <=? n)%nat && (n <=? 57)%nat.

Definition digit_value (c : ascii) : Z := Z.of_nat (nat_of_ascii c - 48).

(** The number written by a string of decimal digits. *)
Fixpoint digits (s : string) (acc : Z) : option Z :=
  match s with
  | EmptyString => Some acc
  | String c s' =>
      if is_digit c then digits s' (10 * acc + digit_value c) else None
  end.

Definition split_sign (s : string) : bool * string :=
  match s with
  | String "-"%char r => (true, r)
  | String "+"%char r => (false, r)
  | _ => (false, s)
  end.

Fixpoint split_dot (s : string) : option (string * string) :=
  match s with
  | EmptyString => None
  | String c s' =>
      if Ascii.eqb c "."%char then Some (EmptyString, s')
      else match split_dot s' with
           | Some (a, b) => Some (String c a, b)
           | None => None
           end
  end.

(** Modelled from the spec: the integer reader of [strconv] ("recognize
    integers"); an optional sign followed by decimal digits. *)
Definition convert_int (s : string) : option Z :=
  let (neg, r) := split_sign s in
  match r with
  | EmptyString => None
  | _ => match digits r 0 with
         | Some n => Some (if neg then (- n)%Z else n)
         | None => None
         end
  end.

Definition float_of_Z (z : Z) : float := PrimFloat.of_uint63 (Uint63.of_Z z).

(** Modelled from the spec: the float reader of [strconv] ("recognize
    floats"); an optional sign and decimal digits around one decimal
    point.  The value is the quotient of two exactly represented integers,
    rounded once, hence the binary64 nearest to the decimal; this needs the
    digits to make a number below 2^53 and at most 18 of them after the
    point (so that the power of ten fits a 63-bit integer), and longer
    literals are left to the following readers. *)
Definition convert_float (s : string) : option float :=
  let (neg, r) := split_sign s in
  match split_dot r with
  | None => None
  | Some (ip, fp) =>
      match (ip ++ fp)%string with
      | EmptyString => None
      | all_digits =>
          match digits all_digits 0 with
          | Some m =>
              let k := Z.of_nat (String.length fp) in
              if (m <? 2 ^ 53)%Z && (k <=? 18)%Z then
                let q := PrimFloat.div (float_of_Z m) (float_of_Z (10 ^ k)) in
                Some (if neg then PrimFloat.opp q else q)
              else None
          | None => None
          end
      end
  end.

(** Modelled from the spec: the boolean reader of [strconv] ("recognize
    booleans"); the words true and false in any letter case. *)
Definition convert_bool (s : string) : option bool :=
  if String.eqb (upper s) "TRUE" then Some true
  else if String.eqb (upper s) "FALSE" then Some false
  else None.

(** Modelled from the spec: [strconv.convert], absent from the repository's
    sources.  It tries the integer, the float and the boolean reader in
    turn and falls back to the string; a value that is not a string is
    returned as it is; it raises nothing. *)
Definition convert (v : pyval) : exc pyval :=
  match v with
  | PyStr s =>
      match convert_int s with
      | Some z => Ok (PyInt z)
      | None =>
          match convert_float s with
          | Some f => Ok (PyFloat f)
          | None =>
              match convert_bool s with
              | Some b => Ok (PyBool b)
              | None => Ok v
              end
          end
      end
  | _ => Ok v
  end.

End Strconv.

(* ================================================================== *)
(** * RDF export ([parse_to_rdf]) *)
(* ================================================================== *)

Module Rdf.

Inductive term : Type :=
| URIRef (s : string)
| Literal_int (z : Z)
| Literal_str (s : string).

Definition term_eqb (a b : term) : bool :=
  match a, b with
  | URIRef s, URIRef t => String.eqb s t
  | Literal_int x, Literal_int y => Z.eqb x y
  | Literal_str s, Literal_str t => String.eqb s t
  | _, _ => false
  end.

Definition triple : Type := term * term * term.

Definition triple_eqb (a b : triple) : bool :=
  term_eqb (fst (fst a)) (fst (fst b))
  && term_eqb (snd (fst a)) (snd (fst b))
  && term_eqb (snd a) (snd b).

(** A [Graph] is a set of triples; they are kept in order of insertion. *)
Definition Graph : Type := list triple.

Definition add (g : Graph) (t : triple) : Graph :=
  if existsb (triple_eqb t) g then g else g ++ [t].

Definition PREFIX_TITAN := "http://www.ontologies.khaos.uma.es/titan/#".
Definition PREFIX_BIGOWL := "http://www.ontologies.khaos.uma.es/bigowl#".
Definition PREFIX_DMOP := "http://www.e-lico.eu/ontologies/dmo/DMOP/DMOP.owl#".
Definition RDF_type := URIRef "http://www.w3.org/1999/02/22-rdf-syntax-ns#type".

Definition uriref_workflow := URIRef (PREFIX_DMOP ++ "Workflow").
Definition uriref_num_task := URIRef (PREFIX_BIGOWL ++ "numTask").
Definition uriref_has_task := URIRef (PREFIX_BIGOWL ++ "hasTask").
Definition uriref_task_has_number_outputs := URIRef (PREFIX_BIGOWL ++ "numberOfOutputs").
Definition uriref_task_has_number_inputs := URIRef (PREFIX_BIGOWL ++ "numberOfInputs").
Definition uriref_task_specifies_input_class := URIRef (PREFIX_BIGOWL ++ "specifiesInputClass").
Definition uriref_task_specifies_output_class := URIRef (PREFIX_BIGOWL ++ "specifiesOutputClass").
Definition uriref_has_task_name := URIRef (PREFIX_BIGOWL ++ "hasName").
Definition uriref_has_component := URIRef (PREFIX_BIGOWL ++ "hasComponent").

(** The name of a task node:
    [op_data["definition"]["uri"] + f"-{workflow_id}-{op_idx}"]. *)
Definition task_uri (definition_uri workflow_id op_idx : string) : string :=
  (definition_uri ++ ("-" ++ workflow_id ++ "-" ++ op_idx))%string.

(** Whether a string contains the separator of [task_uri]. *)
Fixpoint has_hyphen (s : string) : bool :=
  match s with
  | EmptyString => false
  | String c s' => Ascii.eqb c "-"%char || has_hyphen s'
  end.

(** [x["definition"]["uri"]]: a definition that is [None] cannot be
    subscripted ([TypeError]).  When the dictionary was produced with
    [exclude_none=True], as [WorkflowManager.upsert] does, the key itself
    is absent and the subscript raises [KeyError] instead; the record does
    not tell the two apart, and nothing below depends on which of the two
    is raised. *)
Definition definition_uri (d : option Definition_) : exc string :=
  match d with
  | Some d => Ok (uri d)
  | None => Raise TypeError
  end.

Definition connector_step (task pred : term) (g : Graph)
    (kv : string * InputOutput) : exc Graph :=
  u <- definition_uri (io_definition (snd kv)) ;;
  Ok (add g (task, pred, URIRef u)).

Definition operator_step (name : term) (workflow_id : string) (g : Graph)
    (kv : string * Operator) : exc Graph :=
  let op_idx := fst kv in
  let op_data := snd kv in
  d <- definition_uri (definition op_data) ;;
  let task := URIRef (task_uri d workflow_id op_idx) in
  let g := add g (name, uriref_has_task, task) in
  let task_name := op_name (properties op_data) in
  let g := add g (task, uriref_has_task_name, Literal_str task_name) in
  let g := add g (task, uriref_task_has_number_inputs,
                  Literal_int (Z.of_nat (length (op_inputs (properties op_data))))) in
  g <- for_fold (connector_step task uriref_task_specifies_input_class)
         (op_inputs (properties op_data)) g ;;
  let g := add g (task, uriref_task_has_number_outputs,
                  Literal_int (Z.of_nat (length (op_outputs (properties op_data))))) in
  g <- for_fold (connector_step task uriref_task_specifies_output_class)
         (op_outputs (properties op_data)) g ;;
  component <- definition_uri (definition op_data) ;;
  Ok (add g (task, uriref_has_component, URIRef component)).

Definition parse_to_rdf (workflow : WorkflowRequest) (workflow_id : string)
  : exc Graph :=
  let g : Graph := [] in
  let name := URIRef (PREFIX_TITAN ++ "Workflow" ++ workflow_id) in
  let g := add g (name, RDF_type, uriref_workflow) in
  _operators <- match operators workflow with
                | Some o => Ok o
                | None => Raise TypeError
                end ;;
  let g := add g (name, uriref_num_task,
                  Literal_int (Z.of_nat (length _operators))) in
  for_fold (operator_step name workflow_id) _operators g.

End Rdf.

(* ================================================================== *)
(** * The precedence of the status aggregator, in the specification's words *)
(* ================================================================== *)

Module StatusSpec.

(** "every task is [st]" *)
Definition every_task_is (st : State) (states : list string) : bool :=
  forallb (String.eqb (State_value st)) states.

(** "any task is [st]" *)
Definition any_task_is (st : State) (states : list string) : bool :=
  existsb (String.eqb (State_value st)) states.

(** The seven rules, highest precedence first. *)
Definition aggregate (revoked : bool) (states : list string) : State :=
  if revoked then STATUS_REVOKED
  else if every_task_is STATUS_DONE states then STATUS_DONE
  else if any_task_is STATUS_FAILED states then STATUS_FAILED
  else if every_task_is STATUS_PENDING states then STATUS_PENDING
  else if any_task_is STATUS_PENDING states
          && negb (any_task_is STATUS_FAILED states) then STATUS_PENDING
  else if any_task_is STATUS_RUNNING states
          && negb (any_task_is STATUS_FAILED states) then STATUS_RUNNING
  else STATUS_UNKNOWN.

(** A status report made of per-task state strings and an optional
    revoked flag, as the engine sends it. *)
Definition report (states : list string) (revoked : option bool)
  : dict string pyval :=
  ("tasks", PyList (map (fun s => PyDict [("name", PyStr "task"); ("status", PyStr s)]) states))
    :: match revoked with
       | Some b => [("is_revoked", PyBool b)]
       | None => []
       end.

(** An entry of a report whose status cannot be read: it is no mapping,
    or its ["status"] is missing or is not a string. *)
Definition status_unreadable (task : pyval) : bool :=
  match task with
  | PyDict d =>
      match dict_get d "status" with
      | Some (PyStr _) => false
      | _ => true
      end
  | _ => true
  end.

End StatusSpec.

(* ================================================================== *)
(** * Observations on the compiler's state *)
(* ================================================================== *)

Module CompilerObs.
Import Compiler.

(** The entry of the link index for a destination (operator, connector),
    if there is one. *)
Definition index_lookup (links : link_index) (a b : idx) : option (idx * idx) :=
  match dict_get links a with
  | Some inner => dict_get inner b
  | None => None
  end.

(** The body of the loop of [build_links]. *)
Definition link_step (links : link_index) (kv : string * Link) : link_index :=
  index_assign links (toOperator (snd kv)) (toConnector (snd kv))
    (fromOperator (snd kv), fromConnector (snd kv)).

(** Two states of the link index with the same entries; fetching
    [links[op_idx]] for an operator without incoming link adds an empty
    dictionary and no entry. *)
Definition same_entries (l1 l2 : link_index) : Prop :=
  forall a b, index_lookup l1 a b = index_lookup l2 a b.

(** The display name under which a connector or a parameter is recorded. *)
Definition input_name (kv : string * InputOutput) : string :=
  prop_name (io_properties (snd kv)).

Definition parameter_name (kv : string * OperatorParameters) : string :=
  param_name (par_properties (snd kv)).

(** The value the input loop writes for connector [in_idx] of operator
    [op_idx] when the link index is [links]. *)
Definition recorded_input (_operators : dict string Operator)
    (links : link_index) (op_idx in_idx : string) : option string :=
  match resolve_input _operators
          (snd (defaultdict_getitem links (IdxStr op_idx))) in_idx with
  | Ok s => Some s
  | Raise _ => None
  end.

(** The value the parameter loop writes for a raw value. *)
Definition recorded_param (convert : pyval -> exc pyval) (v : pyval) : pyval :=
  match convert v with
  | Ok v' => v'
  | Raise _ => v
  end.

(** The task that the operator loop appends for one operator, as one
    expression. *)
Definition task_of (convert : pyval -> exc pyval)
    (_operators : dict string Operator) (links : link_index)
    (kv : string * Operator) : TaskSpec :=
  {| t_name := op_name (properties (snd kv));
     t_module := op_module (properties (snd kv));
     t_params :=
       set_items []
         (map (fun p => (parameter_name p,
                         recorded_param convert (param_value (par_properties (snd p)))))
              (parameters (snd kv)));
     t_inputs :=
       set_items []
         (map (fun c => (input_name c,
                         recorded_input _operators links (fst kv) (fst c)))
              (op_inputs (properties (snd kv)))) |}.

(** The three ways in which the lookup of an input can fail. *)
Inductive unresolvable (_operators : dict string Operator)
    (links : link_index) (op_idx in_idx : string) : Prop :=
| no_link :
    index_lookup links (IdxStr op_idx) (IdxStr in_idx) = None ->
    unresolvable _operators links op_idx in_idx
| dangling_operator from_op from_conn :
    index_lookup links (IdxStr op_idx) (IdxStr in_idx) = Some (from_op, from_conn) ->
    getitem_idx _operators from_op = Raise KeyError ->
    unresolvable _operators links op_idx in_idx
| missing_output from_op from_conn src :
    index_lookup links (IdxStr op_idx) (IdxStr in_idx) = Some (from_op, from_conn) ->
    getitem_idx _operators from_op = Ok src ->
    getitem_idx (op_outputs (properties src)) from_conn = Raise KeyError ->
    unresolvable _operators links op_idx in_idx.

(** [strconv.convert] raises nothing but [ValueError]. *)
Definition raises_only_ValueError (convert : pyval -> exc pyval) : Prop :=
  forall v e, convert v = Raise e -> e = ValueError.

End CompilerObs.

(* ================================================================== *)
(** * Query filtering and paging of the v3 router *)
(* ================================================================== *)

Module ExcludeKeys.
Section WithSetOrder.

(** The order in which Python iterates over a [set] is not specified; it
    is a parameter, some enumeration of the elements of the set. *)
Variable set_order : list string -> list string.

(** [set(xs) - set(ys)], as the list of its elements in iteration order. *)
Definition set_difference (xs ys : list string) : list string :=
  set_order
    (filter (fun k => negb (existsb (String.eqb k) ys))
       (nodup string_dec xs)).

(** [_exclude_keys(dictionary, keys)]:
    [key_set = set(dictionary.keys()) - set(keys)], then the dictionary
    comprehension [{key: dictionary[key] for key in key_set}]. *)
Definition _exclude_keys {V : Type} (dictionary : dict string V)
    (keys : list string) : exc (dict string V) :=
  let key_set := set_difference (Py.keys dictionary) keys in
  for_fold
    (fun acc key => v <- getitem dictionary key ;; Ok (dict_set acc key v))
    key_set [].

End WithSetOrder.
End ExcludeKeys.

Module FStatus.

Definition State_eqb (a b : State) : bool :=
  String.eqb (State_value a) (State_value b).

(** What a handler answers: a value, or [raise HTTPException(...)]. *)
Inductive answer (A : Type) : Type :=
| Return (a : A)
| HTTPException (status_code : Z) (detail : string).
Arguments Return {A} a.
Arguments HTTPException {A} status_code detail.

Section Page.
(** The stored workflow, as returned by the database. *)
Variable W : Type.
Variable Task_validates : list (string * pyval) -> bool.

(** A workflow together with what the engine client answered for it. *)
Record fetched : Type :=
  { f_workflow : W;
    f_executed : option string;
    f_response : dict string pyval;
    f_status_code : Z }.

(** [WorkflowInDBWithStatus]: the workflow, its tasks and its status. *)
Record with_status : Type :=
  { ws_workflow : W;
    ws_tasks : option (list pyval);
    ws_status : State }.

(** The first half of the loop body of [/fstatus]: derive the status. *)
Definition derive (w : fetched) : with_status :=
  let r := StatusV3.fstatus_of_workflow Task_validates
             (f_executed w) (f_response w) (f_status_code w) in
  {| ws_workflow := f_workflow w; ws_tasks := fst r; ws_status := snd r |}.

(** The counters and the page built by the loop. *)
Record page_state : Type :=
  { current_count : Z;
    total_count : Z;
    workflows_with_status : list with_status }.

(** The second half of the loop body: keep the workflow when its status
    is the requested one and it falls in the requested page. *)
Definition select (requested : State) (skips page_size : Z)
    (st : page_state) (workflow_with_status : with_status) : page_state :=
  if State_eqb (ws_status workflow_with_status) requested then
    let st' :=
      if (skips <=? total_count st)%Z
         && (Z.of_nat (length (workflows_with_status st)) <? page_size)%Z
      then {| current_count := current_count st + 1;
              total_count := total_count st;
              workflows_with_status :=
                workflows_with_status st ++ [workflow_with_status] |}
      else st in
    {| current_count := current_count st';
       total_count := total_count st' + 1;
       workflows_with_status := workflows_with_status st' |}
  else st.

(** The workflows that the loop counts: those with the requested status. *)
Definition wanted (requested : State) (w : with_status) : bool :=
  State_eqb (ws_status w) requested.

(** [/fstatus] from [current_count, total_count = 0, 0] to the test that
    follows the loop; the result is the page and [total_count].  The
    pagination record built afterwards is not part of the model. *)
Definition fstatus_page (requested : State) (page_size page_num : Z)
    (workflows : list fetched) : answer (list with_status * Z) :=
  let skips := (page_size * (page_num - 1))%Z in
  let st :=
    fold_left (fun st w => select requested skips page_size st (derive w))
      workflows
      {| current_count := 0; total_count := 0; workflows_with_status := [] |} in
  match workflows_with_status st with
  | [] => HTTPException 404 "No results matching query were found"
  | _ => Return (workflows_with_status st, total_count st)
  end.

End Page.
End FStatus.

(* ================================================================== *)
(** * Observations on the exported graph *)
(* ================================================================== *)

Module RdfObs.

Definition subject (t : Rdf.triple) : Rdf.term := fst (fst t).

Definition has_definition (c : string * InputOutput) : bool :=
  match io_definition (snd c) with
  | Some _ => true
  | None => false
  end.

(** An operator that the exporter can describe: the operator and all its
    connectors carry a definition. *)
Definition describable (kv : string * Operator) : bool :=
  match definition (snd kv) with
  | Some _ =>
      forallb has_definition (op_inputs (properties (snd kv)))
      && forallb has_definition (op_outputs (properties (snd kv)))
  | None => false
  end.

(** The node of the workflow, [PREFIX_TITAN + "Workflow" + workflow_id]. *)
Definition workflow_node (workflow_id : string) : Rdf.term :=
  Rdf.URIRef (Rdf.PREFIX_TITAN ++ "Workflow" ++ workflow_id).

Definition predicate (t : Rdf.triple) : Rdf.term := snd (fst t).

(** The node of the task of an operator with definition [d]. *)
Definition task_node (d : Definition_) (workflow_id op_idx : string) : Rdf.term :=
  Rdf.URIRef (Rdf.task_uri (uri d) workflow_id op_idx).

(** The predicates of the triples that [parse_to_rdf] adds about a task. *)
Definition task_predicates : list Rdf.term :=
  [Rdf.uriref_has_task_name;
   Rdf.uriref_task_has_number_inputs;
   Rdf.uriref_task_specifies_input_class;
   Rdf.uriref_task_has_number_outputs;
   Rdf.uriref_task_specifies_output_class;
   Rdf.uriref_has_component].

(** The triples that describe one operator: the link from the workflow
    node, or a triple about the task node with one of the task predicates. *)
Definition about_operator (workflow_id : string) (kv : string * Operator)
    (t : Rdf.triple) : Prop :=
  exists d,
    definition (snd kv) = Some d
    /\ (t = (workflow_node workflow_id, Rdf.uriref_has_task,
             task_node d workflow_id (fst kv))
        \/ (subject t = task_node d workflow_id (fst kv)
            /\ In (predicate t) task_predicates)).

(** The description of one operator in a graph: the link from the workflow
    node to the task node, the name, the numbers of inputs and outputs, the
    component, and the class of every input and output. *)
Definition described (workflow_id : string) (kv : string * Operator)
    (g : Rdf.Graph) : Prop :=
  exists d,
    definition (snd kv) = Some d
    /\ In (workflow_node workflow_id, Rdf.uriref_has_task,
           task_node d workflow_id (fst kv)) g
    /\ In (task_node d workflow_id (fst kv), Rdf.uriref_has_task_name,
           Rdf.Literal_str (op_name (properties (snd kv)))) g
    /\ In (task_node d workflow_id (fst kv), Rdf.uriref_task_has_number_inputs,
           Rdf.Literal_int (Z.of_nat (length (op_inputs (properties (snd kv)))))) g
    /\ In (task_node d workflow_id (fst kv), Rdf.uriref_task_has_number_outputs,
           Rdf.Literal_int (Z.of_nat (length (op_outputs (properties (snd kv)))))) g
    /\ In (task_node d workflow_id (fst kv), Rdf.uriref_has_component,
           Rdf.URIRef (uri d)) g
    /\ (forall c, In c (op_inputs (properties (snd kv))) ->
          exists dc, io_definition (snd c) = Some dc
                     /\ In (task_node d workflow_id (fst kv),
                            Rdf.uriref_task_specifies_input_class,
                            Rdf.URIRef (uri dc)) g)
    /\ (forall c, In c (op_outputs (properties (snd kv))) ->
          exists dc, io_definition (snd c) = Some dc
                     /\ In (task_node d workflow_id (fst kv),
                            Rdf.uriref_task_specifies_output_class,
                            Rdf.URIRef (uri dc)) g).

End RdfObs.

(* ================================================================== *)
(** * Observations on the engine's report *)
(* ================================================================== *)

Module ReportObs.

(** The status string of an entry of the report, when it has one. *)
Definition status_text (task : pyval) : string :=
  match task with
  | PyDict d =>
      match dict_get d "status" with
      | Some (PyStr s) => s
      | _ => ""
      end
  | _ => ""
  end.

(** The entries that the [Task] model accepts. *)
Definition accepted (Task_validates : list (string * pyval) -> bool)
    (task : pyval) : bool :=
  match task with
  | PyDict d => Task_validates d
  | _ => false
  end.

(** A report that the v3 handlers give up on before any task is read. *)
Inductive unusable (executed : option string) (response : dict string pyval)
    (status_code : Z) : Prop :=
| never_executed : executed = None -> unusable executed response status_code
| empty_execution_id : executed = Some "" -> unusable executed response status_code
| request_failed : status_code <> 200%Z -> unusable executed response status_code
| no_tasks : dict_get response "tasks" = None -> unusable executed response status_code
| tasks_not_iterable v :
    dict_get response "tasks" = Some v ->
    iterate v = Raise TypeError ->
    unusable executed response status_code.

End ReportObs.

(* ================================================================== *)
(** * Concrete inputs used below *)
(* ================================================================== *)

Module Examples.

(** The entries of a report with one DONE task and one entry that has
    no status. *)
Definition tasks_missing_status : list pyval :=
  [PyDict [("name", PyStr "a"); ("status", PyStr "DONE")];
   PyDict [("name", PyStr "b")]].

Definition report_missing_status : dict string pyval :=
  [("tasks", PyList tasks_missing_status)].

(** The workflow of [tests/test_parse_workflow.py]. *)
Definition out_0 : InputOutput :=
  {| io_properties := {| prop_name := "DemoTaskOneOutput" |};
     io_definition := Some {| uri := "https://www.w3.org/#Data0" |} |}.

Definition in_0 : InputOutput :=
  {| io_properties := {| prop_name := "DemoTaskTwoInput" |};
     io_definition := Some {| uri := "https://www.w3.org/#Data0" |} |}.

Definition param_0 : OperatorParameters :=
  {| par_properties := {| param_name := "param0"; param_value := PyInt 0;
                          param_defaultValue := PyNone |};
     par_definition := Some {| uri := "https://www.w3.org/#Parameter0" |} |}.

Definition param_1 : OperatorParameters :=
  {| par_properties := {| param_name := "param1"; param_value := PyStr "one";
                          param_defaultValue := PyNone |};
     par_definition := Some {| uri := "https://www.w3.org/#Parameter1" |} |}.

Definition op_0 : Operator :=
  {| properties := {| op_name := "DemoTaskOne"; op_module := "DemoTaskOneModule";
                      op_inputs := []; op_outputs := [("out_0", out_0)] |};
     parameters := [("param_0", param_0); ("param_1", param_1)];
     definition := Some {| uri := "https://www.w3.org/#Component0" |} |}.

Definition op_1 : Operator :=
  {| properties := {| op_name := "DemoTaskTwo"; op_module := "DemoTaskTwoModule";
                      op_inputs := [("in_0", in_0)]; op_outputs := [] |};
     parameters := [];
     definition := Some {| uri := "https://www.w3.org/#Component1" |} |}.

Definition test_operators : dict string Operator :=
  [("op_0", op_0); ("op_1", op_1)].

Definition test_links : dict string Link :=
  [("0", {| fromOperator := IdxStr "op_0"; fromConnector := IdxStr "out_0";
            toOperator := IdxStr "op_1"; toConnector := IdxStr "in_0" |})].

Definition test_workflow : WorkflowRequest :=
  {| operators := Some test_operators;
     links := Some test_links;
     metadata := [("label", PyStr "test_parse_workflow")] |}.

(** The same operators without any link. *)
Definition unlinked_workflow : WorkflowRequest :=
  {| operators := Some test_operators; links := Some []; metadata := [] |}.

(** An operator with two parameters and two input connectors that share
    their display names, and one parameter written as a decimal. *)
Definition par (name : string) (v : pyval) : OperatorParameters :=
  {| par_properties := {| param_name := name; param_value := v;
                          param_defaultValue := PyNone |};
     par_definition := None |}.

Definition conn (name : string) : InputOutput :=
  {| io_properties := {| prop_name := name |}; io_definition := None |}.

Definition op_clash : Operator :=
  {| properties := {| op_name := "Clash"; op_module := "ClashModule";
                      op_inputs := [("in_0", conn "data"); ("in_1", conn "data")];
                      op_outputs := [] |};
     parameters := [("param_0", par "rate" (PyStr "one"));
                    ("param_1", par "rate" (PyStr "3.14"))];
     definition := None |}.

Definition clash_operators : dict string Operator :=
  [("op_0", op_0); ("op_2", op_clash)].

Definition clash_links : dict string Link :=
  [("0", {| fromOperator := IdxStr "op_0"; fromConnector := IdxStr "out_0";
            toOperator := IdxStr "op_2"; toConnector := IdxStr "in_0" |})].

Definition clash_workflow : WorkflowRequest :=
  {| operators := Some clash_operators; links := Some clash_links;
     metadata := [] |}.

(** The test workflow with a link from an operator that does not exist, a
    link from an output that does not exist, and a link whose source is
    given as an integer. *)
Definition op_three_inputs : Operator :=
  {| properties := {| op_name := "DemoTaskThree"; op_module := "DemoTaskThreeModule";
                      op_inputs := [("in_0", conn "a"); ("in_1", conn "b");
                                    ("in_2", conn "c"); ("in_3", conn "d")];
                      op_outputs := [] |};
     parameters := [];
     definition := None |}.

Definition dangling_links : dict string Link :=
  [("0", {| fromOperator := IdxStr "op_9"; fromConnector := IdxStr "out_0";
            toOperator := IdxStr "op_3"; toConnector := IdxStr "in_0" |});
   ("1", {| fromOperator := IdxStr "op_0"; fromConnector := IdxStr "out_9";
            toOperator := IdxStr "op_3"; toConnector := IdxStr "in_1" |});
   ("2", {| fromOperator := IdxInt 0; fromConnector := IdxStr "out_0";
            toOperator := IdxStr "op_3"; toConnector := IdxStr "in_2" |});
   ("3", {| fromOperator := IdxStr "op_0"; fromConnector := IdxStr "out_0";
            toOperator := IdxStr "op_3"; toConnector := IdxStr "in_3" |})].

Definition dangling_workflow : WorkflowRequest :=
  {| operators := Some [("op_0", op_0); ("op_3", op_three_inputs)];
     links := Some dangling_links;
     metadata := [] |}.

(** The binary64 number that the literal 3.14 denotes. *)
#[warnings="-inexact-float"]
Definition float_3_14 : float := 3.14%float.

End Examples.

(* ================================================================== *)
(** * The [Task] model and the end of the v2 handler *)
(* ================================================================== *)

Module TaskModel.

(** [class Task(BaseModel)]: [name: str], [params: dict = {}],
    [inputs: dict = {}], [created_at], [updated_at] and [result] optional,
    [status: State = None].  The validation itself is done by the model
    library; what the declaration settles is stated as two bounds on it. *)

(** The string is the value of a member of [State]. *)
Definition names_state (s : string) : bool :=
  str_in_states s
    [STATUS_UNKNOWN; STATUS_REVOKED; STATUS_PENDING; STATUS_RUNNING;
     STATUS_FAILED; STATUS_DONE].

(** Entries that the declaration makes valid: a string for the name,
    dictionaries (or nothing) for [params] and [inputs], nothing or [None]
    for the dates, nothing, [None] or a dictionary for [result], and no
    status or the value of a [State] member. *)
Definition certainly_valid (d : list (string * pyval)) : bool :=
  match dict_get d "name" with Some (PyStr _) => true | _ => false end
  && match dict_get d "params" with None | Some (PyDict _) => true | _ => false end
  && match dict_get d "inputs" with None | Some (PyDict _) => true | _ => false end
  && match dict_get d "created_at" with None | Some PyNone => true | _ => false end
  && match dict_get d "updated_at" with None | Some PyNone => true | _ => false end
  && match dict_get d "result" with
     | None | Some PyNone | Some (PyDict _) => true
     | _ => false
     end
  && match dict_get d "status" with
     | None => true
     | Some (PyStr s) => names_state s
     | _ => false
     end.

(** Entries that the declaration makes invalid: no name or [None] for it,
    [None] for [params] or [inputs], or a status string that is the value
    of no [State] member. *)
Definition certainly_invalid (d : list (string * pyval)) : bool :=
  match dict_get d "name" with None | Some PyNone => true | _ => false end
  || match dict_get d "params" with Some PyNone => true | _ => false end
  || match dict_get d "inputs" with Some PyNone => true | _ => false end
  || match dict_get d "status" with
     | Some (PyStr s) => negb (names_state s)
     | _ => false
     end.

(** A validation that agrees with the declaration of [Task]. *)
Definition respects (Task_validates : list (string * pyval) -> bool) : Prop :=
  (forall d, certainly_valid d = true -> Task_validates d = true)
  /\ (forall d, certainly_invalid d = true -> Task_validates d = false).

(** Whether a string is made of ASCII characters only; on such strings
    [upper] is Python's [str.upper]. *)
Fixpoint is_ascii (s : string) : bool :=
  match s with
  | EmptyString => true
  | String c s' => (nat_of_ascii c <? 128)%nat && is_ascii s'
  end.

End TaskModel.

Module StatusV2Full.

Section WithTask.
(** The validation done by the [Task] model, as in the v3 handlers. *)
Variable Task_validates : list (string * pyval) -> bool.

(** [/status] of the v2 router from [# read tasks] to [return]: after the
    chain, [WorkflowInDBWithStatus(..., tasks=tasks_with_status,
    status=workflow_status)] validates every rebuilt entry as a [Task]. *)
Definition status (response : dict string pyval) : exc (list pyval * State) :=
  r <- StatusV2.status_block response ;;
  let tasks_with_status := fst r in
  let workflow_status := snd r in
  if forallb (ReportObs.accepted Task_validates) tasks_with_status
  then Ok (tasks_with_status, workflow_status)
  else Raise ValidationError.

End WithTask.
End StatusV2Full.

(* ================================================================== *)
(** * More concrete inputs *)
(* ================================================================== *)

Module Cases.

(** A second producer, and two links that name the same input. *)
Definition op_4 : Operator :=
  {| properties := {| op_name := "DemoTaskFour"; op_module := "DemoTaskFourModule";
                      op_inputs := [];
                      op_outputs := [("out_0", Examples.conn "Result")] |};
     parameters := [];
     definition := None |}.

Definition link_from (from_op : string) : Link :=
  {| fromOperator := IdxStr from_op; fromConnector := IdxStr "out_0";
     toOperator := IdxStr "op_1"; toConnector := IdxStr "in_0" |}.

Definition rival_operators : dict string Operator :=
  [("op_0", Examples.op_0); ("op_1", Examples.op_1); ("op_4", op_4)].

Definition rival_workflow : WorkflowRequest :=
  {| operators := Some rival_operators;
     links := Some [("0", link_from "op_0"); ("1", link_from "op_4")];
     metadata := [] |}.

(** A workflow stored without links: the field keeps its default. *)
Definition no_links_workflow : WorkflowRequest :=
  {| operators := Some Examples.test_operators; links := None; metadata := [] |}.

(** An operator whose second output has no definition. *)
Definition op_5 : Operator :=
  {| properties := {| op_name := "DemoTaskFive"; op_module := "DemoTaskFiveModule";
                      op_inputs := [];
                      op_outputs := [("out_0", Examples.out_0);
                                     ("out_1", Examples.conn "Loose")] |};
     parameters := [];
     definition := Some {| uri := "https://www.w3.org/#Component5" |} |}.

Definition undefined_workflow : WorkflowRequest :=
  {| operators := Some [("op_0", Examples.op_0); ("op_5", op_5)];
     links := Some []; metadata := [] |}.

(** Query parameters of a request to [/get]. *)
Definition query_params : dict string string :=
  [("username", "test"); ("page_size", "1"); ("metadata.label", "demo");
   ("page_num", "1"); ("metadata.kind", "etl")].

(** Five stored workflows with the answers of the engine: done, running,
    never executed, done, done. *)
Definition fetched_of (name : string) (executed : option string)
    (states : list string) : FStatus.fetched string :=
  {| FStatus.f_workflow := name;
     FStatus.f_executed := executed;
     FStatus.f_response := StatusSpec.report states None;
     FStatus.f_status_code := 200 |}.

Definition stored : list (FStatus.fetched string) :=
  [fetched_of "w1" (Some "e1") ["DONE"];
   fetched_of "w2" (Some "e2") ["RUNNING"; "DONE"];
   fetched_of "w3" None [];
   fetched_of "w4" (Some "e4") ["DONE"; "DONE"];
   fetched_of "w5" (Some "e5") ["DONE"]].

End Cases.

Module Reports.

(** An entry of the engine's report with the fields of a task. *)
Definition entry (name status : string) : pyval :=
  PyDict [("name", PyStr name); ("params", PyDict []); ("inputs", PyDict []);
          ("status", PyStr status)].

(** A report whose entries have the given statuses. *)
Definition report (states : list string) (revoked : option bool)
  : dict string pyval :=
  ("tasks", PyList (map (entry "task") states))
    :: match revoked with
       | Some b => [("is_revoked", PyBool b)]
       | None => []
       end.

(** A revoked execution whose only task is done. *)
Definition revoked_report : dict string pyval := report ["DONE"] (Some true).


(** A report with a status that names no state. *)
Definition bogus_report : dict string pyval := report ["DONE"; "BOGUS"] None.

(** A report of the current engine: one task runs, the other is done. *)
Definition running_report : dict string pyval := report ["RUNNING"; "DONE"] None.

(** Three operators; the links of [Examples.dangling_links] all lead to
    the third one, none to the second, which has an input. *)
Definition partly_linked_workflow : WorkflowRequest :=
  {| operators := Some [("op_0", Examples.op_0); ("op_1", Examples.op_1);
                        ("op_3", Examples.op_three_inputs)];
     links := Some Examples.dangling_links;
     metadata := [] |}.

End Reports.

(* ================================================================== *)
(** * Properties *)
(* ================================================================== *)

(** ** The error monad and its loops *)

Section ForEachFacts.
Context {A B : Type}.
Variable f : A -> exc B.

Lemma for_each_ok (g : A -> B) (l : list A) :
  (forall x, In x l -> f x = Ok (g x)) ->
  for_each f l = Ok (map g l).
Proof.
  induction l as [| x l IH]; intros Hf; simpl.
  - reflexivity.
  - rewrite (Hf x (or_introl eq_refl)).
    rewrite IH by (intros y Hy; apply Hf; right; exact Hy).
    reflexivity.
Qed.

Lemma for_each_raises (bad : A -> bool) (l : list A) :
  (forall x, bad x = true -> exists e, f x = Raise e) ->
  existsb bad l = true ->
  exists e, for_each f l = Raise e.
Proof.
  intros Hbad.
  induction l as [| x l IH]; simpl; intros Hex.
  - discriminate.
  - destruct (f x) as [y | e] eqn:Hfx.
    + apply orb_true_iff in Hex as [Hx | Hl].
      * destruct (Hbad x Hx) as [e He]. congruence.
      * destruct (IH Hl) as [e He]. rewrite He. eauto.
    + eauto.
Qed.
End ForEachFacts.

(** ** Status aggregation *)

Section CheckFacts.
Variable states : list string.

Lemma v3_check_all_one (st : State) :
  StatusV3._check states Py.all [st] = StatusSpec.every_task_is st states.
Proof.
  unfold StatusV3._check, Py.all, StatusSpec.every_task_is.
  induction states as [| s l IH]; cbn [map forallb existsb].
  - reflexivity.
  - rewrite IH. unfold str_in_states. cbn [existsb].
    rewrite orb_false_r, (String.eqb_sym s). reflexivity.
Qed.

Lemma v3_check_any_one (st : State) :
  StatusV3._check states Py.any [st] = StatusSpec.any_task_is st states.
Proof.
  unfold StatusV3._check, Py.any, StatusSpec.any_task_is.
  induction states as [| s l IH]; cbn [map forallb existsb].
  - reflexivity.
  - rewrite IH. unfold str_in_states. cbn [existsb].
    rewrite orb_false_r, (String.eqb_sym s). reflexivity.
Qed.
End CheckFacts.

Lemma every_task_is_Forall (st : State) (states : list string) :
  StatusSpec.every_task_is st states = true <->
  Forall (fun s => s = State_value st) states.
Proof.
  unfold StatusSpec.every_task_is.
  rewrite forallb_forall, Forall_forall.
  split; intros Hall s Hs.
  - symmetry. apply String.eqb_eq. auto.
  - apply String.eqb_eq. symmetry. auto.
Qed.

Lemma any_task_is_Exists (st : State) (states : list string) :
  StatusSpec.any_task_is st states = true <->
  Exists (fun s => s = State_value st) states.
Proof.
  unfold StatusSpec.any_task_is.
  rewrite existsb_exists, Exists_exists.
  split; intros [s [Hs Heq]]; exists s; split; auto.
  - symmetry. apply String.eqb_eq. exact Heq.
  - apply String.eqb_eq. symmetry. exact Heq.
Qed.

(** C1.  At both v3 call sites ([/status] and [/fstatus]) the workflow state
    derived from the upper-cased task states and the revoked flag follows
    the seven rules in their order: REVOKED when revoked; else DONE when
    every task is DONE; else FAILED when any task is FAILED; else PENDING
    when every task is PENDING; else PENDING when any task is PENDING and
    none is FAILED; else RUNNING when any task is RUNNING and none is
    FAILED; otherwise UNKNOWN. *)
Theorem C1_v3_precedence :
  forall (revoked : bool) (states : list string),
    StatusV3.status_workflow_status revoked states
      = StatusSpec.aggregate revoked states
    /\ StatusV3.fstatus_workflow_status revoked states
      = StatusSpec.aggregate revoked states.
Proof.
  intros revoked states.
  unfold StatusV3.status_workflow_status, StatusV3.fstatus_workflow_status,
    StatusSpec.aggregate.
  rewrite !v3_check_all_one, !v3_check_any_one.
  split; reflexivity.
Qed.

(** C3 fails as stated: with no task and no revoked flag the v3 chain does
    not answer UNKNOWN. *)
Lemma C3_counterexample :
  StatusV3.status_workflow_status false [] <> STATUS_UNKNOWN.
Proof. vm_compute. discriminate. Qed.

(** C3, amended.  With an empty task list and the revoked flag not set,
    every call site answers DONE: "every task is DONE" holds of an empty
    list, and that rule is tested first. *)
Theorem C3_empty_report_is_DONE :
  StatusV3.status_workflow_status false [] = STATUS_DONE
  /\ StatusV3.fstatus_workflow_status false [] = STATUS_DONE
  /\ StatusV2.workflow_status [] = STATUS_DONE
  /\ StatusV3.status_of_workflow (fun _ => true) (Some "run-1")
       (StatusSpec.report [] None) 200 = (Some [], STATUS_DONE)
  /\ StatusV2.status_block (StatusSpec.report [] None) = Ok ([], STATUS_DONE).
Proof. repeat split. Qed.

(** C4 fails as stated: for PENDING, RUNNING the v3 chain does not answer
    RUNNING. *)
Lemma C4_counterexample :
  StatusV3.status_workflow_status false ["PENDING"; "RUNNING"] <> STATUS_RUNNING.
Proof. vm_compute. discriminate. Qed.

(** C4, amended.  For the task states PENDING, RUNNING and no revoked flag
    both v3 call sites answer PENDING, because "any task is PENDING and
    none is FAILED" is tested before the RUNNING rule; only the v2 call
    site answers RUNNING. *)
Theorem C4_pending_running :
  StatusV3.status_workflow_status false ["PENDING"; "RUNNING"] = STATUS_PENDING
  /\ StatusV3.fstatus_workflow_status false ["PENDING"; "RUNNING"] = STATUS_PENDING
  /\ StatusV2.workflow_status ["PENDING"; "RUNNING"] = STATUS_RUNNING.
Proof. repeat split. Qed.

(** Reading an entry whose status is unreadable raises, in both routers. *)
Lemma v3_read_task_unreadable
    (Task_validates : list (string * pyval) -> bool) (task : pyval) :
  StatusSpec.status_unreadable task = true ->
  exists e, StatusV3.read_task Task_validates task = Raise e.
Proof.
  unfold StatusSpec.status_unreadable, StatusV3.read_task.
  destruct task as [| b | z | f | s | l | d]; intros Hbad; eauto.
  destruct (Task_validates d); eauto.
  destruct (dict_get d "status") as [[| b | z | f | s | l | d'] |];
    eauto; discriminate.
Qed.

Lemma v2_read_task_unreadable (task : pyval) :
  StatusSpec.status_unreadable task = true ->
  exists e, StatusV2.read_task task = Raise e.
Proof.
  unfold StatusSpec.status_unreadable, StatusV2.read_task, StatusV2.task_get.
  destruct task as [| b | z | f | s | l | d]; intros Hbad; simpl; eauto.
  destruct (dict_get d "status") as [[| b | z | f | s | l | d'] |];
    simpl; eauto; discriminate.
Qed.

(** C5 fails as stated.  The report holds a DONE task and an entry without
    status: the v2 handler raises, and the v3 handler does not aggregate
    the remaining entry (which alone would give DONE). *)
Lemma C5_counterexample :
  StatusV2.status_block Examples.report_missing_status = Raise AttributeError
  /\ snd (StatusV3.status_of_workflow (fun _ => true) (Some "run-1")
            Examples.report_missing_status 200)
     <> StatusV3.status_workflow_status false ["DONE"].
Proof. split; vm_compute; [reflexivity | discriminate]. Qed.

(** ** Dictionaries *)

Section DictFacts.
Context {K V : Type} `{PyKey K}.
Implicit Types (d : dict K V) (k : K) (v : V).

Lemma key_eqb_refl k : key_eqb k k = true.
Proof. destruct (key_eqb_spec k k); congruence. Qed.

Lemma key_eqb_neq k k' : k <> k' -> key_eqb k k' = false.
Proof. intros Hne. destruct (key_eqb_spec k k'); congruence. Qed.

Lemma dict_get_set_same d k v : dict_get (dict_set d k v) k = Some v.
Proof.
  induction d as [| [k' v'] d IH]; simpl.
  - now rewrite key_eqb_refl.
  - destruct (key_eqb_spec k' k) as [-> | Hne]; simpl.
    + now rewrite key_eqb_refl.
    + now rewrite (key_eqb_neq Hne).
Qed.

Lemma dict_get_set_other d k k' v :
  k <> k' -> dict_get (dict_set d k v) k' = dict_get d k'.
Proof.
  intros Hne.
  induction d as [| [k0 v0] d IH]; simpl.
  - now rewrite (key_eqb_neq Hne).
  - destruct (key_eqb_spec k0 k) as [-> | Hne0]; simpl.
    + now rewrite (key_eqb_neq Hne).
    + now rewrite IH.
Qed.

Lemma dict_get_In_keys d k v : dict_get d k = Some v -> In k (keys d).
Proof.
  induction d as [| [k' v'] d IH]; simpl; [discriminate |].
  destruct (key_eqb_spec k' k) as [-> | Hne]; auto.
Qed.

Lemma In_keys_dict_get d k : In k (keys d) -> exists v, dict_get d k = Some v.
Proof.
  induction d as [| [k' v'] d IH]; simpl; [tauto |].
  intros [-> | Hin].
  - rewrite key_eqb_refl. eauto.
  - destruct (key_eqb k' k); eauto.
Qed.

Lemma keys_dict_set d k v k' :
  In k' (keys (dict_set d k v)) <-> k' = k \/ In k' (keys d).
Proof.
  induction d as [| [k0 v0] d IH]; simpl.
  - intuition.
  - destruct (key_eqb_spec k0 k) as [-> | Hne]; simpl.
    + intuition.
    + rewrite IH. intuition.
Qed.

Lemma NoDup_keys_dict_set d k v :
  NoDup (keys d) -> NoDup (keys (dict_set d k v)).
Proof.
  induction d as [| [k0 v0] d IH]; simpl; intros Hnd.
  - constructor; [intros [] | constructor].
  - inversion Hnd as [| ? ? Hnotin Hnd']; subst.
    destruct (key_eqb_spec k0 k) as [-> | Hne]; simpl.
    + constructor; assumption.
    + constructor; [| now apply IH].
      intros Hin. apply keys_dict_set in Hin as [-> | Hin]; tauto.
Qed.

Lemma values_dict_set (P : V -> Prop) d k v :
  P v -> Forall P (values d) -> Forall P (values (dict_set d k v)).
Proof.
  intros Hv.
  induction d as [| [k0 v0] d IH]; simpl; intros Hall.
  - repeat constructor. exact Hv.
  - inversion Hall; subst.
    destruct (key_eqb k0 k); simpl; constructor; auto.
Qed.

(** *** A loop of assignments *)

Lemma set_items_app d (xs ys : list (K * V)) :
  set_items d (xs ++ ys) = set_items (set_items d xs) ys.
Proof. unfold set_items. apply fold_left_app. Qed.

Lemma set_items_cons d (x : K * V) (xs : list (K * V)) :
  set_items d (x :: xs) = set_items (dict_set d (fst x) (snd x)) xs.
Proof. reflexivity. Qed.

Lemma keys_set_items (items : list (K * V)) : forall d k,
  In k (keys (set_items d items)) <-> In k (keys d) \/ In k (map fst items).
Proof.
  induction items as [| [k0 v0] items IH]; intros d k.
  - simpl. tauto.
  - rewrite set_items_cons, IH, keys_dict_set. simpl. intuition.
Qed.

Lemma NoDup_keys_set_items (items : list (K * V)) : forall d,
  NoDup (keys d) -> NoDup (keys (set_items d items)).
Proof.
  induction items as [| x items IH]; intros d Hnd.
  - exact Hnd.
  - rewrite set_items_cons. apply IH, NoDup_keys_dict_set, Hnd.
Qed.

Lemma dict_get_set_items_absent (items : list (K * V)) : forall d k,
  ~ In k (map fst items) -> dict_get (set_items d items) k = dict_get d k.
Proof.
  induction items as [| [k0 v0] items IH]; intros d k Hnotin.
  - reflexivity.
  - rewrite set_items_cons, IH by (simpl in Hnotin; tauto).
    apply dict_get_set_other. simpl in Hnotin. simpl. tauto.
Qed.

(** The assignment that counts for a key is the last one in the loop. *)
Lemma dict_get_set_items_last d (pre post : list (K * V)) k v :
  ~ In k (map fst post) ->
  dict_get (set_items d (pre ++ (k, v) :: post)) k = Some v.
Proof.
  intros Hnotin.
  rewrite set_items_app, set_items_cons, dict_get_set_items_absent by assumption.
  apply dict_get_set_same.
Qed.

Lemma values_set_items (P : V -> Prop) (items : list (K * V)) : forall d,
  Forall P (map snd items) -> Forall P (values d) ->
  Forall P (values (set_items d items)).
Proof.
  induction items as [| [k0 v0] items IH]; intros d Hitems Hd.
  - exact Hd.
  - inversion Hitems; subst.
    rewrite set_items_cons. apply IH; [assumption |].
    now apply values_dict_set.
Qed.

(** A loop of assignments into an empty dictionary yields at most one
    entry per assignment, and fewer when two assignments share a key. *)
Lemma length_set_items_le (items : list (K * V)) :
  length (set_items [] items) <= length items.
Proof.
  rewrite <- (length_map fst (set_items [] items)), <- (length_map fst items).
  apply NoDup_incl_length.
  - apply (NoDup_keys_set_items items []). constructor.
  - intros k Hk. apply keys_set_items in Hk as [[] | Hk]. exact Hk.
Qed.

Lemma length_set_items_lt (items : list (K * V)) :
  ~ NoDup (map fst items) ->
  length (set_items [] items) < length items.
Proof.
  intros Hdup.
  destruct (Nat.lt_ge_cases (length (set_items [] items)) (length items))
    as [Hlt | Hge]; [exact Hlt | exfalso].
  apply Hdup.
  apply NoDup_incl_NoDup with (l := keys (set_items [] items)).
  - apply (NoDup_keys_set_items items []). constructor.
  - unfold keys. rewrite !length_map. exact Hge.
  - intros k Hk. apply keys_set_items in Hk as [[] | Hk]. exact Hk.
Qed.

End DictFacts.

(** ** The task compiler *)

Section CompilerFacts.
Import Compiler CompilerObs.

Variable _operators : dict string Operator.

(** *** The link index *)

Lemma same_entries_refl links : same_entries links links.
Proof. intros a b. reflexivity. Qed.

Lemma same_entries_trans l1 l2 l3 :
  same_entries l1 l2 -> same_entries l2 l3 -> same_entries l1 l3.
Proof. intros H12 H23 a b. now rewrite H12. Qed.

Lemma defaultdict_getitem_same_entries links k :
  same_entries links (fst (defaultdict_getitem links k)).
Proof.
  unfold defaultdict_getitem.
  destruct (dict_get links k) as [inner |] eqn:Hk; simpl.
  - apply same_entries_refl.
  - intros a b. unfold index_lookup.
    destruct (key_eqb_spec k a) as [<- | Hne].
    + now rewrite dict_get_set_same, Hk.
    + now rewrite dict_get_set_other.
Qed.

Lemma defaultdict_getitem_inner links k b :
  dict_get (snd (defaultdict_getitem links k)) b = index_lookup links k b.
Proof.
  unfold defaultdict_getitem, index_lookup.
  destruct (dict_get links k); reflexivity.
Qed.

Lemma index_lookup_empty a b : index_lookup [] a b = None.
Proof. reflexivity. Qed.

(** *** Resolving one input *)

Lemma resolve_input_KeyError inner in_idx e :
  resolve_input _operators inner in_idx = Raise e -> e = KeyError.
Proof.
  unfold resolve_input, getitem_idx, getitem.
  destruct (dict_get inner (IdxStr in_idx)) as [[from_op from_conn] |];
    simpl; [| congruence].
  destruct from_op as [s | z]; simpl; [| congruence].
  destruct (dict_get _operators s) as [src |]; simpl; [| congruence].
  destruct from_conn as [c | z]; simpl; [| congruence].
  destruct (dict_get (op_outputs (properties src)) c); simpl; congruence.
Qed.

Lemma resolve_input_ext inner inner' in_idx :
  dict_get inner (IdxStr in_idx) = dict_get inner' (IdxStr in_idx) ->
  resolve_input _operators inner in_idx = resolve_input _operators inner' in_idx.
Proof. unfold resolve_input, getitem. now intros ->. Qed.

Lemma recorded_input_same_entries l1 l2 op_idx in_idx :
  same_entries l1 l2 ->
  recorded_input _operators l1 op_idx in_idx
  = recorded_input _operators l2 op_idx in_idx.
Proof.
  intros Hsame. unfold recorded_input.
  rewrite (resolve_input_ext _ (snd (defaultdict_getitem l2 (IdxStr op_idx)))).
  - reflexivity.
  - rewrite !defaultdict_getitem_inner. apply Hsame.
Qed.

Lemma recorded_input_linked links op_idx in_idx from_op from_conn src out :
  index_lookup links (IdxStr op_idx) (IdxStr in_idx) = Some (from_op, from_conn) ->
  getitem_idx _operators from_op = Ok src ->
  getitem_idx (op_outputs (properties src)) from_conn = Ok out ->
  recorded_input _operators links op_idx in_idx
  = Some (op_name (properties src) ++ "." ++ prop_name (io_properties out))%string.
Proof.
  intros Hlk Hsrc Hout.
  unfold recorded_input, resolve_input, getitem.
  rewrite defaultdict_getitem_inner, Hlk. simpl.
  rewrite Hsrc. simpl. rewrite Hout. reflexivity.
Qed.

Lemma recorded_input_unresolvable links op_idx in_idx :
  unresolvable _operators links op_idx in_idx ->
  recorded_input _operators links op_idx in_idx = None.
Proof.
  intros Hun. unfold recorded_input, resolve_input, getitem.
  rewrite defaultdict_getitem_inner.
  destruct Hun as [Hlk | fo fc Hlk Hsrc | fo fc src Hlk Hsrc Hout];
    rewrite Hlk; simpl; try reflexivity.
  - now rewrite Hsrc.
  - rewrite Hsrc. simpl. now rewrite Hout.
Qed.

(** *** The loops *)

Lemma input_step_eq op_idx links inputs kv :
  input_step _operators op_idx (links, inputs) kv
  = Ok (fst (defaultdict_getitem links (IdxStr op_idx)),
        dict_set inputs (input_name kv)
          (recorded_input _operators links op_idx (fst kv))).
Proof.
  unfold input_step, recorded_input, input_name. simpl.
  destruct (defaultdict_getitem links (IdxStr op_idx)) as [links' inner]. simpl.
  destruct (resolve_input _operators inner (fst kv)) as [s | e] eqn:Hres; simpl.
  - reflexivity.
  - now rewrite (resolve_input_KeyError _ _ Hres).
Qed.

Lemma inputs_loop op_idx (ins : dict string InputOutput) :
  forall links inputs,
  exists links',
    for_fold (input_step _operators op_idx) ins (links, inputs)
    = Ok (links',
          set_items inputs
            (map (fun c => (input_name c,
                            recorded_input _operators links op_idx (fst c))) ins))
    /\ same_entries links links'.
Proof.
  induction ins as [| kv ins IH]; intros links inputs; cbn [for_fold map].
  - exists links. split; [reflexivity | apply same_entries_refl].
  - rewrite input_step_eq.
    pose proof (defaultdict_getitem_same_entries links (IdxStr op_idx)) as Hsame.
    destruct (IH (fst (defaultdict_getitem links (IdxStr op_idx)))
                (dict_set inputs (input_name kv)
                   (recorded_input _operators links op_idx (fst kv))))
      as [links' [Hloop Hsame']].
    exists links'. split.
    + rewrite Hloop, set_items_cons. cbn [fst snd]. do 3 f_equal.
      apply map_ext. intros c. f_equal.
      symmetry. now apply recorded_input_same_entries.
    + eapply same_entries_trans; eassumption.
Qed.

Variable convert : pyval -> exc pyval.
Hypothesis convert_raises : raises_only_ValueError convert.

Lemma coerce_eq v : coerce convert v = Ok (recorded_param convert v).
Proof.
  unfold coerce, recorded_param, try_except.
  destruct (convert v) as [v' | e] eqn:Hc; [reflexivity |].
  apply convert_raises in Hc. now subst e.
Qed.

Lemma params_loop (ps : dict string OperatorParameters) : forall params,
  for_fold (param_step convert) ps params
  = Ok (set_items params
          (map (fun p => (parameter_name p,
                          recorded_param convert (param_value (par_properties (snd p)))))
               ps)).
Proof.
  induction ps as [| p ps IH]; intros params; simpl.
  - reflexivity.
  - unfold param_step at 1. rewrite coerce_eq. simpl. now rewrite IH.
Qed.

Lemma task_of_same_entries l1 l2 kv :
  same_entries l1 l2 ->
  task_of convert _operators l1 kv = task_of convert _operators l2 kv.
Proof.
  intros Hsame. unfold task_of. f_equal. f_equal.
  apply map_ext. intros c. f_equal.
  now apply recorded_input_same_entries.
Qed.

Lemma operator_step_eq links tasks kv :
  exists links',
    operator_step convert _operators (links, tasks) kv
    = Ok (links', tasks ++ [task_of convert _operators links kv])
    /\ same_entries links links'.
Proof.
  unfold operator_step. cbn [fst snd].
  rewrite params_loop. cbn [bind].
  destruct (inputs_loop (fst kv) (op_inputs (properties (snd kv))) links [])
    as [links' [Hloop Hsame]].
  rewrite Hloop. cbn [bind fst snd].
  exists links'. split; [reflexivity | exact Hsame].
Qed.

Lemma operators_loop (ops : dict string Operator) : forall links tasks,
  exists links',
    for_fold (operator_step convert _operators) ops (links, tasks)
    = Ok (links', tasks ++ map (task_of convert _operators links) ops)
    /\ same_entries links links'.
Proof.
  induction ops as [| kv ops IH]; intros links tasks; cbn [for_fold map].
  - exists links. rewrite app_nil_r.
    split; [reflexivity | apply same_entries_refl].
  - destruct (operator_step_eq links tasks kv) as [links1 [Hstep Hsame1]].
    rewrite Hstep. cbv beta iota.
    destruct (IH links1 (tasks ++ [task_of convert _operators links kv]))
      as [links2 [Hloop Hsame2]].
    exists links2. split.
    + rewrite Hloop, <- app_assoc. cbn [app]. do 4 f_equal.
      apply map_ext. intros kv'. symmetry. now apply task_of_same_entries.
    + eapply same_entries_trans; eassumption.
Qed.

End CompilerFacts.

(** The compiler returns, and its result is one task per operator, in the
    order of the operators. *)
Lemma parse_to_list_eq (convert : pyval -> exc pyval) (workflow : WorkflowRequest)
    (ops : dict string Operator) (ls : dict string Link) :
  CompilerObs.raises_only_ValueError convert ->
  operators workflow = Some ops ->
  links workflow = Some ls ->
  Compiler.parse_to_list convert workflow
  = Ok (map (CompilerObs.task_of convert ops (Compiler.build_links ls)) ops).
Proof.
  intros Hconv Hops Hls.
  unfold Compiler.parse_to_list. rewrite Hls, Hops. cbn [bind].
  destruct (operators_loop ops Hconv ops (Compiler.build_links ls) [])
    as [links' [Hloop _]].
  rewrite Hloop. reflexivity.
Qed.

(** *** The link resolver: the last link to a destination wins *)

Section LinkResolver.
Import Compiler CompilerObs.

Lemma index_lookup_assign_same links a b v :
  index_lookup (index_assign links a b v) a b = Some v.
Proof.
  unfold index_assign, index_lookup.
  destruct (defaultdict_getitem links a) as [links' inner].
  now rewrite !dict_get_set_same.
Qed.

Lemma index_lookup_assign_other links a b v a' b' :
  ~ (a' = a /\ b' = b) ->
  index_lookup (index_assign links a b v) a' b' = index_lookup links a' b'.
Proof.
  intros Hne.
  pose proof (defaultdict_getitem_same_entries links a a' b') as Hsame.
  pose proof (defaultdict_getitem_inner links a b') as Hinner.
  unfold index_assign.
  destruct (defaultdict_getitem links a) as [links' inner].
  cbn [fst snd] in Hsame, Hinner.
  rewrite Hsame. unfold index_lookup at 1.
  destruct (key_eqb_spec a a') as [<- | Hne_a].
  - rewrite dict_get_set_same, dict_get_set_other by (intros ->; tauto).
    rewrite Hinner. now rewrite <- Hsame.
  - now rewrite dict_get_set_other.
Qed.

Lemma build_links_fold ls : build_links ls = fold_left link_step ls [].
Proof. reflexivity. Qed.

Lemma fold_links_untouched a b (ls : dict string Link) : forall links,
  (forall kv, In kv ls ->
     ~ (a = toOperator (snd kv) /\ b = toConnector (snd kv))) ->
  index_lookup (fold_left link_step ls links) a b = index_lookup links a b.
Proof.
  induction ls as [| kv ls IH]; intros links Hnone; cbn [fold_left].
  - reflexivity.
  - rewrite IH by (intros kv' Hin; apply Hnone; now right).
    unfold link_step. apply index_lookup_assign_other.
    apply Hnone. now left.
Qed.

(** A link that no later link overrides is the entry of its destination. *)
Lemma build_links_last (pre post : dict string Link) (k : string) (l : Link) :
  (forall kv, In kv post ->
     ~ (toOperator l = toOperator (snd kv) /\ toConnector l = toConnector (snd kv))) ->
  index_lookup (build_links (pre ++ (k, l) :: post)) (toOperator l) (toConnector l)
  = Some (fromOperator l, fromConnector l).
Proof.
  intros Hlast.
  rewrite build_links_fold, fold_left_app. cbn [fold_left].
  rewrite fold_links_untouched by exact Hlast.
  unfold link_step at 1. cbn [snd].
  apply index_lookup_assign_same.
Qed.

(** A destination that no link names has no entry. *)
Lemma build_links_none (ls : dict string Link) a b :
  (forall kv, In kv ls ->
     ~ (a = toOperator (snd kv) /\ b = toConnector (snd kv))) ->
  index_lookup (build_links ls) a b = None.
Proof.
  intros Hnone. rewrite build_links_fold.
  now rewrite fold_links_untouched.
Qed.

End LinkResolver.

Lemma strconv_convert_returns : CompilerObs.raises_only_ValueError Strconv.convert.
Proof.
  intros v e. unfold Strconv.convert.
  destruct v as [| b | z | f | s | l | d]; try discriminate.
  destruct (Strconv.convert_int s); [discriminate |].
  destruct (Strconv.convert_float s); [discriminate |].
  destruct (Strconv.convert_bool s); discriminate.
Qed.

Section CompiledTask.
Import Compiler CompilerObs.

Variable convert : pyval -> exc pyval.
Variable workflow : WorkflowRequest.
Variable ops : dict string Operator.
Variable ls : dict string Link.
Hypothesis convert_raises : raises_only_ValueError convert.
Hypothesis workflow_operators : operators workflow = Some ops.
Hypothesis workflow_links : links workflow = Some ls.

(** The task at the position of an operator. *)
Lemma task_at i op_idx op :
  nth_error ops i = Some (op_idx, op) ->
  exists tasks,
    parse_to_list convert workflow = Ok tasks
    /\ length tasks = length ops
    /\ nth_error tasks i
       = Some (task_of convert ops (build_links ls) (op_idx, op)).
Proof.
  intros Hnth.
  exists (map (task_of convert ops (build_links ls)) ops).
  split; [now apply parse_to_list_eq |].
  split; [apply length_map |].
  now rewrite nth_error_map, Hnth.
Qed.

Lemma task_of_input_last op_idx op pre c post :
  op_inputs (properties op) = pre ++ c :: post ->
  ~ In (input_name c) (map input_name post) ->
  dict_get (t_inputs (task_of convert ops (build_links ls) (op_idx, op)))
    (input_name c)
  = Some (recorded_input ops (build_links ls) op_idx (fst c)).
Proof.
  intros Hsplit Hlast. simpl. rewrite Hsplit, map_app. simpl.
  apply dict_get_set_items_last.
  now rewrite map_map.
Qed.

Lemma task_of_param_last op_idx op pre p post :
  parameters op = pre ++ p :: post ->
  ~ In (parameter_name p) (map parameter_name post) ->
  dict_get (t_params (task_of convert ops (build_links ls) (op_idx, op)))
    (parameter_name p)
  = Some (recorded_param convert (param_value (par_properties (snd p)))).
Proof.
  intros Hsplit Hlast. simpl. rewrite Hsplit, map_app. simpl.
  apply dict_get_set_items_last.
  now rewrite map_map.
Qed.

End CompiledTask.

(** C6.  When the link index has an entry for (this operator, this input
    connector) and the source operator and its output connector exist, the
    input loop writes, under the connector's display name, the string made
    of the source operator's display name, a dot and the output
    connector's display name.  The compiled task maps the display name to
    that string when no later input connector of the operator is recorded
    under the same display name. *)
Theorem C6_linked_input_is_named :
  (forall (ops : dict string Operator) (op_idx : string)
          (links : Compiler.link_index) (inputs : dict string (option string))
          (in_idx : string) (in_data : InputOutput)
          (from_op from_conn : idx) (src : Operator) (out : InputOutput),
      CompilerObs.index_lookup links (IdxStr op_idx) (IdxStr in_idx)
        = Some (from_op, from_conn) ->
      Compiler.getitem_idx ops from_op = Ok src ->
      Compiler.getitem_idx (op_outputs (properties src)) from_conn = Ok out ->
      exists links',
        Compiler.input_step ops op_idx (links, inputs) (in_idx, in_data)
        = Ok (links',
              dict_set inputs (prop_name (io_properties in_data))
                (Some (op_name (properties src) ++ "."
                       ++ prop_name (io_properties out))%string)))
  /\ (forall (convert : pyval -> exc pyval) (workflow : WorkflowRequest)
            (ops : dict string Operator) (ls : dict string Link)
            (i : nat) (op_idx : string) (op : Operator)
            (pre post : dict string InputOutput)
            (in_idx : string) (in_data : InputOutput)
            (from_op from_conn : idx) (src : Operator) (out : InputOutput),
        CompilerObs.raises_only_ValueError convert ->
        operators workflow = Some ops ->
        links workflow = Some ls ->
        nth_error ops i = Some (op_idx, op) ->
        op_inputs (properties op) = pre ++ (in_idx, in_data) :: post ->
        ~ In (prop_name (io_properties in_data)) (map CompilerObs.input_name post) ->
        CompilerObs.index_lookup (Compiler.build_links ls) (IdxStr op_idx) (IdxStr in_idx)
          = Some (from_op, from_conn) ->
        Compiler.getitem_idx ops from_op = Ok src ->
        Compiler.getitem_idx (op_outputs (properties src)) from_conn = Ok out ->
        exists tasks t,
          Compiler.parse_to_list convert workflow = Ok tasks
          /\ nth_error tasks i = Some t
          /\ dict_get (t_inputs t) (prop_name (io_properties in_data))
             = Some (Some (op_name (properties src) ++ "."
                           ++ prop_name (io_properties out))%string)).
Proof.
  split.
  - intros ops op_idx links inputs in_idx in_data from_op from_conn src out
      Hlk Hsrc Hout.
    rewrite input_step_eq. eexists.
    unfold CompilerObs.input_name. cbn [fst snd].
    now rewrite (@recorded_input_linked ops links op_idx in_idx from_op from_conn
                   src out Hlk Hsrc Hout).
  - intros convert workflow ops ls i op_idx op pre post in_idx in_data
      from_op from_conn src out Hconv Hops Hls Hnth Hsplit Hlast Hlk Hsrc Hout.
    destruct (@task_at convert workflow ops ls Hconv Hops Hls i op_idx op Hnth)
      as [tasks [Hparse [_ Ht]]].
    exists tasks, (CompilerObs.task_of convert ops (Compiler.build_links ls) (op_idx, op)).
    split; [exact Hparse | split; [exact Ht |]].
    change (prop_name (io_properties in_data))
      with (CompilerObs.input_name (in_idx, in_data)) in *.
    rewrite (@task_of_input_last convert ops ls op_idx op pre (in_idx, in_data)
               post Hsplit Hlast).
    cbn [fst].
    now rewrite (@recorded_input_linked ops _ op_idx in_idx from_op from_conn
                   src out Hlk Hsrc Hout).
Qed.

(** The second part at the workflow of the repository's test. *)
Lemma C6_linked_input_is_named_witness :
  exists tasks t,
    Compiler.parse_to_list Strconv.convert Examples.test_workflow = Ok tasks
    /\ nth_error tasks 1 = Some t
    /\ dict_get (t_inputs t) "DemoTaskTwoInput"
       = Some (Some "DemoTaskOne.DemoTaskOneOutput").
Proof.
  apply (proj2 C6_linked_input_is_named Strconv.convert Examples.test_workflow
           Examples.test_operators Examples.test_links 1 "op_1" Examples.op_1
           [] [] "in_0" Examples.in_0 (IdxStr "op_0") (IdxStr "out_0")
           Examples.op_0 Examples.out_0 strconv_convert_returns);
    try reflexivity.
  simpl. tauto.
Defined.

(** C7, amended.  No input connector can make the compiler fail: one
    iteration of the input loop always returns, and it writes [None] when
    the lookup fails at any stage (no link to the connector, no such source
    operator, no such output on the source operator).  For a workflow whose
    mappings of operators and of links are both present the compiler
    returns one task per operator, in order, with the operator's name and
    module and an entry for each input name; an unresolvable input is
    mapped to [None] (when no later connector is recorded under the same
    display name); with an empty mapping of links all the inputs of all
    the tasks are [None]. *)
Theorem C7_unresolved_inputs_are_null :
  (forall (ops : dict string Operator) (op_idx : string)
          (st : Compiler.link_index * dict string (option string))
          (kv : string * InputOutput),
      exists st', Compiler.input_step ops op_idx st kv = Ok st')
  /\ (forall (ops : dict string Operator) (op_idx : string)
            (links : Compiler.link_index) (inputs : dict string (option string))
            (in_idx : string) (in_data : InputOutput),
        CompilerObs.unresolvable ops links op_idx in_idx ->
        exists links',
          Compiler.input_step ops op_idx (links, inputs) (in_idx, in_data)
          = Ok (links', dict_set inputs (prop_name (io_properties in_data)) None))
  /\ (forall (convert : pyval -> exc pyval) (workflow : WorkflowRequest)
            (ops : dict string Operator) (ls : dict string Link),
        CompilerObs.raises_only_ValueError convert ->
        operators workflow = Some ops ->
        links workflow = Some ls ->
        exists tasks,
          Compiler.parse_to_list convert workflow = Ok tasks
          /\ length tasks = length ops
          /\ (forall i op_idx op,
                nth_error ops i = Some (op_idx, op) ->
                exists t,
                  nth_error tasks i = Some t
                  /\ t_name t = op_name (properties op)
                  /\ t_module t = op_module (properties op)
                  /\ (forall c, In c (op_inputs (properties op)) ->
                        In (CompilerObs.input_name c) (keys (t_inputs t)))
                  /\ (forall pre c post,
                        op_inputs (properties op) = pre ++ c :: post ->
                        ~ In (CompilerObs.input_name c)
                             (map CompilerObs.input_name post) ->
                        CompilerObs.unresolvable ops (Compiler.build_links ls)
                          op_idx (fst c) ->
                        dict_get (t_inputs t) (CompilerObs.input_name c)
                        = Some None))
          /\ (ls = [] ->
              forall t, In t tasks ->
                Forall (fun v => v = None) (values (t_inputs t)))).
Proof.
  split; [| split].
  - intros ops op_idx [links inputs] kv. rewrite input_step_eq. eauto.
  - intros ops op_idx links inputs in_idx in_data Hun.
    rewrite input_step_eq. eexists. cbn [fst].
    now rewrite (recorded_input_unresolvable Hun).
  - intros convert workflow ops ls Hconv Hops Hls.
    exists (map (CompilerObs.task_of convert ops (Compiler.build_links ls)) ops).
    split; [now apply parse_to_list_eq |].
    split; [apply length_map |].
    split.
    + intros i op_idx op Hnth.
      exists (CompilerObs.task_of convert ops (Compiler.build_links ls) (op_idx, op)).
      split; [now rewrite nth_error_map, Hnth |].
      split; [reflexivity |].
      split; [reflexivity |].
      split.
      * intros c Hc. cbn [CompilerObs.task_of t_inputs fst snd].
        apply keys_set_items. right.
        rewrite map_map. cbn [fst].
        now apply (in_map CompilerObs.input_name).
      * intros pre c post Hsplit Hlast Hun.
        rewrite (@task_of_input_last convert ops ls op_idx op pre c post
                   Hsplit Hlast).
        now rewrite (recorded_input_unresolvable Hun).
    + intros -> t Ht.
      apply in_map_iff in Ht as [[op_idx op] [<- _]].
      cbn [CompilerObs.task_of t_inputs fst snd].
      apply values_set_items; [| constructor].
      rewrite map_map. cbn [snd].
      apply Forall_forall. intros v Hv.
      apply in_map_iff in Hv as [c [<- _]].
      apply recorded_input_unresolvable, CompilerObs.no_link.
      reflexivity.
Qed.

(** The third part at the test operators without links. *)
Lemma C7_unresolved_inputs_are_null_witness :
  exists tasks,
    Compiler.parse_to_list Strconv.convert Examples.unlinked_workflow = Ok tasks
    /\ length tasks = length Examples.test_operators
    /\ (forall t, In t tasks -> Forall (fun v => v = None) (values (t_inputs t))).
Proof.
  destruct (proj2 (proj2 C7_unresolved_inputs_are_null) Strconv.convert
              Examples.unlinked_workflow Examples.test_operators []
              strconv_convert_returns eq_refl eq_refl)
    as [tasks [Hparse [Hlen [_ Hnull]]]].
  exists tasks. split; [exact Hparse | split; [exact Hlen | exact (Hnull eq_refl)]].
Defined.

(** C8.  A parameter is recorded, under its display name, as the value
    returned by the coercion, and as the raw value when the coercion fails
    with [ValueError]; with the coercion that recognises integers, floats
    and booleans, the string "3.14" is recorded as the float 3.14 and the
    string "one" as the string "one". *)
Theorem C8_parameters_are_coerced :
  (forall (convert : pyval -> exc pyval) (raw v' : pyval),
      convert raw = Ok v' -> Compiler.coerce convert raw = Ok v')
  /\ (forall (convert : pyval -> exc pyval) (raw : pyval),
        convert raw = Raise ValueError -> Compiler.coerce convert raw = Ok raw)
  /\ Strconv.convert (PyStr "3.14") = Ok (PyFloat Examples.float_3_14)
  /\ Strconv.convert (PyStr "one") = Ok (PyStr "one")
  /\ (forall (convert : pyval -> exc pyval) (workflow : WorkflowRequest)
            (ops : dict string Operator) (ls : dict string Link)
            (i : nat) (op_idx : string) (op : Operator)
            (pre post : dict string OperatorParameters)
            (p : string * OperatorParameters),
        CompilerObs.raises_only_ValueError convert ->
        operators workflow = Some ops ->
        links workflow = Some ls ->
        nth_error ops i = Some (op_idx, op) ->
        parameters op = pre ++ p :: post ->
        ~ In (CompilerObs.parameter_name p) (map CompilerObs.parameter_name post) ->
        exists tasks t,
          Compiler.parse_to_list convert workflow = Ok tasks
          /\ nth_error tasks i = Some t
          /\ (forall v', convert (param_value (par_properties (snd p))) = Ok v' ->
                dict_get (t_params t) (CompilerObs.parameter_name p) = Some v')
          /\ (convert (param_value (par_properties (snd p))) = Raise ValueError ->
                dict_get (t_params t) (CompilerObs.parameter_name p)
                = Some (param_value (par_properties (snd p)))))
  /\ (forall (workflow : WorkflowRequest)
            (ops : dict string Operator) (ls : dict string Link)
            (i : nat) (op_idx : string) (op : Operator)
            (pre post : dict string OperatorParameters)
            (p : string * OperatorParameters),
        operators workflow = Some ops ->
        links workflow = Some ls ->
        nth_error ops i = Some (op_idx, op) ->
        parameters op = pre ++ p :: post ->
        ~ In (CompilerObs.parameter_name p) (map CompilerObs.parameter_name post) ->
        exists tasks t,
          Compiler.parse_to_list Strconv.convert workflow = Ok tasks
          /\ nth_error tasks i = Some t
          /\ (param_value (par_properties (snd p)) = PyStr "3.14" ->
                dict_get (t_params t) (CompilerObs.parameter_name p)
                = Some (PyFloat Examples.float_3_14))
          /\ (param_value (par_properties (snd p)) = PyStr "one" ->
                dict_get (t_params t) (CompilerObs.parameter_name p)
                = Some (PyStr "one"))).
Proof.
  assert (Hgen : forall (convert : pyval -> exc pyval) (workflow : WorkflowRequest)
            (ops : dict string Operator) (ls : dict string Link)
            (i : nat) (op_idx : string) (op : Operator)
            (pre post : dict string OperatorParameters)
            (p : string * OperatorParameters),
        CompilerObs.raises_only_ValueError convert ->
        operators workflow = Some ops ->
        links workflow = Some ls ->
        nth_error ops i = Some (op_idx, op) ->
        parameters op = pre ++ p :: post ->
        ~ In (CompilerObs.parameter_name p) (map CompilerObs.parameter_name post) ->
        exists tasks t,
          Compiler.parse_to_list convert workflow = Ok tasks
          /\ nth_error tasks i = Some t
          /\ dict_get (t_params t) (CompilerObs.parameter_name p)
             = Some (CompilerObs.recorded_param convert
                       (param_value (par_properties (snd p))))).
  { intros convert workflow ops ls i op_idx op pre post p
      Hconv Hops Hls Hnth Hsplit Hlast.
    destruct (@task_at convert workflow ops ls Hconv Hops Hls i op_idx op Hnth)
      as [tasks [Hparse [_ Ht]]].
    exists tasks,
      (CompilerObs.task_of convert ops (Compiler.build_links ls) (op_idx, op)).
    split; [exact Hparse | split; [exact Ht |]].
    exact (@task_of_param_last convert ops ls op_idx op pre p post Hsplit Hlast). }
  split; [| split; [| split; [| split; [| split]]]].
  - intros convert raw v' Hc. unfold Compiler.coerce. now rewrite Hc.
  - intros convert raw Hc. unfold Compiler.coerce. now rewrite Hc.
  - vm_compute. reflexivity.
  - vm_compute. reflexivity.
  - intros convert workflow ops ls i op_idx op pre post p
      Hconv Hops Hls Hnth Hsplit Hlast.
    destruct (Hgen convert workflow ops ls i op_idx op pre post p
                Hconv Hops Hls Hnth Hsplit Hlast)
      as [tasks [t [Hparse [Ht Hget]]]].
    exists tasks, t. split; [exact Hparse | split; [exact Ht |]].
    rewrite Hget. unfold CompilerObs.recorded_param.
    split.
    + intros v' Hc. now rewrite Hc.
    + intros Hc. now rewrite Hc.
  - intros workflow ops ls i op_idx op pre post p Hops Hls Hnth Hsplit Hlast.
    destruct (Hgen Strconv.convert workflow ops ls i op_idx op pre post p
                strconv_convert_returns Hops Hls Hnth Hsplit Hlast)
      as [tasks [t [Hparse [Ht Hget]]]].
    exists tasks, t. split; [exact Hparse | split; [exact Ht |]].
    rewrite Hget. unfold CompilerObs.recorded_param.
    split; intros ->; vm_compute; reflexivity.
Qed.

(** The last part at an operator whose parameter is written "3.14". *)
Lemma C8_parameters_are_coerced_witness :
  exists tasks t,
    Compiler.parse_to_list Strconv.convert Examples.clash_workflow = Ok tasks
    /\ nth_error tasks 1 = Some t
    /\ dict_get (t_params t) "rate" = Some (PyFloat Examples.float_3_14).
Proof.
  destruct (proj2 (proj2 (proj2 (proj2 (proj2 C8_parameters_are_coerced))))
              Examples.clash_workflow Examples.clash_operators Examples.clash_links
              1%nat "op_2" Examples.op_clash
              [("param_0", Examples.par "rate" (PyStr "one"))] []
              ("param_1", Examples.par "rate" (PyStr "3.14"))
              eq_refl eq_refl eq_refl eq_refl (fun H : False => H))
    as [tasks [t [Hparse [Ht [Hfloat _]]]]].
  exists tasks, t.
  split; [exact Hparse | split; [exact Ht | exact (Hfloat eq_refl)]].
Defined.

(** C10.  The [params] and [inputs] mappings of a task are keyed by the
    display names of the operator's parameters and input connectors, not
    by their keys in the operator's mappings.  For each display name the
    entry written last in iteration order is the one that remains, so the
    mappings never hold more entries than the operator declares, and hold
    fewer as soon as two parameters (or two input connectors) share a
    display name. *)
Theorem C10_display_names_key_the_mappings :
  forall (convert : pyval -> exc pyval) (workflow : WorkflowRequest)
         (ops : dict string Operator) (ls : dict string Link)
         (i : nat) (op_idx : string) (op : Operator),
    CompilerObs.raises_only_ValueError convert ->
    operators workflow = Some ops ->
    links workflow = Some ls ->
    nth_error ops i = Some (op_idx, op) ->
    exists tasks t,
      Compiler.parse_to_list convert workflow = Ok tasks
      /\ nth_error tasks i = Some t
      /\ (forall n, In n (keys (t_params t))
                    <-> In n (map CompilerObs.parameter_name (parameters op)))
      /\ (forall n, In n (keys (t_inputs t))
                    <-> In n (map CompilerObs.input_name (op_inputs (properties op))))
      /\ (forall pre p post,
            parameters op = pre ++ p :: post ->
            ~ In (CompilerObs.parameter_name p) (map CompilerObs.parameter_name post) ->
            dict_get (t_params t) (CompilerObs.parameter_name p)
            = Some (CompilerObs.recorded_param convert
                      (param_value (par_properties (snd p)))))
      /\ (forall pre c post,
            op_inputs (properties op) = pre ++ c :: post ->
            ~ In (CompilerObs.input_name c) (map CompilerObs.input_name post) ->
            dict_get (t_inputs t) (CompilerObs.input_name c)
            = Some (CompilerObs.recorded_input ops (Compiler.build_links ls)
                      op_idx (fst c)))
      /\ length (t_params t) <= length (parameters op)
      /\ length (t_inputs t) <= length (op_inputs (properties op))
      /\ (~ NoDup (map CompilerObs.parameter_name (parameters op)) ->
          length (t_params t) < length (parameters op))
      /\ (~ NoDup (map CompilerObs.input_name (op_inputs (properties op))) ->
          length (t_inputs t) < length (op_inputs (properties op))).
Proof.
  intros convert workflow ops ls i op_idx op Hconv Hops Hls Hnth.
  destruct (@task_at convert workflow ops ls Hconv Hops Hls i op_idx op Hnth)
    as [tasks [Hparse [_ Ht]]].
  exists tasks,
    (CompilerObs.task_of convert ops (Compiler.build_links ls) (op_idx, op)).
  split; [exact Hparse | split; [exact Ht |]].
  repeat match goal with |- _ /\ _ => split end.
  - intros n. cbn [CompilerObs.task_of t_params fst snd].
    rewrite keys_set_items, map_map. cbn [fst]. simpl. tauto.
  - intros n. cbn [CompilerObs.task_of t_inputs fst snd].
    rewrite keys_set_items, map_map. cbn [fst]. simpl. tauto.
  - intros pre p post. apply task_of_param_last.
  - intros pre c post. apply task_of_input_last.
  - cbn [CompilerObs.task_of t_params fst snd].
    etransitivity; [apply length_set_items_le | now rewrite length_map].
  - cbn [CompilerObs.task_of t_inputs fst snd].
    etransitivity; [apply length_set_items_le | now rewrite length_map].
  - intros Hdup. cbn [CompilerObs.task_of t_params fst snd].
    eapply Nat.lt_le_trans; [apply length_set_items_lt | now rewrite length_map].
    now rewrite map_map.
  - intros Hdup. cbn [CompilerObs.task_of t_inputs fst snd].
    eapply Nat.lt_le_trans; [apply length_set_items_lt | now rewrite length_map].
    now rewrite map_map.
Qed.

(** The operator whose two parameters and two inputs share their display
    names. *)
Lemma C10_display_names_key_the_mappings_witness :
  exists tasks t,
    Compiler.parse_to_list Strconv.convert Examples.clash_workflow = Ok tasks
    /\ nth_error tasks 1 = Some t
    /\ (forall n, In n (keys (t_params t)) <-> In n ["rate"; "rate"])
    /\ dict_get (t_params t) "rate" = Some (PyFloat Examples.float_3_14)
    /\ length (t_params t) < 2
    /\ length (t_inputs t) < 2.
Proof.
  destruct (@C10_display_names_key_the_mappings Strconv.convert
              Examples.clash_workflow Examples.clash_operators Examples.clash_links
              1%nat "op_2" Examples.op_clash
              strconv_convert_returns eq_refl eq_refl eq_refl)
    as [tasks [t [Hparse [Ht [Hkeys [_ [Hlast [_ [_ [_ [Hparams Hinputs]]]]]]]]]]].
  exists tasks, t.
  split; [exact Hparse | split; [exact Ht | split; [exact Hkeys |]]].
  split; [| split].
  - exact (Hlast [("param_0", Examples.par "rate" (PyStr "one"))]
             ("param_1", Examples.par "rate" (PyStr "3.14")) []
             eq_refl (fun H : False => H)).
  - apply Hparams. intros Hnd. inversion Hnd as [| ? ? Hnotin _]; subst.
    apply Hnotin. left. reflexivity.
  - apply Hinputs. intros Hnd. inversion Hnd as [| ? ? Hnotin _]; subst.
    apply Hnotin. left. reflexivity.
Defined.

(** ** The names of the task nodes *)

Lemma append_inj_l (s a b : string) : (s ++ a = s ++ b)%string -> a = b.
Proof.
  induction s as [| c s IH]; simpl; intros Heq.
  - exact Heq.
  - injection Heq as Heq. auto.
Qed.

(** A string without hyphen is recovered from what follows it up to the
    first hyphen. *)
Lemma split_at_first_hyphen (w1 w2 o1 o2 : string) :
  Rdf.has_hyphen w1 = false ->
  Rdf.has_hyphen w2 = false ->
  (w1 ++ String "-" o1 = w2 ++ String "-" o2)%string ->
  w1 = w2 /\ o1 = o2.
Proof.
  revert w2.
  induction w1 as [| c w1 IH]; intros [| c' w2]; simpl; intros H1 H2 Heq.
  - injection Heq as ->. auto.
  - injection Heq as <- _.
    apply orb_false_iff in H2 as [H2 _]. now rewrite Ascii.eqb_refl in H2.
  - injection Heq as -> _.
    apply orb_false_iff in H1 as [H1 _]. now rewrite Ascii.eqb_refl in H1.
  - injection Heq as <- Heq.
    apply orb_false_iff in H1 as [_ H1].
    apply orb_false_iff in H2 as [_ H2].
    destruct (IH w2 H1 H2 Heq) as [-> ->]. auto.
Qed.

(** C9 fails as stated: two distinct (workflow id, operator key) pairs of
    operators with the same definition URI are given the same node name. *)
Lemma C9_counterexample :
  ("test-1-1", "op_0") <> ("test-1", "1-op_0")
  /\ Rdf.task_uri "https://www.w3.org/#Component0" "test-1-1" "op_0"
     = Rdf.task_uri "https://www.w3.org/#Component0" "test-1" "1-op_0".
Proof. split; [discriminate | reflexivity]. Qed.

(** C9, amended.  For operators with the same definition URI the node name
    determines the operator key within one workflow, and it determines the
    pair (workflow id, operator key) across workflows whose ids contain no
    hyphen (such as the generated hexadecimal ids). *)
Theorem C9_task_uri_injective :
  (forall (definition_uri workflow_id op_idx1 op_idx2 : string),
      Rdf.task_uri definition_uri workflow_id op_idx1
      = Rdf.task_uri definition_uri workflow_id op_idx2 ->
      op_idx1 = op_idx2)
  /\ (forall (definition_uri workflow_id1 workflow_id2 op_idx1 op_idx2 : string),
        Rdf.has_hyphen workflow_id1 = false ->
        Rdf.has_hyphen workflow_id2 = false ->
        Rdf.task_uri definition_uri workflow_id1 op_idx1
        = Rdf.task_uri definition_uri workflow_id2 op_idx2 ->
        workflow_id1 = workflow_id2 /\ op_idx1 = op_idx2).
Proof.
  split.
  - intros u w o1 o2 Heq. unfold Rdf.task_uri in Heq.
    apply append_inj_l in Heq.
    apply (append_inj_l "-") in Heq.
    apply append_inj_l in Heq.
    now apply (append_inj_l "-") in Heq.
  - intros u w1 w2 o1 o2 H1 H2 Heq. unfold Rdf.task_uri in Heq.
    apply append_inj_l in Heq.
    apply (append_inj_l "-") in Heq.
    now apply split_at_first_hyphen.
Qed.

(** The second part at a hexadecimal workflow id. *)
Lemma C9_task_uri_injective_witness :
  Rdf.has_hyphen "0f3c9a" = false
  /\ Rdf.has_hyphen "0f3c9a" = false
  /\ ("0f3c9a" = "0f3c9a" /\ "op_0" = "op_0").
Proof.
  split; [reflexivity | split; [reflexivity |]].
  apply (proj2 C9_task_uri_injective "https://www.w3.org/#Component0"
           "0f3c9a" "0f3c9a" "op_0" "op_0"); reflexivity.
Defined.

(** ** The exporter names its task nodes with [task_uri] *)

Section RdfFacts.
Import Rdf.

Lemma term_eqb_eq (a b : term) : term_eqb a b = true -> a = b.
Proof.
  destruct a as [s | x | s], b as [t | y | t]; simpl; try discriminate; intros Heq.
  - apply String.eqb_eq in Heq. now subst.
  - apply Z.eqb_eq in Heq. now subst.
  - apply String.eqb_eq in Heq. now subst.
Qed.

Lemma triple_eqb_eq (a b : triple) : triple_eqb a b = true -> a = b.
Proof.
  destruct a as [[s p] o], b as [[s' p'] o']. unfold triple_eqb. simpl.
  intros Heq.
  apply andb_true_iff in Heq as [Heq Ho].
  apply andb_true_iff in Heq as [Hs Hp].
  apply term_eqb_eq in Hs, Hp, Ho. now subst.
Qed.

Lemma In_add (g : Graph) (t : triple) : In t (add g t).
Proof.
  unfold add.
  destruct (existsb (triple_eqb t) g) eqn:Hex.
  - apply existsb_exists in Hex as [t' [Hin Heq]].
    apply triple_eqb_eq in Heq. now subst.
  - apply in_or_app. right. now left.
Qed.

Lemma In_add_mono (g : Graph) (t t' : triple) : In t g -> In t (add g t').
Proof.
  intros Hin. unfold add.
  destruct (existsb (triple_eqb t') g); [exact Hin |].
  apply in_or_app. now left.
Qed.

Lemma for_fold_keeps {A} (step : Graph -> A -> exc Graph) (t : triple) :
  (forall g x g', step g x = Ok g' -> In t g -> In t g') ->
  forall l g g', for_fold step l g = Ok g' -> In t g -> In t g'.
Proof.
  intros Hstep.
  induction l as [| x l IH]; intros g g'; simpl.
  - intros [= <-]. auto.
  - destruct (step g x) as [g1 |] eqn:Hx; [| discriminate].
    intros Hl Hin. eapply IH; eauto.
Qed.

Lemma connector_step_keeps task pred t g c g' :
  connector_step task pred g c = Ok g' -> In t g -> In t g'.
Proof.
  unfold connector_step.
  destruct (definition_uri (io_definition (snd c))); simpl; [| discriminate].
  intros [= <-]. apply In_add_mono.
Qed.

Lemma operator_step_keeps name workflow_id t g kv g' :
  operator_step name workflow_id g kv = Ok g' -> In t g -> In t g'.
Proof.
  unfold operator_step.
  destruct (definition_uri (definition (snd kv))) as [d |]; simpl; [| discriminate].
  destruct (for_fold _ (op_inputs _) _) as [g1 |] eqn:H1; simpl; [| discriminate].
  destruct (for_fold _ (op_outputs _) _) as [g2 |] eqn:H2; simpl; [| discriminate].
  intros [= <-] Hin.
  apply In_add_mono.
  eapply for_fold_keeps; [| exact H2 |]; [intros; eapply connector_step_keeps; eauto |].
  apply In_add_mono.
  eapply for_fold_keeps; [| exact H1 |]; [intros; eapply connector_step_keeps; eauto |].
  now repeat apply In_add_mono.
Qed.

Lemma operator_step_has_task name workflow_id g op_idx op g' :
  operator_step name workflow_id g (op_idx, op) = Ok g' ->
  exists d,
    definition op = Some d
    /\ In (name, uriref_has_task, URIRef (task_uri (uri d) workflow_id op_idx)) g'.
Proof.
  unfold operator_step. simpl.
  destruct (definition op) as [d |]; simpl; [| discriminate].
  destruct (for_fold _ (op_inputs _) _) as [g1 |] eqn:H1; simpl; [| discriminate].
  destruct (for_fold _ (op_outputs _) _) as [g2 |] eqn:H2; simpl; [| discriminate].
  intros [= <-]. exists d. split; [reflexivity |].
  apply In_add_mono.
  eapply for_fold_keeps; [| exact H2 |]; [intros; eapply connector_step_keeps; eauto |].
  apply In_add_mono.
  eapply for_fold_keeps; [| exact H1 |]; [intros; eapply connector_step_keeps; eauto |].
  do 2 apply In_add_mono. apply In_add.
Qed.

Lemma operators_loop_has_task name workflow_id op_idx op ops : forall g0 g,
  for_fold (operator_step name workflow_id) ops g0 = Ok g ->
  In (op_idx, op) ops ->
  exists d,
    definition op = Some d
    /\ In (name, uriref_has_task, URIRef (task_uri (uri d) workflow_id op_idx)) g.
Proof.
  induction ops as [| kv ops IH]; intros g0 g; cbn [for_fold In]; [tauto |].
  destruct (operator_step name workflow_id g0 kv) as [g1 |] eqn:Hstep;
    [| discriminate].
  intros Hloop [-> | Hin].
  - destruct (@operator_step_has_task name workflow_id g0 op_idx op g1 Hstep)
      as [d [Hd Hin]].
    exists d. split; [exact Hd |].
    eapply for_fold_keeps; [| exact Hloop | exact Hin].
    intros; eapply operator_step_keeps; eauto.
  - eapply IH; eauto.
Qed.

(** Every operator of an exported workflow is linked from the workflow
    node to the node named by [task_uri]. *)
Lemma parse_to_rdf_task_nodes workflow workflow_id ops g op_idx op :
  operators workflow = Some ops ->
  parse_to_rdf workflow workflow_id = Ok g ->
  In (op_idx, op) ops ->
  exists d,
    definition op = Some d
    /\ In (URIRef (PREFIX_TITAN ++ "Workflow" ++ workflow_id), uriref_has_task,
           URIRef (task_uri (uri d) workflow_id op_idx)) g.
Proof.
  intros Hops. unfold parse_to_rdf. rewrite Hops. cbn [bind].
  apply operators_loop_has_task.
Qed.

End RdfFacts.

(** ** The expectations of the repository's tests, and a few more runs *)

(** [tests/test_parse_workflow.py], [test_parsed_to_json]. *)
Example test_parsed_to_json :
  Compiler.parse_to_list Strconv.convert Examples.test_workflow
  = Ok [ {| t_name := "DemoTaskOne"; t_module := "DemoTaskOneModule";
            t_params := [("param0", PyInt 0); ("param1", PyStr "one")];
            t_inputs := [] |};
         {| t_name := "DemoTaskTwo"; t_module := "DemoTaskTwoModule";
            t_params := [];
            t_inputs := [("DemoTaskTwoInput",
                          Some "DemoTaskOne.DemoTaskOneOutput")] |} ].
Proof. vm_compute. reflexivity. Qed.

(** The task nodes that [test_parsed_to_rdf] expects. *)
Example test_parsed_to_rdf_task_nodes :
  Rdf.task_uri "https://www.w3.org/#Component0" "test-1-1" "op_0"
    = "https://www.w3.org/#Component0-test-1-1-op_0"
  /\ Rdf.task_uri "https://www.w3.org/#Component1" "test-1-1" "op_1"
    = "https://www.w3.org/#Component1-test-1-1-op_1"
  /\ exists g,
       Rdf.parse_to_rdf Examples.test_workflow "test-1-1" = Ok g
       /\ length g = 14.
Proof. repeat split. eexists. split; vm_compute; reflexivity. Qed.

(** Only the link whose source operator and output exist is resolved. *)
Example dangling_inputs :
  option_map (map t_inputs)
    (match Compiler.parse_to_list Strconv.convert Examples.dangling_workflow with
     | Ok tasks => Some tasks
     | Raise _ => None
     end)
  = Some [ [];
           [("a", None); ("b", None); ("c", None);
            ("d", Some "DemoTaskOne.DemoTaskOneOutput")] ].
Proof. vm_compute. reflexivity. Qed.

(** A workflow created without links (the default of the model) does not
    compile: [None] has no [values]. *)
Example links_None_raises :
  Compiler.parse_to_list Strconv.convert
    {| operators := Some Examples.test_operators; links := None; metadata := [] |}
  = Raise AttributeError.
Proof. reflexivity. Qed.

(** Both shared display names of [Examples.op_clash] keep one entry, the
    one written last. *)
Example clash_task :
  option_map (fun tasks => nth_error tasks 1)
    (match Compiler.parse_to_list Strconv.convert Examples.clash_workflow with
     | Ok tasks => Some tasks
     | Raise _ => None
     end)
  = Some (Some {| t_name := "Clash"; t_module := "ClashModule";
                  t_params := [("rate", PyFloat Examples.float_3_14)];
                  t_inputs := [("data", None)] |}).
Proof. vm_compute. reflexivity. Qed.

(** The scenarios of the specification, at the v3 chain and the v2 chain. *)
Example status_scenarios :
  map (StatusV3.status_workflow_status false)
    [["DONE"; "DONE"]; ["DONE"; "FAILED"]; ["PENDING"; "RUNNING"];
     ["PENDING"; "PENDING"]; []; ["RUNNING"; "DONE"]; ["DONE"; "BOGUS"]]
  = [STATUS_DONE; STATUS_FAILED; STATUS_PENDING; STATUS_PENDING; STATUS_DONE;
     STATUS_RUNNING; STATUS_UNKNOWN]
  /\ map StatusV2.workflow_status
       [["DONE"; "DONE"]; ["DONE"; "FAILED"]; ["PENDING"; "RUNNING"];
        ["PENDING"; "PENDING"]; []; ["RUNNING"; "DONE"]; ["DONE"; "BOGUS"]]
     = [STATUS_DONE; STATUS_FAILED; STATUS_RUNNING; STATUS_PENDING; STATUS_DONE;
        STATUS_UNKNOWN; STATUS_UNKNOWN].
Proof. split; reflexivity. Qed.

(* ================================================================== *)
(** * Further properties of the code *)
(* ================================================================== *)

(** ** What the status chains answer *)

Section ChainFacts.
Variable states : list string.

Lemma any_task_is_In (st : State) :
  StatusSpec.any_task_is st states = true <-> In (State_value st) states.
Proof.
  unfold StatusSpec.any_task_is. rewrite existsb_exists.
  split.
  - intros [s [Hin Heq]]. apply String.eqb_eq in Heq. now subst.
  - intros Hin. exists (State_value st). split; [exact Hin | apply String.eqb_refl].
Qed.

Lemma every_task_is_all (st : State) :
  StatusSpec.every_task_is st states = true <->
  forall s, In s states -> s = State_value st.
Proof.
  unfold StatusSpec.every_task_is. rewrite forallb_forall.
  split; intros Hall s Hin.
  - symmetry. apply String.eqb_eq. auto.
  - apply String.eqb_eq. symmetry. auto.
Qed.

(** When every task is in one state, no task is in another. *)
Lemma every_excludes (st st' : State) :
  State_value st <> State_value st' ->
  StatusSpec.every_task_is st states = true ->
  StatusSpec.any_task_is st' states = false.
Proof.
  intros Hne Hall.
  destruct (StatusSpec.any_task_is st' states) eqn:Hany; [| reflexivity].
  apply any_task_is_In in Hany.
  apply (proj1 (every_task_is_all st) Hall) in Hany. congruence.
Qed.

(** Every task of a list with a task is in state [st] only if one is. *)
Lemma every_nonempty_any (st st' : State) :
  StatusSpec.every_task_is st' states = false ->
  StatusSpec.every_task_is st states = true ->
  StatusSpec.any_task_is st states = true.
Proof.
  unfold StatusSpec.every_task_is, StatusSpec.any_task_is.
  destruct states as [| s l]; simpl; [discriminate |].
  intros _ Hall. apply andb_true_iff in Hall as [Hs _]. now rewrite Hs.
Qed.

Lemma v2_check_all_one (st : State) :
  StatusV2._check states Py.all [st] = StatusSpec.every_task_is st states.
Proof. exact (v3_check_all_one states st). Qed.

Lemma v2_check_any_one (st : State) :
  StatusV2._check states Py.any [st] = StatusSpec.any_task_is st states.
Proof. exact (v3_check_any_one states st). Qed.

Lemma v2_check_all_two (st1 st2 : State) :
  StatusV2._check states Py.all [st1; st2] = true <->
  forall s, In s states -> s = State_value st1 \/ s = State_value st2.
Proof.
  unfold StatusV2._check, Py.all.
  rewrite forallb_forall. split.
  - intros Hall s Hin.
    specialize (Hall (str_in_states s [st1; st2]) (in_map _ _ _ Hin)).
    unfold str_in_states in Hall. cbn [existsb] in Hall.
    rewrite orb_false_r in Hall.
    apply orb_true_iff in Hall as [H1 | H2];
      [left; now apply String.eqb_eq | right; now apply String.eqb_eq].
  - intros Hall b Hb. apply in_map_iff in Hb as [s [<- Hin]].
    unfold str_in_states. cbn [existsb]. rewrite orb_false_r.
    apply orb_true_iff.
    destruct (Hall s Hin) as [-> | ->];
      [left | right]; apply String.eqb_refl.
Qed.

End ChainFacts.

(** The booleans tested by the chains are not independent. *)
Ltac chain_facts states :=
  pose proof (@every_excludes states STATUS_DONE STATUS_FAILED ltac:(discriminate));
  pose proof (@every_excludes states STATUS_DONE STATUS_PENDING ltac:(discriminate));
  pose proof (@every_excludes states STATUS_DONE STATUS_RUNNING ltac:(discriminate));
  pose proof (@every_excludes states STATUS_PENDING STATUS_FAILED ltac:(discriminate));
  pose proof (@every_excludes states STATUS_PENDING STATUS_RUNNING ltac:(discriminate));
  pose proof (@every_nonempty_any states STATUS_PENDING STATUS_DONE).

(** X1.  Without the revoked flag the v3 chain answers DONE exactly when
    every task is DONE, FAILED exactly when some task is FAILED, PENDING
    exactly when some task is PENDING and none is FAILED, RUNNING exactly
    when some task is RUNNING and none is FAILED or PENDING, and never
    REVOKED. *)
Theorem X1_v3_answers :
  forall states : list string,
    (StatusV3.status_workflow_status false states = STATUS_DONE
     <-> (forall s, In s states -> s = "DONE"))
    /\ (StatusV3.status_workflow_status false states = STATUS_FAILED
        <-> In "FAILED" states)
    /\ (StatusV3.status_workflow_status false states = STATUS_PENDING
        <-> In "PENDING" states /\ ~ In "FAILED" states)
    /\ (StatusV3.status_workflow_status false states = STATUS_RUNNING
        <-> In "RUNNING" states /\ ~ In "FAILED" states /\ ~ In "PENDING" states)
    /\ StatusV3.status_workflow_status false states <> STATUS_REVOKED.
Proof.
  intros states.
  change "DONE" with (State_value STATUS_DONE).
  change "FAILED" with (State_value STATUS_FAILED).
  change "PENDING" with (State_value STATUS_PENDING).
  change "RUNNING" with (State_value STATUS_RUNNING).
  rewrite <- (every_task_is_all states STATUS_DONE).
  rewrite <- !any_task_is_In.
  unfold StatusV3.status_workflow_status.
  rewrite !v3_check_all_one, !v3_check_any_one.
  chain_facts states.
  destruct (StatusSpec.every_task_is STATUS_DONE states),
    (StatusSpec.any_task_is STATUS_FAILED states),
    (StatusSpec.every_task_is STATUS_PENDING states),
    (StatusSpec.any_task_is STATUS_PENDING states),
    (StatusSpec.any_task_is STATUS_RUNNING states);
    cbn [andb negb];
    repeat split; intros; try discriminate; try reflexivity;
    intuition (try discriminate; try congruence).
Qed.

Lemma every_task_is_false_witness (st : State) (states : list string) :
  StatusSpec.every_task_is st states = false ->
  exists s, In s states /\ s <> State_value st.
Proof.
  unfold StatusSpec.every_task_is.
  induction states as [| s l IH]; simpl; [discriminate |].
  destruct (String.eqb_spec (State_value st) s) as [<- | Hne]; simpl.
  - intros Hl. destruct (IH Hl) as [s' [Hin Hs']]. eauto.
  - intros _. exists s. split; [now left | congruence].
Qed.

(** Facts about booleans that a case analysis has decided. *)
Ltac bool_facts :=
  repeat match goal with
    | H : true = true -> _ |- _ => specialize (H eq_refl)
    | H : false = false -> _ |- _ => specialize (H eq_refl)
    | H : false = true -> _ |- _ => clear H
    | H : true = false -> _ |- _ => clear H
    | H : true = true <-> _ |- _ => apply proj1 in H; specialize (H eq_refl)
    | H : false = true <-> ?P |- _ =>
        let H' := fresh "Hnot" in
        assert (H' : ~ P) by (intros X; apply H in X; discriminate); clear H
    end.

(** Two tasks of a list in different states refute "every task is ...". *)
Ltac chain_clash states :=
  match goal with
  | Hall : (forall s, In s states -> s = _), Hin : In _ states |- _ =>
      apply Hall in Hin; discriminate
  | Hall : (forall s, In s states -> s = _ \/ s = _), Hin : In _ states |- _ =>
      apply Hall in Hin; destruct Hin; discriminate
  end.

(** X2.  The v2 chain answers DONE exactly when every task is DONE,
    PENDING exactly when there is a task and every task is PENDING,
    RUNNING exactly when some task is RUNNING and every task is PENDING
    or RUNNING, FAILED exactly when some task is FAILED, and never
    REVOKED; so any other mix of states is answered UNKNOWN. *)
Theorem X2_v2_answers :
  forall states : list string,
    (StatusV2.workflow_status states = STATUS_DONE
     <-> (forall s, In s states -> s = "DONE"))
    /\ (StatusV2.workflow_status states = STATUS_PENDING
        <-> states <> [] /\ (forall s, In s states -> s = "PENDING"))
    /\ (StatusV2.workflow_status states = STATUS_RUNNING
        <-> In "RUNNING" states
            /\ (forall s, In s states -> s = "PENDING" \/ s = "RUNNING"))
    /\ (StatusV2.workflow_status states = STATUS_FAILED
        <-> In "FAILED" states)
    /\ StatusV2.workflow_status states <> STATUS_REVOKED.
Proof.
  intros states.
  pose proof (every_task_is_all states STATUS_DONE) as HD.
  pose proof (every_task_is_all states STATUS_PENDING) as HP.
  pose proof (v2_check_all_two states STATUS_PENDING STATUS_RUNNING) as H2.
  pose proof (any_task_is_In states STATUS_FAILED) as HF.
  pose proof (@every_task_is_false_witness STATUS_PENDING states) as HPw.
  assert (Hnil : states = [] -> StatusSpec.every_task_is STATUS_DONE states = true)
    by (intros ->; reflexivity).
  cbn [State_value] in *.
  unfold StatusV2.workflow_status.
  rewrite !v2_check_all_one, v2_check_any_one.
  destruct (StatusSpec.every_task_is STATUS_DONE states),
    (StatusSpec.every_task_is STATUS_PENDING states),
    (StatusV2._check states Py.all [STATUS_PENDING; STATUS_RUNNING]),
    (StatusSpec.any_task_is STATUS_FAILED states);
    bool_facts;
    repeat split; intros; try discriminate; try reflexivity;
    repeat match goal with
      | H : _ /\ _ |- _ => destruct H
      | H : ex _ |- _ => destruct H
      end;
    try solve [ exfalso; auto
              | auto
              | exfalso; chain_clash states
              | intros Hempty; apply Hnil in Hempty; discriminate
              | exfalso; destruct states as [| s l]; [congruence |];
                pose proof (HD s (or_introl eq_refl));
                pose proof (HP s (or_introl eq_refl)); congruence
              | match goal with
                | Hin : In ?s states, Hs : ?s <> "PENDING" |- _ =>
                    destruct (H2 s Hin); [congruence | subst; assumption]
                end ].
Qed.



(** ** What the handlers make of a report *)

(** X4.  A workflow that was never executed, a status request that did not
    return 200, a report without ["tasks"] or with tasks that cannot be
    iterated: in each case both v3 handlers report the workflow with state
    UNKNOWN and no task list, whatever else the report says (even that the
    workflow is revoked). *)
Theorem X4_v3_unusable_report :
  forall (Task_validates : list (string * pyval) -> bool)
         (executed : option string) (response : dict string pyval)
         (status_code : Z),
    ReportObs.unusable executed response status_code ->
    StatusV3.status_of_workflow Task_validates executed response status_code
      = (None, STATUS_UNKNOWN)
    /\ StatusV3.fstatus_of_workflow Task_validates executed response status_code
      = (None, STATUS_UNKNOWN).
Proof.
  intros Task_validates executed response status_code Hbad.
  unfold StatusV3.status_of_workflow, StatusV3.fstatus_of_workflow,
    StatusV3.status_try, StatusV3.fstatus_try, getitem.
  destruct Hbad as [-> | -> | Hcode | Hget | v Hget Hiter].
  - split; reflexivity.
  - split; reflexivity.
  - apply Z.eqb_neq in Hcode. rewrite Hcode.
    split; destruct (assert _); [destruct (assert _) | | destruct (assert _) |];
      reflexivity.
  - rewrite Hget.
    split; destruct (assert _); [destruct (assert _); [destruct (assert _) |] | |
                                 destruct (assert _); [destruct (assert _) |] |];
      reflexivity.
  - rewrite Hget. cbn [bind]. rewrite Hiter.
    split; destruct (assert _); [destruct (assert _); [destruct (assert _) |] | |
                                 destruct (assert _); [destruct (assert _) |] |];
      reflexivity.
Qed.

(** A revoked report whose request came back with 503. *)
Lemma X4_v3_unusable_report_witness :
  StatusV3.status_of_workflow (fun _ => true) (Some "run-1")
    (StatusSpec.report ["DONE"] (Some true)) 503 = (None, STATUS_UNKNOWN)
  /\ StatusV3.fstatus_of_workflow (fun _ => true) (Some "run-1")
       (StatusSpec.report ["DONE"] (Some true)) 503 = (None, STATUS_UNKNOWN).
Proof.
  apply X4_v3_unusable_report.
  apply ReportObs.request_failed. discriminate.
Defined.

Lemma existsb_false_In {A} (f : A -> bool) (l : list A) (x : A) :
  existsb f l = false -> In x l -> f x = false.
Proof.
  intros Hex Hin.
  destruct (f x) eqn:Hfx; [| reflexivity].
  rewrite <- Hex. symmetry. apply existsb_exists. eauto.
Qed.

Lemma v2_read_task_readable (task : pyval) :
  StatusSpec.status_unreadable task = false ->
  exists rebuilt,
    StatusV2.read_task task = Ok (rebuilt, upper (ReportObs.status_text task)).
Proof.
  unfold StatusSpec.status_unreadable, StatusV2.read_task, StatusV2.task_get,
    ReportObs.status_text.
  destruct task as [| b | z | f | s | l | d]; try discriminate.
  destruct (dict_get d "status") as [[| b | z | f | s | l | d'] |];
    try discriminate.
  intros _. simpl. eauto.
Qed.

Lemma v3_read_task_readable
    (Task_validates : list (string * pyval) -> bool) (task : pyval) :
  StatusSpec.status_unreadable task = false ->
  ReportObs.accepted Task_validates task = true ->
  StatusV3.read_task Task_validates task
  = Ok (task, upper (ReportObs.status_text task)).
Proof.
  unfold StatusSpec.status_unreadable, StatusV3.read_task, ReportObs.accepted,
    ReportObs.status_text.
  destruct task as [| b | z | f | s | l | d]; try discriminate.
  intros Hread ->.
  destruct (dict_get d "status") as [[| b | z | f | s | l | d'] |];
    try discriminate.
  reflexivity.
Qed.

(** X5.  When the workflow was executed, the request returned 200, every
    entry of the report is accepted by the [Task] model and has a status
    string, both v3 handlers return all the entries and the answer of the
    chain on their upper-cased statuses and on the truth value of
    [is_revoked]. *)
Theorem X5_v3_handler_is_chain_of_statuses :
  forall (Task_validates : list (string * pyval) -> bool)
         (id : string) (response : dict string pyval) (tasks : list pyval),
    id <> "" ->
    dict_get response "tasks" = Some (PyList tasks) ->
    existsb StatusSpec.status_unreadable tasks = false ->
    forallb (ReportObs.accepted Task_validates) tasks = true ->
    StatusV3.status_of_workflow Task_validates (Some id) response 200
      = (Some tasks,
         StatusV3.status_workflow_status (StatusV3.is_revoked response)
           (map (fun t => upper (ReportObs.status_text t)) tasks))
    /\ StatusV3.fstatus_of_workflow Task_validates (Some id) response 200
      = (Some tasks,
         StatusV3.fstatus_workflow_status (StatusV3.is_revoked response)
           (map (fun t => upper (ReportObs.status_text t)) tasks)).
Proof.
  intros Task_validates id response tasks Hid Hget Hread Hacc.
  assert (Hloop : for_each (StatusV3.read_task Task_validates) tasks
                  = Ok (map (fun t => (t, upper (ReportObs.status_text t))) tasks)).
  { apply for_each_ok. intros t Hin.
    apply v3_read_task_readable.
    - now apply (existsb_false_In _ _ _ Hread).
    - now apply (proj1 (forallb_forall _ _) Hacc). }
  unfold StatusV3.status_of_workflow, StatusV3.fstatus_of_workflow,
    StatusV3.status_try, StatusV3.fstatus_try, getitem.
  apply String.eqb_neq in Hid. rewrite Hid, Hget. cbn [negb assert bind Z.eqb].
  simpl iterate. cbn [bind]. rewrite Hloop. cbn [bind try_except_Exception fst snd].
  rewrite !map_map. cbn [fst snd]. rewrite map_id.
  split; reflexivity.
Qed.

(** X6.  The v2 handler returns exactly when the report has a list of
    tasks and every entry has a status string; it then returns one rebuilt
    entry per task and the answer of the v2 chain on the upper-cased
    statuses.  An unreadable entry makes it raise. *)
Theorem X6_v2_handler_is_chain_of_statuses :
  forall (response : dict string pyval) (tasks : list pyval),
    dict_get response "tasks" = Some (PyList tasks) ->
    (existsb StatusSpec.status_unreadable tasks = false ->
     exists rebuilt,
       StatusV2.status_block response
       = Ok (rebuilt,
             StatusV2.workflow_status
               (map (fun t => upper (ReportObs.status_text t)) tasks))
       /\ length rebuilt = length tasks)
    /\ (existsb StatusSpec.status_unreadable tasks = true ->
        exists e, StatusV2.status_block response = Raise e).
Proof.
  intros response tasks Hget.
  unfold StatusV2.status_block, getitem. rewrite Hget. cbn [bind iterate].
  split.
  - intros Hread.
    rewrite (for_each_ok StatusV2.read_task
               (fun t => (match StatusV2.read_task t with
                          | Ok r => fst r
                          | Raise _ => PyNone
                          end, upper (ReportObs.status_text t)))).
    + cbn [bind]. rewrite !map_map. cbn [fst snd].
      eexists. split; [reflexivity | now rewrite length_map].
    + intros t Hin.
      destruct (@v2_read_task_readable t) as [rebuilt Hr].
      * now apply (existsb_false_In _ _ _ Hread).
      * now rewrite Hr.
  - intros Hbad.
    destruct (for_each_raises StatusV2.read_task StatusSpec.status_unreadable
                tasks v2_read_task_unreadable Hbad) as [e He].
    rewrite He. cbn [bind]. eauto.
Qed.

(** The report with a done task and an entry without status raises. *)
Lemma X6_v2_handler_is_chain_of_statuses_witness :
  exists e, StatusV2.status_block Examples.report_missing_status = Raise e.
Proof.
  apply (proj2 (@X6_v2_handler_is_chain_of_statuses
                  Examples.report_missing_status Examples.tasks_missing_status
                  eq_refl)).
  reflexivity.
Defined.

Lemma upper_ascii_idempotent (c : ascii) :
  upper_ascii (upper_ascii c) = upper_ascii c.
Proof.
  destruct c as [[] [] [] [] [] [] [] []]; reflexivity.
Qed.

Lemma upper_idempotent (s : string) : upper (upper s) = upper s.
Proof.
  induction s as [| c s IH]; simpl; [reflexivity |].
  now rewrite upper_ascii_idempotent, IH.
Qed.

(** ** The link resolver and the compiled tasks *)

Section DictOrder.
Context {K V : Type} `{PyKey K}.

Lemma dict_set_fresh (d : dict K V) (k : K) (v : V) :
  ~ In k (keys d) -> dict_set d k v = d ++ [(k, v)].
Proof.
  induction d as [| [k0 v0] d IH]; simpl; intros Hfresh.
  - reflexivity.
  - rewrite key_eqb_neq by (intros ->; tauto).
    rewrite IH by tauto. reflexivity.
Qed.

(** Assignments to distinct fresh keys keep the order of the loop. *)
Lemma set_items_distinct (items : list (K * V)) : forall d : dict K V,
  NoDup (keys d ++ map fst items) -> set_items d items = d ++ items.
Proof.
  induction items as [| [k v] items IH]; intros d Hnd.
  - now rewrite app_nil_r.
  - rewrite set_items_cons. cbn [fst snd].
    assert (Hfresh : ~ In k (keys d)).
    { intros Hin. apply NoDup_remove_2 in Hnd. apply Hnd.
      apply in_or_app. now left. }
    rewrite (@dict_set_fresh d k v Hfresh).
    rewrite IH.
    + now rewrite <- app_assoc.
    + unfold keys. rewrite map_app. cbn [map fst]. rewrite <- app_assoc.
      exact Hnd.
Qed.

Lemma dict_get_In_values (d : dict K V) (k : K) (v : V) :
  dict_get d k = Some v -> In v (values d).
Proof.
  induction d as [| [k0 v0] d IH]; cbn [dict_get values map snd];
    [discriminate |].
  destruct (key_eqb k0 k).
  - intros [= ->]. now left.
  - intros Hget. right. now apply IH.
Qed.

End DictOrder.

(** X8.  When several links name the same input connector as destination,
    the link that comes last in the mapping of links decides: the compiled
    input is the name of that link's source output, whatever the earlier
    links say. *)
Theorem X8_last_link_wins :
  forall (convert : pyval -> exc pyval) (workflow : WorkflowRequest)
         (ops : dict string Operator)
         (earlier later : dict string Link) (k : string) (l : Link)
         (i : nat) (op_idx : string) (op : Operator)
         (pre post : dict string InputOutput)
         (in_idx : string) (in_data : InputOutput)
         (src : Operator) (out : InputOutput),
    CompilerObs.raises_only_ValueError convert ->
    operators workflow = Some ops ->
    links workflow = Some (earlier ++ (k, l) :: later) ->
    toOperator l = IdxStr op_idx ->
    toConnector l = IdxStr in_idx ->
    (forall kv, In kv later ->
       ~ (toOperator l = toOperator (snd kv)
          /\ toConnector l = toConnector (snd kv))) ->
    nth_error ops i = Some (op_idx, op) ->
    op_inputs (properties op) = pre ++ (in_idx, in_data) :: post ->
    ~ In (prop_name (io_properties in_data)) (map CompilerObs.input_name post) ->
    Compiler.getitem_idx ops (fromOperator l) = Ok src ->
    Compiler.getitem_idx (op_outputs (properties src)) (fromConnector l) = Ok out ->
    exists tasks t,
      Compiler.parse_to_list convert workflow = Ok tasks
      /\ nth_error tasks i = Some t
      /\ dict_get (t_inputs t) (prop_name (io_properties in_data))
         = Some (Some (op_name (properties src) ++ "."
                       ++ prop_name (io_properties out))%string).
Proof.
  intros convert workflow ops earlier later k l i op_idx op pre post
    in_idx in_data src out Hconv Hops Hls Hto Htc Hlast Hnth Hsplit Hname
    Hsrc Hout.
  pose proof (build_links_last earlier later k l Hlast) as Hlk.
  rewrite Hto, Htc in Hlk.
  destruct (@task_at convert workflow ops _ Hconv Hops Hls i op_idx op Hnth)
    as [tasks [Hparse [_ Ht]]].
  exists tasks, (CompilerObs.task_of convert ops
                   (Compiler.build_links (earlier ++ (k, l) :: later)) (op_idx, op)).
  split; [exact Hparse | split; [exact Ht |]].
  change (prop_name (io_properties in_data))
    with (CompilerObs.input_name (in_idx, in_data)) in *.
  rewrite (@task_of_input_last convert ops _ op_idx op pre (in_idx, in_data)
             post Hsplit Hname).
  cbn [fst].
  now rewrite (@recorded_input_linked ops _ op_idx in_idx _ _ src out Hlk Hsrc Hout).
Qed.

(** Two producers linked to the same input: the second link decides. *)
Lemma X8_last_link_wins_witness :
  exists tasks t,
    Compiler.parse_to_list Strconv.convert Cases.rival_workflow = Ok tasks
    /\ nth_error tasks 1 = Some t
    /\ dict_get (t_inputs t) "DemoTaskTwoInput" = Some (Some "DemoTaskFour.Result").
Proof.
  apply (@X8_last_link_wins Strconv.convert Cases.rival_workflow
           Cases.rival_operators [("0", Cases.link_from "op_0")] []
           "1" (Cases.link_from "op_4") 1%nat "op_1" Examples.op_1 [] []
           "in_0" Examples.in_0 Cases.op_4 (Examples.conn "Result")
           strconv_convert_returns);
    try reflexivity; simpl; tauto.
Defined.

(** X9.  An operator that no link names as destination is compiled with
    all its inputs [None], whatever links the other operators have. *)
Theorem X9_unlinked_operator_has_null_inputs :
  forall (convert : pyval -> exc pyval) (workflow : WorkflowRequest)
         (ops : dict string Operator) (ls : dict string Link)
         (i : nat) (op_idx : string) (op : Operator),
    CompilerObs.raises_only_ValueError convert ->
    operators workflow = Some ops ->
    links workflow = Some ls ->
    nth_error ops i = Some (op_idx, op) ->
    (forall kv, In kv ls -> toOperator (snd kv) <> IdxStr op_idx) ->
    exists tasks t,
      Compiler.parse_to_list convert workflow = Ok tasks
      /\ nth_error tasks i = Some t
      /\ Forall (fun v => v = None) (values (t_inputs t))
      /\ (forall c, In c (op_inputs (properties op)) ->
            dict_get (t_inputs t) (CompilerObs.input_name c) = Some None).
Proof.
  intros convert workflow ops ls i op_idx op Hconv Hops Hls Hnth Hnone.
  destruct (@task_at convert workflow ops ls Hconv Hops Hls i op_idx op Hnth)
    as [tasks [Hparse [_ Ht]]].
  exists tasks,
    (CompilerObs.task_of convert ops (Compiler.build_links ls) (op_idx, op)).
  split; [exact Hparse | split; [exact Ht |]].
  assert (Hrec : forall in_idx,
             CompilerObs.recorded_input ops (Compiler.build_links ls) op_idx in_idx
             = None).
  { intros in_idx. apply recorded_input_unresolvable, CompilerObs.no_link.
    apply build_links_none. intros kv Hin [Hto _].
    apply (Hnone kv Hin). now symmetry. }
  assert (Hall : Forall (fun v : option string => v = None)
                   (values (t_inputs (CompilerObs.task_of convert ops
                      (Compiler.build_links ls) (op_idx, op))))).
  { cbn [CompilerObs.task_of t_inputs fst snd].
    apply values_set_items; [| constructor].
    rewrite map_map. cbn [snd].
    apply Forall_forall. intros v Hv.
    apply in_map_iff in Hv as [c [<- _]]. apply Hrec. }
  split; [exact Hall |].
  intros c Hc.
  assert (Hkey : In (CompilerObs.input_name c)
                   (keys (t_inputs (CompilerObs.task_of convert ops
                      (Compiler.build_links ls) (op_idx, op))))).
  { cbn [CompilerObs.task_of t_inputs fst snd].
    apply keys_set_items. right. rewrite map_map. cbn [fst].
    now apply (in_map CompilerObs.input_name). }
  apply In_keys_dict_get in Hkey as [v Hv].
  rewrite Hv. f_equal.
  rewrite Forall_forall in Hall. apply Hall.
  exact (dict_get_In_values _ _ Hv).
Qed.

(** X10.  The compiler raises exactly when the workflow has no mapping of
    links or no mapping of operators (both default to [None]), and what it
    raises then is [AttributeError]; in particular it never raises
    [KeyError]. *)
Theorem X10_compiler_fails_only_without_mappings :
  forall (convert : pyval -> exc pyval) (workflow : WorkflowRequest),
    CompilerObs.raises_only_ValueError convert ->
    (links workflow = None \/ operators workflow = None ->
     Compiler.parse_to_list convert workflow = Raise AttributeError)
    /\ (forall e,
          Compiler.parse_to_list convert workflow = Raise e ->
          e = AttributeError
          /\ (links workflow = None \/ operators workflow = None))
    /\ Compiler.parse_to_list convert workflow <> Raise KeyError.
Proof.
  intros convert workflow Hconv.
  assert (Hraise : forall e,
             Compiler.parse_to_list convert workflow = Raise e ->
             e = AttributeError
             /\ (links workflow = None \/ operators workflow = None)).
  { intros e.
    destruct (links workflow) as [ls |] eqn:Hls.
    - destruct (operators workflow) as [ops |] eqn:Hops.
      + rewrite (@parse_to_list_eq convert workflow ops ls Hconv Hops Hls).
        discriminate.
      + unfold Compiler.parse_to_list. rewrite Hls, Hops. cbn [bind].
        intros [= <-]. auto.
    - unfold Compiler.parse_to_list. rewrite Hls. cbn [bind].
      intros [= <-]. auto. }
  split; [| split].
  - unfold Compiler.parse_to_list.
    intros [Hls | Hops].
    + now rewrite Hls.
    + rewrite Hops. destruct (links workflow); reflexivity.
  - exact Hraise.
  - intros Hkey. apply Hraise in Hkey as [Hkey _]. discriminate.
Qed.

(** A workflow stored without links. *)
Lemma X10_compiler_fails_only_without_mappings_witness :
  Compiler.parse_to_list Strconv.convert Cases.no_links_workflow
  = Raise AttributeError.
Proof.
  apply (proj1 (@X10_compiler_fails_only_without_mappings Strconv.convert
                  Cases.no_links_workflow strconv_convert_returns)).
  left. reflexivity.
Defined.

(** X11.  When the display names of an operator's input connectors are
    pairwise distinct, the task lists exactly one input per connector, in
    the order of the connectors; likewise for the parameters. *)
Theorem X11_distinct_names_keep_every_entry :
  forall (convert : pyval -> exc pyval) (workflow : WorkflowRequest)
         (ops : dict string Operator) (ls : dict string Link)
         (i : nat) (op_idx : string) (op : Operator),
    CompilerObs.raises_only_ValueError convert ->
    operators workflow = Some ops ->
    links workflow = Some ls ->
    nth_error ops i = Some (op_idx, op) ->
    exists tasks t,
      Compiler.parse_to_list convert workflow = Ok tasks
      /\ nth_error tasks i = Some t
      /\ (NoDup (map CompilerObs.input_name (op_inputs (properties op))) ->
          t_inputs t
          = map (fun c => (CompilerObs.input_name c,
                           CompilerObs.recorded_input ops
                             (Compiler.build_links ls) op_idx (fst c)))
              (op_inputs (properties op)))
      /\ (NoDup (map CompilerObs.parameter_name (parameters op)) ->
          t_params t
          = map (fun p => (CompilerObs.parameter_name p,
                           CompilerObs.recorded_param convert
                             (param_value (par_properties (snd p)))))
              (parameters op)).
Proof.
  intros convert workflow ops ls i op_idx op Hconv Hops Hls Hnth.
  destruct (@task_at convert workflow ops ls Hconv Hops Hls i op_idx op Hnth)
    as [tasks [Hparse [_ Ht]]].
  exists tasks,
    (CompilerObs.task_of convert ops (Compiler.build_links ls) (op_idx, op)).
  split; [exact Hparse | split; [exact Ht |]].
  split; intros Hnd; cbn [CompilerObs.task_of t_inputs t_params fst snd];
    rewrite set_items_distinct; try reflexivity;
    cbn [keys map app]; rewrite map_map; exact Hnd.
Qed.

(** The test workflow: one input, two parameters, all names distinct. *)
Lemma X11_distinct_names_keep_every_entry_witness :
  exists tasks t,
    Compiler.parse_to_list Strconv.convert Examples.test_workflow = Ok tasks
    /\ nth_error tasks 0 = Some t
    /\ t_params t = [("param0", PyInt 0); ("param1", PyStr "one")].
Proof.
  destruct (@X11_distinct_names_keep_every_entry Strconv.convert
              Examples.test_workflow Examples.test_operators Examples.test_links
              0%nat "op_0" Examples.op_0
              strconv_convert_returns eq_refl eq_refl eq_refl)
    as [tasks [t [Hparse [Ht [_ Hparams]]]]].
  exists tasks, t. split; [exact Hparse | split; [exact Ht |]].
  rewrite Hparams; [reflexivity |].
  repeat constructor; simpl; intuition discriminate.
Defined.

(** ** The exported graph *)

Section ExportFacts.
Import Rdf RdfObs.

Lemma In_add_inv (g : Graph) (t t' : triple) :
  In t (add g t') -> In t g \/ t = t'.
Proof.
  unfold add. destruct (existsb (triple_eqb t') g); [tauto |].
  intros Hin. apply in_app_or in Hin as [Hin | [<- | []]]; tauto.
Qed.

Lemma connector_step_eq task pred g (c : string * InputOutput) :
  connector_step task pred g c
  = match io_definition (snd c) with
    | Some d => Ok (add g (task, pred, URIRef (uri d)))
    | None => Raise TypeError
    end.
Proof.
  unfold connector_step, definition_uri.
  destruct (io_definition (snd c)); reflexivity.
Qed.

(** A loop over connectors returns when all of them are defined. *)
Lemma connectors_loop_returns task pred (cs : dict string InputOutput) :
  forall g,
    forallb has_definition cs = true ->
    exists g', for_fold (connector_step task pred) cs g = Ok g'.
Proof.
  induction cs as [| c cs IH]; intros g; cbn [for_fold forallb].
  - eauto.
  - intros Hall. apply andb_true_iff in Hall as [Hc Hcs].
    rewrite connector_step_eq. unfold has_definition in Hc.
    destruct (io_definition (snd c)); [| discriminate]. now apply IH.
Qed.

Lemma connectors_loop_raises task pred (cs : dict string InputOutput) :
  forall g,
    forallb has_definition cs = false ->
    for_fold (connector_step task pred) cs g = Raise TypeError.
Proof.
  induction cs as [| c cs IH]; intros g; cbn [for_fold forallb];
    [discriminate |].
  rewrite connector_step_eq. unfold has_definition at 1.
  destruct (io_definition (snd c)); [| reflexivity].
  cbn [andb]. apply IH.
Qed.

Lemma connectors_loop_adds task pred (cs : dict string InputOutput) :
  forall g g',
    for_fold (connector_step task pred) cs g = Ok g' ->
    forall c, In c cs ->
      exists d, io_definition (snd c) = Some d
                /\ In (task, pred, URIRef (uri d)) g'.
Proof.
  induction cs as [| c0 cs IH]; intros g g'; cbn [for_fold In]; [tauto |].
  rewrite connector_step_eq.
  destruct (io_definition (snd c0)) as [d0 |] eqn:Hd0; [| discriminate].
  intros Hloop c [<- | Hin].
  - exists d0. split; [exact Hd0 |].
    eapply for_fold_keeps; [| exact Hloop | apply In_add].
    intros; eapply connector_step_keeps; eauto.
  - eapply IH; eauto.
Qed.

Lemma connectors_loop_shape task pred (cs : dict string InputOutput) :
  forall g g',
    for_fold (connector_step task pred) cs g = Ok g' ->
    forall t, In t g' -> In t g \/ (subject t = task /\ predicate t = pred).
Proof.
  induction cs as [| c cs IH]; intros g g'; cbn [for_fold].
  - intros [= <-]. tauto.
  - rewrite connector_step_eq.
    destruct (io_definition (snd c)) as [d |]; [| discriminate].
    intros Hloop t Hin.
    destruct (IH _ _ Hloop t Hin) as [Hin' | Hshape]; [| tauto].
    apply In_add_inv in Hin' as [Hin' | ->]; [tauto |].
    right. split; reflexivity.
Qed.

Lemma operator_step_returns name workflow_id g (kv : string * Operator) :
  (describable kv = true ->
   exists g', operator_step name workflow_id g kv = Ok g')
  /\ (describable kv = false ->
      operator_step name workflow_id g kv = Raise TypeError).
Proof.
  unfold describable, operator_step, definition_uri.
  destruct (definition (snd kv)) as [d |]; cbn [bind];
    [| split; [discriminate | reflexivity]].
  split.
  - intros Hall. apply andb_true_iff in Hall as [Hin Hout].
    destruct (connectors_loop_returns
                (URIRef (task_uri (uri d) workflow_id (fst kv)))
                uriref_task_specifies_input_class _
                (add (add (add g (name, uriref_has_task,
                                  URIRef (task_uri (uri d) workflow_id (fst kv))))
                        (URIRef (task_uri (uri d) workflow_id (fst kv)),
                         uriref_has_task_name,
                         Literal_str (op_name (properties (snd kv)))))
                   (URIRef (task_uri (uri d) workflow_id (fst kv)),
                    uriref_task_has_number_inputs,
                    Literal_int (Z.of_nat (length (op_inputs (properties (snd kv)))))))
                Hin) as [g1 H1].
    rewrite H1. cbn [bind].
    destruct (connectors_loop_returns
                (URIRef (task_uri (uri d) workflow_id (fst kv)))
                uriref_task_specifies_output_class _
                (add g1 (URIRef (task_uri (uri d) workflow_id (fst kv)),
                         uriref_task_has_number_outputs,
                         Literal_int (Z.of_nat (length (op_outputs (properties (snd kv)))))))
                Hout) as [g2 H2].
    rewrite H2. cbn [bind]. eauto.
  - intros Hall. apply andb_false_iff in Hall.
    destruct (forallb has_definition (op_inputs (properties (snd kv)))) eqn:Hin.
    + destruct Hall as [Hall | Hout]; [discriminate |].
      destruct (connectors_loop_returns
                  (URIRef (task_uri (uri d) workflow_id (fst kv)))
                  uriref_task_specifies_input_class _
                  (add (add (add g (name, uriref_has_task,
                                    URIRef (task_uri (uri d) workflow_id (fst kv))))
                          (URIRef (task_uri (uri d) workflow_id (fst kv)),
                           uriref_has_task_name,
                           Literal_str (op_name (properties (snd kv)))))
                     (URIRef (task_uri (uri d) workflow_id (fst kv)),
                      uriref_task_has_number_inputs,
                      Literal_int (Z.of_nat (length (op_inputs (properties (snd kv)))))))
                  Hin) as [g1 H1].
      rewrite H1. cbn [bind].
      now rewrite connectors_loop_raises.
    + now rewrite connectors_loop_raises.
Qed.

Lemma operators_loop_returns name workflow_id (ops : dict string Operator) :
  forall g,
    (forallb describable ops = true ->
     exists g', for_fold (operator_step name workflow_id) ops g = Ok g')
    /\ (forallb describable ops = false ->
        for_fold (operator_step name workflow_id) ops g = Raise TypeError).
Proof.
  induction ops as [| kv ops IH]; intros g; cbn [for_fold forallb].
  - split; [eauto | discriminate].
  - destruct (operator_step_returns name workflow_id g kv) as [Hok Hko].
    destruct (describable kv); cbn [andb].
    + destruct (Hok eq_refl) as [g1 H1]. rewrite H1. apply IH.
    + rewrite (Hko eq_refl). split; [discriminate | reflexivity].
Qed.

End ExportFacts.

(** X12.  The exporter returns a graph exactly when the workflow has a
    mapping of operators and every operator, every input and every output
    carries a definition; otherwise it raises, so that no partial graph is
    ever returned. *)
Theorem X12_export_needs_every_definition :
  forall (workflow : WorkflowRequest) (workflow_id : string),
    (forall ops,
        operators workflow = Some ops ->
        forallb RdfObs.describable ops = true ->
        exists g, Rdf.parse_to_rdf workflow workflow_id = Ok g)
    /\ (forall ops,
          operators workflow = Some ops ->
          forallb RdfObs.describable ops = false ->
          exists e, Rdf.parse_to_rdf workflow workflow_id = Raise e)
    /\ (operators workflow = None ->
        exists e, Rdf.parse_to_rdf workflow workflow_id = Raise e).
Proof.
  intros workflow workflow_id.
  unfold Rdf.parse_to_rdf.
  split; [| split].
  - intros ops -> Hall. cbn [bind].
    now apply operators_loop_returns.
  - intros ops -> Hall. cbn [bind]. exists TypeError.
    now apply operators_loop_returns.
  - intros ->. exists TypeError. reflexivity.
Qed.

(** The test workflow is exported; the workflow with an output that has
    no definition is not. *)
Lemma X12_export_needs_every_definition_witness :
  (exists g, Rdf.parse_to_rdf Examples.test_workflow "test-1-1" = Ok g)
  /\ (exists e, Rdf.parse_to_rdf Cases.undefined_workflow "test-1-1" = Raise e).
Proof.
  split.
  - apply (proj1 (X12_export_needs_every_definition Examples.test_workflow
                    "test-1-1") Examples.test_operators); reflexivity.
  - apply (proj1 (proj2 (X12_export_needs_every_definition
                           Cases.undefined_workflow "test-1-1"))
             [("op_0", Examples.op_0); ("op_5", Cases.op_5)]); reflexivity.
Defined.

Section ExportContents.
Import Rdf RdfObs.

Variable workflow_id : string.

(** What one iteration of the operator loop adds to the graph. *)
Lemma operator_step_describes g (kv : string * Operator) g' :
  operator_step (workflow_node workflow_id) workflow_id g kv = Ok g' ->
  exists d,
    definition (snd kv) = Some d
    /\ In (workflow_node workflow_id, uriref_has_task,
           task_node d workflow_id (fst kv)) g'
    /\ In (task_node d workflow_id (fst kv), uriref_has_task_name,
           Literal_str (op_name (properties (snd kv)))) g'
    /\ In (task_node d workflow_id (fst kv), uriref_task_has_number_inputs,
           Literal_int (Z.of_nat (length (op_inputs (properties (snd kv)))))) g'
    /\ In (task_node d workflow_id (fst kv), uriref_task_has_number_outputs,
           Literal_int (Z.of_nat (length (op_outputs (properties (snd kv)))))) g'
    /\ In (task_node d workflow_id (fst kv), uriref_has_component,
           URIRef (uri d)) g'
    /\ (forall c, In c (op_inputs (properties (snd kv))) ->
          exists dc, io_definition (snd c) = Some dc
                     /\ In (task_node d workflow_id (fst kv),
                            uriref_task_specifies_input_class,
                            URIRef (uri dc)) g')
    /\ (forall c, In c (op_outputs (properties (snd kv))) ->
          exists dc, io_definition (snd c) = Some dc
                     /\ In (task_node d workflow_id (fst kv),
                            uriref_task_specifies_output_class,
                            URIRef (uri dc)) g').
Proof.
  unfold operator_step, definition_uri, task_node.
  destruct (definition (snd kv)) as [d |]; cbn [bind]; [| discriminate].
  set (task := URIRef (task_uri (uri d) workflow_id (fst kv))).
  destruct (for_fold _ (op_inputs _) _) as [g1 |] eqn:H1; cbn [bind];
    [| discriminate].
  destruct (for_fold _ (op_outputs _) _) as [g2 |] eqn:H2; cbn [bind];
    [| discriminate].
  intros [= <-]. exists d. split; [reflexivity |].
  assert (Hin1 : forall t, In t g1 -> In t (add g2 (task, uriref_has_component,
                                                    URIRef (uri d)))).
  { intros t Ht. apply In_add_mono.
    eapply for_fold_keeps; [| exact H2 |];
      [intros; eapply connector_step_keeps; eauto |].
    now apply In_add_mono. }
  assert (Hin0 : forall t,
             In t (add (add (add g (workflow_node workflow_id, uriref_has_task, task))
                          (task, uriref_has_task_name,
                           Literal_str (op_name (properties (snd kv)))))
                     (task, uriref_task_has_number_inputs,
                      Literal_int (Z.of_nat (length (op_inputs (properties (snd kv))))))) ->
             In t g1).
  { intros t Ht.
    eapply for_fold_keeps; [| exact H1 | exact Ht].
    intros; eapply connector_step_keeps; eauto. }
  repeat split.
  - apply Hin1, Hin0. do 2 apply In_add_mono. apply In_add.
  - apply Hin1, Hin0. apply In_add_mono, In_add.
  - apply Hin1, Hin0. apply In_add.
  - apply In_add_mono.
    eapply for_fold_keeps; [| exact H2 | apply In_add].
    intros; eapply connector_step_keeps; eauto.
  - apply In_add.
  - intros c Hc.
    destruct (connectors_loop_adds _ _ _ _ H1 c Hc) as [dc [Hdc Hin]].
    exists dc. split; [exact Hdc | now apply Hin1].
  - intros c Hc.
    destruct (connectors_loop_adds _ _ _ _ H2 c Hc) as [dc [Hdc Hin]].
    exists dc. split; [exact Hdc | now apply In_add_mono].
Qed.

(** Every triple that one iteration adds is about its operator. *)
Lemma operator_step_shape g (kv : string * Operator) g' :
  operator_step (workflow_node workflow_id) workflow_id g kv = Ok g' ->
  forall t, In t g' -> In t g \/ about_operator workflow_id kv t.
Proof.
  unfold operator_step, definition_uri, about_operator, task_node.
  destruct (definition (snd kv)) as [d |]; cbn [bind]; [| discriminate].
  set (task := URIRef (task_uri (uri d) workflow_id (fst kv))).
  destruct (for_fold _ (op_inputs _) _) as [g1 |] eqn:H1; cbn [bind];
    [| discriminate].
  destruct (for_fold _ (op_outputs _) _) as [g2 |] eqn:H2; cbn [bind];
    [| discriminate].
  intros [= <-] t Hin.
  assert (Hpred : forall p, In p task_predicates ->
            forall t', subject t' = task /\ predicate t' = p ->
              In t g \/ (exists d0, Some d = Some d0 /\
                (t' = (workflow_node workflow_id, uriref_has_task,
                       URIRef (task_uri (uri d0) workflow_id (fst kv)))
                 \/ subject t' = URIRef (task_uri (uri d0) workflow_id (fst kv))
                    /\ In (predicate t') task_predicates))).
  { intros p Hp t' [Hs Hq]. right. exists d. split; [reflexivity |].
    right. split; [exact Hs | now rewrite Hq]. }
  apply In_add_inv in Hin as [Hin | ->];
    [| apply (Hpred uriref_has_component); [simpl; tauto | split; reflexivity]].
  apply (connectors_loop_shape _ _ _ _ H2) in Hin as [Hin | Hshape];
    [| apply (Hpred uriref_task_specifies_output_class);
       [simpl; tauto | exact Hshape]].
  apply In_add_inv in Hin as [Hin | ->];
    [| apply (Hpred uriref_task_has_number_outputs);
       [simpl; tauto | split; reflexivity]].
  apply (connectors_loop_shape _ _ _ _ H1) in Hin as [Hin | Hshape];
    [| apply (Hpred uriref_task_specifies_input_class);
       [simpl; tauto | exact Hshape]].
  apply In_add_inv in Hin as [Hin | ->];
    [| apply (Hpred uriref_task_has_number_inputs);
       [simpl; tauto | split; reflexivity]].
  apply In_add_inv in Hin as [Hin | ->];
    [| apply (Hpred uriref_has_task_name); [simpl; tauto | split; reflexivity]].
  apply In_add_inv in Hin as [Hin | ->]; [now left |].
  right. exists d. split; [reflexivity | now left].
Qed.

Lemma operators_loop_describes (ops : dict string Operator) : forall g g',
  for_fold (operator_step (workflow_node workflow_id) workflow_id) ops g = Ok g' ->
  (forall t, In t g -> In t g')
  /\ (forall t, In t g' ->
        In t g \/ exists kv, In kv ops /\ about_operator workflow_id kv t).
Proof.
  induction ops as [| kv ops IH]; intros g g'; cbn [for_fold].
  - intros [= <-]. split; [auto | tauto].
  - destruct (operator_step _ workflow_id g kv) as [g1 |] eqn:Hstep;
      [| discriminate].
    intros Hloop. destruct (IH _ _ Hloop) as [Hkeep Hshape].
    split.
    + intros t Ht. apply Hkeep. eapply operator_step_keeps; eauto.
    + intros t Ht.
      destruct (Hshape t Ht) as [Hin | [kv' [Hkv' Habout]]].
      * destruct (operator_step_shape _ _ Hstep t Hin) as [Hg | Habout];
          [now left |].
        right. exists kv. split; [now left | exact Habout].
      * right. exists kv'. split; [now right | exact Habout].
Qed.

End ExportContents.

Section ExportTheorems.
Import Rdf RdfObs.

Lemma described_mono workflow_id kv (g g' : Graph) :
  (forall t, In t g -> In t g') ->
  described workflow_id kv g -> described workflow_id kv g'.
Proof.
  intros Hsub [d [Hd [H1 [H2 [H3 [H4 [H5 [H6 H7]]]]]]]].
  exists d. repeat split; auto.
  - intros c Hc. destruct (H6 c Hc) as [dc [Hdc Hin]]. eauto.
  - intros c Hc. destruct (H7 c Hc) as [dc [Hdc Hin]]. eauto.
Qed.

Lemma operators_loop_described workflow_id (ops : dict string Operator) :
  forall g g',
    for_fold (operator_step (workflow_node workflow_id) workflow_id) ops g = Ok g' ->
    forall kv, In kv ops -> described workflow_id kv g'.
Proof.
  induction ops as [| kv0 ops IH]; intros g g'; cbn [for_fold In]; [tauto |].
  destruct (operator_step _ workflow_id g kv0) as [g1 |] eqn:Hstep;
    [| discriminate].
  intros Hloop kv [<- | Hin].
  - apply (described_mono (g := g1)).
    + apply (operators_loop_describes _ _ _ Hloop).
    + exact (operator_step_describes _ _ _ Hstep).
  - eapply IH; eauto.
Qed.

Lemma parse_to_rdf_unfold workflow workflow_id ops :
  operators workflow = Some ops ->
  parse_to_rdf workflow workflow_id
  = for_fold (operator_step (workflow_node workflow_id) workflow_id) ops
      (add (add [] (workflow_node workflow_id, RDF_type, uriref_workflow))
         (workflow_node workflow_id, uriref_num_task,
          Literal_int (Z.of_nat (length ops)))).
Proof. intros Hops. unfold parse_to_rdf. now rewrite Hops. Qed.

End ExportTheorems.

(** X13.  An exported graph declares the workflow node a workflow and
    gives it one task count, the number of operators: no other triple
    gives the workflow node a task count. *)
Theorem X13_export_counts_the_operators :
  forall (workflow : WorkflowRequest) (workflow_id : string)
         (ops : dict string Operator) (g : Rdf.Graph),
    operators workflow = Some ops ->
    Rdf.parse_to_rdf workflow workflow_id = Ok g ->
    In (RdfObs.workflow_node workflow_id, Rdf.RDF_type, Rdf.uriref_workflow) g
    /\ In (RdfObs.workflow_node workflow_id, Rdf.uriref_num_task,
           Rdf.Literal_int (Z.of_nat (length ops))) g
    /\ (forall s o, In (s, Rdf.uriref_num_task, o) g ->
          s = RdfObs.workflow_node workflow_id
          /\ o = Rdf.Literal_int (Z.of_nat (length ops))).
Proof.
  intros workflow workflow_id ops g Hops Hparse.
  rewrite (parse_to_rdf_unfold _ _ Hops) in Hparse.
  destruct (operators_loop_describes _ _ _ Hparse) as [Hkeep Hshape].
  split; [| split].
  - apply Hkeep. apply In_add_mono, In_add.
  - apply Hkeep. apply In_add.
  - intros s o Hin.
    destruct (Hshape _ Hin) as [Hhead | [kv [_ [d [_ Habout]]]]].
    + apply In_add_inv in Hhead as [Hhead | Heq].
      * apply In_add_inv in Hhead as [[] | Heq].
        exfalso. injection Heq as _ Hp _. vm_compute in Hp. discriminate.
      * injection Heq as -> ->. auto.
    + exfalso. destruct Habout as [Heq | [_ Hpred]].
      * injection Heq as _ Hp _. vm_compute in Hp. discriminate.
      * unfold RdfObs.predicate in Hpred. cbn [fst snd] in Hpred.
        vm_compute in Hpred.
        repeat (destruct Hpred as [Hpred | Hpred]; [discriminate |]).
        exact Hpred.
Qed.

(** The graph of the test workflow counts two tasks. *)
Lemma X13_export_counts_the_operators_witness :
  exists g,
    Rdf.parse_to_rdf Examples.test_workflow "test-1-1" = Ok g
    /\ In (RdfObs.workflow_node "test-1-1", Rdf.uriref_num_task, Rdf.Literal_int 2) g.
Proof.
  eexists. split; [vm_compute; reflexivity |].
  refine (proj1 (proj2 (@X13_export_counts_the_operators Examples.test_workflow
                          "test-1-1" Examples.test_operators _ eq_refl _))).
  vm_compute. reflexivity.
Defined.

(** X14.  In an exported graph every operator is described: the workflow
    node is linked to the operator's task node, and the task node carries
    the operator's display name, its numbers of inputs and outputs, its
    component (the definition URI) and the definition URI of every input
    and output connector. *)
Theorem X14_export_describes_every_operator :
  forall (workflow : WorkflowRequest) (workflow_id : string)
         (ops : dict string Operator) (g : Rdf.Graph) (kv : string * Operator),
    operators workflow = Some ops ->
    Rdf.parse_to_rdf workflow workflow_id = Ok g ->
    In kv ops ->
    RdfObs.described workflow_id kv g.
Proof.
  intros workflow workflow_id ops g kv Hops Hparse Hin.
  rewrite (parse_to_rdf_unfold _ _ Hops) in Hparse.
  exact (operators_loop_described _ _ _ Hparse kv Hin).
Qed.

(** The second operator of the test workflow. *)
Lemma X14_export_describes_every_operator_witness :
  exists g,
    Rdf.parse_to_rdf Examples.test_workflow "test-1-1" = Ok g
    /\ RdfObs.described "test-1-1" ("op_1", Examples.op_1) g.
Proof.
  eexists. split; [vm_compute; reflexivity |].
  refine (@X14_export_describes_every_operator Examples.test_workflow
            "test-1-1" Examples.test_operators _ ("op_1", Examples.op_1)
            eq_refl _ _).
  - vm_compute. reflexivity.
  - right. left. reflexivity.
Defined.

(** X15.  An exported graph holds nothing else: every triple is the type
    of the workflow node, its task count, the link to the task node of one
    of the operators, or a triple about such a task node with one of the
    six task predicates.  No triple describes a link or a parameter, and
    no connector is the subject of a triple. *)
Theorem X15_export_holds_nothing_else :
  forall (workflow : WorkflowRequest) (workflow_id : string)
         (ops : dict string Operator) (g : Rdf.Graph),
    operators workflow = Some ops ->
    Rdf.parse_to_rdf workflow workflow_id = Ok g ->
    forall t, In t g ->
      t = (RdfObs.workflow_node workflow_id, Rdf.RDF_type, Rdf.uriref_workflow)
      \/ t = (RdfObs.workflow_node workflow_id, Rdf.uriref_num_task,
              Rdf.Literal_int (Z.of_nat (length ops)))
      \/ exists kv, In kv ops /\ RdfObs.about_operator workflow_id kv t.
Proof.
  intros workflow workflow_id ops g Hops Hparse t Hin.
  rewrite (parse_to_rdf_unfold _ _ Hops) in Hparse.
  destruct (proj2 (operators_loop_describes _ _ _ Hparse) t Hin)
    as [Hhead | Habout]; [| tauto].
  apply In_add_inv in Hhead as [Hhead | ->]; [| tauto].
  apply In_add_inv in Hhead as [[] | ->]. tauto.
Qed.

(** The fourteen triples of the test workflow. *)
Lemma X15_export_holds_nothing_else_witness :
  exists g,
    Rdf.parse_to_rdf Examples.test_workflow "test-1-1" = Ok g
    /\ forall t, In t g ->
         t = (RdfObs.workflow_node "test-1-1", Rdf.RDF_type, Rdf.uriref_workflow)
         \/ t = (RdfObs.workflow_node "test-1-1", Rdf.uriref_num_task,
                 Rdf.Literal_int 2)
         \/ exists kv, In kv Examples.test_operators
                       /\ RdfObs.about_operator "test-1-1" kv t.
Proof.
  eexists. split; [vm_compute; reflexivity |].
  refine (@X15_export_holds_nothing_else Examples.test_workflow "test-1-1"
            Examples.test_operators _ eq_refl _).
  vm_compute. reflexivity.
Defined.

(** ** Filtering the query parameters *)

Section ExcludeKeysFacts.
Context {V : Type}.
Variable dictionary : dict string V.

Lemma dict_get_not_In_keys (d : dict string V) (k : string) :
  ~ In k (keys d) -> dict_get d k = None.
Proof.
  intros Hnot. destruct (dict_get d k) as [v |] eqn:Hget; [| reflexivity].
  exfalso. apply Hnot. exact (dict_get_In_keys _ _ Hget).
Qed.

(** The comprehension over keys of the dictionary copies their entries. *)
Lemma comprehension_copies (l : list string) : forall acc : dict string V,
  (forall k, In k l -> In k (keys dictionary)) ->
  exists d,
    for_fold (fun acc key => v <- getitem dictionary key ;; Ok (dict_set acc key v))
      l acc = Ok d
    /\ (forall k, In k l -> dict_get d k = dict_get dictionary k)
    /\ (forall k, ~ In k l -> dict_get d k = dict_get acc k)
    /\ (NoDup (keys acc) -> NoDup (keys d)).
Proof.
  induction l as [| k0 l IH]; intros acc Hsub; cbn [for_fold].
  - exists acc. split; [reflexivity |].
    split; [intros k [] |]. split; [reflexivity | auto].
  - destruct (In_keys_dict_get dictionary k0 (Hsub k0 (or_introl eq_refl)))
      as [v0 Hv0].
    unfold getitem at 1. rewrite Hv0. cbn [bind].
    destruct (IH (dict_set acc k0 v0)) as [d [Hloop [Hin [Hout Hnd]]]].
    { intros k Hk. apply Hsub. now right. }
    exists d. split; [exact Hloop |]. split; [| split].
    + intros k [<- | Hk]; [| now apply Hin].
      destruct (in_dec string_dec k0 l) as [Hk0 | Hk0]; [now apply Hin |].
      now rewrite (Hout k0 Hk0), dict_get_set_same.
    + intros k Hk.
      rewrite Hout by (intros Hl; apply Hk; now right).
      apply dict_get_set_other. intros ->. apply Hk. now left.
    + intros Hacc. apply Hnd. now apply NoDup_keys_dict_set.
Qed.

End ExcludeKeysFacts.

(** X16.  [_exclude_keys] never fails, and the dictionary it returns has
    no entry for an excluded key and the entry of the given dictionary for
    every other key, in whatever order the set of keys is iterated. *)
Theorem X16_exclude_keys_filters :
  forall (set_order : list string -> list string),
    (forall l x, In x (set_order l) <-> In x l) ->
    forall (V : Type) (dictionary : dict string V) (excluded : list string),
    exists d,
      ExcludeKeys._exclude_keys set_order dictionary excluded = Ok d
      /\ (forall k, In k excluded -> dict_get d k = None)
      /\ (forall k, ~ In k excluded -> dict_get d k = dict_get dictionary k)
      /\ NoDup (keys d).
Proof.
  intros set_order Horder V dictionary excluded.
  unfold ExcludeKeys._exclude_keys.
  assert (Hmem : forall k,
             In k (ExcludeKeys.set_difference set_order (keys dictionary) excluded)
             <-> In k (keys dictionary) /\ ~ In k excluded).
  { intros k. unfold ExcludeKeys.set_difference.
    rewrite Horder, filter_In, nodup_In, negb_true_iff.
    split; intros [Hk Hex]; split; try exact Hk.
    - intros Hin. rewrite <- not_true_iff_false in Hex. apply Hex.
      apply existsb_exists. exists k. split; [exact Hin | apply String.eqb_refl].
    - apply not_true_iff_false. intros Hx.
      apply existsb_exists in Hx as [k' [Hin Heq]].
      apply String.eqb_eq in Heq. subst k'. tauto. }
  destruct (comprehension_copies dictionary
              (ExcludeKeys.set_difference set_order (keys dictionary) excluded) [])
    as [d [Hloop [Hin [Hout Hnd]]]].
  { intros k Hk. now apply Hmem in Hk. }
  exists d. split; [exact Hloop |]. split; [| split].
  - intros k Hk. rewrite Hout; [reflexivity |].
    intros Hk'. apply Hmem in Hk'. tauto.
  - intros k Hk.
    destruct (in_dec string_dec k (keys dictionary)) as [Hd | Hd].
    + apply Hin. apply Hmem. tauto.
    + rewrite (dict_get_not_In_keys _ _ Hd). rewrite Hout; [reflexivity |].
      intros Hk'. apply Hmem in Hk'. tauto.
  - apply Hnd. constructor.
Qed.

(** The query of a request to [/get], iterated in reverse order. *)
Lemma X16_exclude_keys_filters_witness :
  exists d,
    ExcludeKeys._exclude_keys (@rev string) Cases.query_params
      ["username"; "workflow_id"; "page_size"; "page_num"] = Ok d
    /\ (forall k, In k ["username"; "workflow_id"; "page_size"; "page_num"] ->
          dict_get d k = None)
    /\ (forall k, ~ In k ["username"; "workflow_id"; "page_size"; "page_num"] ->
          dict_get d k = dict_get Cases.query_params k)
    /\ NoDup (keys d).
Proof.
  apply (@X16_exclude_keys_filters (@rev string)).
  intros l x. symmetry. apply in_rev.
Defined.

(** ** The page of [/fstatus] *)

Section PageFacts.
Context {A : Type}.

(** Appending one element to a list changes its page only when the page
    has started and is not full. *)
Lemma page_snoc (m : list A) (x : A) (n k : nat) :
  firstn n (skipn k (m ++ [x]))
  = if (k <=? length m)%nat && (length (firstn n (skipn k m)) <? n)%nat
    then firstn n (skipn k m) ++ [x]
    else firstn n (skipn k m).
Proof.
  destruct (Nat.leb_spec k (length m)) as [Hk | Hk]; cbn [andb].
  - rewrite skipn_app.
    replace (k - length m)%nat with 0%nat by lia. cbn [skipn].
    rewrite firstn_app.
    pose proof (length_skipn k m) as Hlen.
    destruct (Nat.ltb_spec (length (firstn n (skipn k m))) n) as [Hn | Hn];
      rewrite length_firstn in Hn.
    + assert (Hs : (length (skipn k m) < n)%nat) by lia.
      rewrite firstn_all2 by lia.
      destruct (n - length (skipn k m))%nat eqn:E; [lia |].
      cbn [firstn]. now rewrite firstn_nil.
    + replace (n - length (skipn k m))%nat with 0%nat by lia.
      cbn [firstn]. now rewrite app_nil_r.
  - rewrite !skipn_all2; [reflexivity | lia |].
    rewrite length_app. simpl. lia.
Qed.

End PageFacts.

Lemma fold_left_of_map {A B S : Type} (g : A -> B) (f : S -> B -> S)
    (l : list A) : forall s,
  fold_left f (map g l) s = fold_left (fun s x => f s (g x)) l s.
Proof. induction l as [| x l IH]; intros s; simpl; auto. Qed.

Section FStatusFacts.
Import FStatus.
Variable W : Type.
Variable requested : State.
Variables page_size skips : Z.
Hypothesis page_size_nonneg : (0 <= page_size)%Z.
Hypothesis skips_nonneg : (0 <= skips)%Z.

(** The state of the loop after any number of workflows. *)
Lemma select_loop (ws : list (with_status W)) :
  fold_left (select requested skips page_size) ws
    {| current_count := 0; total_count := 0; workflows_with_status := [] |}
  = {| current_count :=
         Z.of_nat (length (firstn (Z.to_nat page_size)
                             (skipn (Z.to_nat skips) (filter (wanted requested) ws))));
       total_count := Z.of_nat (length (filter (wanted requested) ws));
       workflows_with_status :=
         firstn (Z.to_nat page_size) (skipn (Z.to_nat skips) (filter (wanted requested) ws)) |}.
Proof.
  induction ws as [| w ws IH] using rev_ind.
  - simpl. now rewrite skipn_nil, firstn_nil.
  - rewrite fold_left_app. cbn [fold_left]. rewrite IH.
    rewrite filter_app. cbn [filter]. fold (wanted requested w).
    unfold select at 1. cbn [ws_status current_count total_count workflows_with_status].
    fold (wanted requested w).
    destruct (wanted requested w).
    + rewrite page_snoc.
      replace (skips <=? Z.of_nat (length (filter (wanted requested) ws)))%Z
        with (Z.to_nat skips <=? length (filter (wanted requested) ws))%nat
        by (destruct (Nat.leb_spec (Z.to_nat skips) (length (filter (wanted requested) ws)));
            destruct (Z.leb_spec skips (Z.of_nat (length (filter (wanted requested) ws))));
            (reflexivity || lia)).
      set (page := firstn (Z.to_nat page_size)
                     (skipn (Z.to_nat skips) (filter (wanted requested) ws))).
      replace (Z.of_nat (length page) <? page_size)%Z
        with (length page <? Z.to_nat page_size)%nat
        by (destruct (Nat.ltb_spec (length page) (Z.to_nat page_size));
            destruct (Z.ltb_spec (Z.of_nat (length page)) page_size);
            (reflexivity || lia)).
      destruct ((Z.to_nat skips <=? length (filter (wanted requested) ws))%nat
                && (length page <? Z.to_nat page_size)%nat);
        cbn [current_count total_count workflows_with_status];
        rewrite ?length_app; cbn [length]; f_equal; lia.
    + now rewrite !app_nil_r.
Qed.

End FStatusFacts.

(** X17.  For a page size and a page number of at least 1, [/fstatus]
    keeps, of the workflows whose derived status is the requested one and
    in their order, those from position [page_size * (page_num - 1)] on, at
    most [page_size] of them, and counts all of them in [total_count]; it
    answers 404 exactly when that page is empty, that is when no more than
    [page_size * (page_num - 1)] workflows have the requested status. *)
Theorem X17_fstatus_page :
  forall (W : Type) (Task_validates : list (string * pyval) -> bool)
         (requested : State) (page_size page_num : Z)
         (workflows : list (FStatus.fetched W)),
    (1 <= page_size)%Z ->
    (1 <= page_num)%Z ->
    (FStatus.fstatus_page Task_validates requested page_size page_num workflows
     = match firstn (Z.to_nat page_size)
               (skipn (Z.to_nat (page_size * (page_num - 1)))
                  (filter (FStatus.wanted requested)
                     (map (FStatus.derive Task_validates) workflows))) with
       | [] => FStatus.HTTPException 404 "No results matching query were found"
       | page =>
           FStatus.Return
             (page,
              Z.of_nat (length (filter (FStatus.wanted requested)
                                  (map (FStatus.derive Task_validates) workflows))))
       end)
    /\ (FStatus.fstatus_page Task_validates requested page_size page_num workflows
        = FStatus.HTTPException 404 "No results matching query were found"
        <-> (Z.of_nat (length (filter (FStatus.wanted requested)
                                 (map (FStatus.derive Task_validates) workflows)))
             <= page_size * (page_num - 1))%Z).
Proof.
  intros W Task_validates requested page_size page_num workflows Hsize Hnum.
  assert (Hskips : (0 <= page_size * (page_num - 1))%Z) by nia.
  assert (Heq : FStatus.fstatus_page Task_validates requested page_size page_num
                  workflows
                = match firstn (Z.to_nat page_size)
                          (skipn (Z.to_nat (page_size * (page_num - 1)))
                             (filter (FStatus.wanted requested)
                                (map (FStatus.derive Task_validates) workflows))) with
                  | [] => FStatus.HTTPException 404
                            "No results matching query were found"
                  | page =>
                      FStatus.Return
                        (page,
                         Z.of_nat (length (filter (FStatus.wanted requested)
                                             (map (FStatus.derive Task_validates)
                                                workflows))))
                  end).
  { unfold FStatus.fstatus_page.
    rewrite <- (fold_left_of_map (FStatus.derive Task_validates)
                  (FStatus.select requested (page_size * (page_num - 1)) page_size)).
    rewrite select_loop by lia.
    cbn [FStatus.workflows_with_status FStatus.total_count].
    destruct (firstn _ _); reflexivity. }
  split; [exact Heq |].
  rewrite Heq.
  set (m := filter (FStatus.wanted requested) (map (FStatus.derive Task_validates) workflows)).
  pose proof (length_skipn (Z.to_nat (page_size * (page_num - 1))) m) as Hlen.
  destruct (firstn (Z.to_nat page_size)
              (skipn (Z.to_nat (page_size * (page_num - 1))) m)) as [| w page] eqn:Hpage.
  - split; [intros _ | reflexivity].
    apply (f_equal (@length _)) in Hpage. rewrite length_firstn in Hpage.
    simpl in Hpage. lia.
  - split; [discriminate |]. intros Hle. exfalso.
    apply (f_equal (@length _)) in Hpage. rewrite length_firstn in Hpage.
    simpl in Hpage. lia.
Qed.

(** Five stored workflows, three of them done: the second page of size
    two holds the third, and all three are counted. *)
Lemma X17_fstatus_page_witness :
  FStatus.fstatus_page (fun _ => true) STATUS_DONE 2 2 Cases.stored
  = FStatus.Return
      ([{| FStatus.ws_workflow := "w5";
           FStatus.ws_tasks :=
             Some [PyDict [("name", PyStr "task"); ("status", PyStr "DONE")]];
           FStatus.ws_status := STATUS_DONE |}], 3%Z).
Proof.
  refine (eq_trans
            (proj1 (@X17_fstatus_page string (fun _ => true) STATUS_DONE 2 2
                      Cases.stored _ _)) _).
  - lia.
  - lia.
  - vm_compute. reflexivity.
Defined.

(* ================================================================== *)
(** * The handlers and the [Task] model *)
(* ================================================================== *)

(** ** The bounds on the validation *)

Lemma certainly_valid_not_invalid (d : list (string * pyval)) :
  TaskModel.certainly_valid d = true -> TaskModel.certainly_invalid d = false.
Proof.
  unfold TaskModel.certainly_valid, TaskModel.certainly_invalid.
  destruct (dict_get d "name") as [[] |]; cbn [andb orb]; try discriminate;
    destruct (dict_get d "params") as [[] |]; cbn [andb orb]; try discriminate;
    destruct (dict_get d "inputs") as [[] |]; cbn [andb orb]; try discriminate;
    destruct (dict_get d "status") as [[] |]; cbn [andb orb];
    try reflexivity; rewrite ?andb_false_r; try discriminate;
    intros Hvalid; apply andb_true_iff in Hvalid as [_ ->]; reflexivity.
Qed.

(** The validation that accepts exactly the entries that the declaration
    makes valid agrees with the declaration. *)
Lemma certainly_valid_respects : TaskModel.respects TaskModel.certainly_valid.
Proof.
  split; [auto |].
  intros d Hinvalid.
  destruct (TaskModel.certainly_valid d) eqn:Hvalid; [| reflexivity].
  apply certainly_valid_not_invalid in Hvalid. congruence.
Qed.

(** ** Reading the report *)

Lemma for_each_In {A B} (f : A -> exc B) (l : list A) : forall ys x,
  for_each f l = Ok ys -> In x l -> exists y, f x = Ok y /\ In y ys.
Proof.
  induction l as [| a l IH]; intros ys x; cbn [for_each In]; [tauto |].
  destruct (f a) as [b |] eqn:Ha; [| discriminate].
  destruct (for_each f l) as [bs |]; [| discriminate].
  intros [= <-] [<- | Hin].
  - exists b. split; [exact Ha | now left].
  - destruct (IH bs x eq_refl Hin) as [y [Hy Hin']].
    exists y. split; [exact Hy | now right].
Qed.

Lemma v3_read_task_refused
    (Task_validates : list (string * pyval) -> bool) (task : pyval) :
  ReportObs.accepted Task_validates task = false ->
  exists e, StatusV3.read_task Task_validates task = Raise e.
Proof.
  unfold ReportObs.accepted, StatusV3.read_task.
  destruct task as [| b | z | f | s | l | d]; eauto.
  intros ->. eauto.
Qed.

(** When reading the tasks raises, the v3 handlers fall back. *)
Lemma v3_handlers_fall_back
    (Task_validates : list (string * pyval) -> bool)
    (executed : option string) (response : dict string pyval)
    (status_code : Z) (tasks : list pyval) :
  dict_get response "tasks" = Some (PyList tasks) ->
  (exists e, for_each (StatusV3.read_task Task_validates) tasks = Raise e) ->
  StatusV3.status_of_workflow Task_validates executed response status_code
    = (None, STATUS_UNKNOWN)
  /\ StatusV3.fstatus_of_workflow Task_validates executed response status_code
    = (None, STATUS_UNKNOWN).
Proof.
  intros Hget [e He].
  unfold StatusV3.status_of_workflow, StatusV3.fstatus_of_workflow,
    StatusV3.status_try, StatusV3.fstatus_try, getitem.
  rewrite Hget. simpl. rewrite He. simpl.
  split; destruct (assert _); [destruct (assert _); [destruct (assert _) |] | |
                               destruct (assert _); [destruct (assert _) |] |];
    reflexivity.
Qed.

(** An entry that the [Task] model refuses makes the reading raise. *)
Lemma v3_reading_raises_on_refused
    (Task_validates : list (string * pyval) -> bool)
    (tasks : list pyval) (task : pyval) :
  In task tasks ->
  ReportObs.accepted Task_validates task = false ->
  exists e, for_each (StatusV3.read_task Task_validates) tasks = Raise e.
Proof.
  intros Hin Hrefused.
  apply (for_each_raises (StatusV3.read_task Task_validates)
           (fun t => negb (ReportObs.accepted Task_validates t))).
  - intros t Ht. apply v3_read_task_refused. now apply negb_true_iff.
  - apply existsb_exists. exists task. split; [exact Hin |].
    now apply negb_true_iff.
Qed.

(** On a report whose entries are read and accepted the v3 handlers
    return all the entries and the answer of the chain. *)
Lemma v3_handlers_on_readable_report
    (Task_validates : list (string * pyval) -> bool)
    (id : string) (response : dict string pyval) (tasks : list pyval) :
  id <> "" ->
  dict_get response "tasks" = Some (PyList tasks) ->
  existsb StatusSpec.status_unreadable tasks = false ->
  forallb (ReportObs.accepted Task_validates) tasks = true ->
  StatusV3.status_of_workflow Task_validates (Some id) response 200
    = (Some tasks,
       StatusV3.status_workflow_status (StatusV3.is_revoked response)
         (map (fun t => upper (ReportObs.status_text t)) tasks))
  /\ StatusV3.fstatus_of_workflow Task_validates (Some id) response 200
    = (Some tasks,
       StatusV3.fstatus_workflow_status (StatusV3.is_revoked response)
         (map (fun t => upper (ReportObs.status_text t)) tasks)).
Proof.
  intros Hid Hget Hread Hacc.
  assert (Hloop : for_each (StatusV3.read_task Task_validates) tasks
                  = Ok (map (fun t => (t, upper (ReportObs.status_text t))) tasks)).
  { apply for_each_ok. intros t Hin.
    apply v3_read_task_readable.
    - now apply (existsb_false_In _ _ _ Hread).
    - now apply (proj1 (forallb_forall _ _) Hacc). }
  unfold StatusV3.status_of_workflow, StatusV3.fstatus_of_workflow,
    StatusV3.status_try, StatusV3.fstatus_try, getitem.
  apply String.eqb_neq in Hid. rewrite Hid, Hget. cbn [negb assert bind Z.eqb].
  simpl iterate. cbn [bind]. rewrite Hloop. cbn [bind try_except_Exception fst snd].
  rewrite !map_map. cbn [fst snd]. rewrite map_id.
  split; reflexivity.
Qed.

(** What the v2 handler rebuilds from an entry with a status string. *)
Lemma v2_read_task_rebuilds (d : list (string * pyval)) (s : string) :
  dict_get d "status" = Some (PyStr s) ->
  exists name params inputs created_at updated_at result,
    StatusV2.read_task (PyDict d)
    = Ok (PyDict [("name", name); ("params", params); ("inputs", inputs);
                  ("created_at", created_at); ("updated_at", updated_at);
                  ("result", result); ("status", PyStr (upper s))],
          upper s).
Proof.
  intros Hs. unfold StatusV2.read_task, StatusV2.task_get.
  cbn [bind]. rewrite Hs. cbn [bind]. do 6 eexists. reflexivity.
Qed.

(** The v2 handler raises when the upper-cased status of an entry names
    no state: the rebuilt entry is refused at the end. *)
Lemma v2_handler_raises_on_unknown_state
    (Task_validates : list (string * pyval) -> bool)
    (response : dict string pyval) (tasks : list pyval)
    (d : list (string * pyval)) (s : string) :
  TaskModel.respects Task_validates ->
  dict_get response "tasks" = Some (PyList tasks) ->
  In (PyDict d) tasks ->
  dict_get d "status" = Some (PyStr s) ->
  TaskModel.names_state (upper s) = false ->
  exists e, StatusV2Full.status Task_validates response = Raise e.
Proof.
  intros [_ Hrefuse] Hget Hin Hs Hstate.
  unfold StatusV2Full.status, StatusV2.status_block, getitem.
  rewrite Hget. cbn [bind iterate].
  destruct (for_each StatusV2.read_task tasks) as [read |] eqn:Hread;
    cbn [bind]; [| eauto].
  destruct (for_each_In _ _ _ Hread Hin) as [y [Hy Hiny]].
  destruct (v2_read_task_rebuilds d Hs)
    as [name [params [inputs [created_at [updated_at [result Hrebuilt]]]]]].
  rewrite Hrebuilt in Hy. injection Hy as <-.
  cbn [fst snd].
  replace (forallb (ReportObs.accepted Task_validates) (map fst read)) with false;
    [eauto |].
  symmetry. apply not_true_iff_false. intros Hall.
  rewrite forallb_forall in Hall.
  specialize (Hall _ (in_map fst _ _ Hiny)). cbn [fst ReportObs.accepted] in Hall.
  rewrite Hrefuse in Hall; [discriminate |].
  unfold TaskModel.certainly_invalid. cbn [dict_get key_eqb string_PyKey].
  simpl String.eqb. cbv beta iota.
  apply orb_true_iff. right. apply negb_true_iff. exact Hstate.
Qed.

(** The v2 handler on a report whose entries carry the fields of a task:
    every status is upper-cased before anything looks at it. *)
Lemma v2_handler_on_report
    (Task_validates : list (string * pyval) -> bool)
    (states : list string) (revoked : option bool) :
  TaskModel.respects Task_validates ->
  (forall s, In s states -> TaskModel.names_state (upper s) = true) ->
  exists rebuilt,
    StatusV2Full.status Task_validates (Reports.report states revoked)
    = Ok (rebuilt, StatusV2.workflow_status (map upper states))
    /\ length rebuilt = length states.
Proof.
  intros [Haccept _] Hstates.
  unfold StatusV2Full.status, StatusV2.status_block, getitem, Reports.report.
  cbn [dict_get key_eqb string_PyKey]. simpl String.eqb. cbn [bind iterate].
  rewrite (for_each_ok StatusV2.read_task
             (fun t => match StatusV2.read_task t with
                       | Ok r => r
                       | Raise _ => (PyNone, "")
                       end)).
  2:{ intros t Ht. apply in_map_iff in Ht as [s [<- _]]. reflexivity. }
  cbn [bind fst snd]. rewrite !map_map.
  replace (forallb _ _) with true.
  - eexists. split; [reflexivity | now rewrite length_map].
  - symmetry. apply forallb_forall. intros t Ht.
    apply in_map_iff in Ht as [s [<- Hs]].
    cbn [ReportObs.accepted]. simpl. apply Haccept.
    unfold TaskModel.certainly_valid. simpl. apply (Hstates s Hs).
Qed.

Lemma v2_workflow_status_not_revoked (states : list string) :
  StatusV2.workflow_status states <> STATUS_REVOKED.
Proof.
  unfold StatusV2.workflow_status.
  repeat match goal with |- context [if ?b then _ else _] => destruct b end;
    discriminate.
Qed.

(** ** The revoked flag at the call sites *)

(** C2.  With the revoked flag set both v3 chains answer REVOKED for every
    list of task states, and so do both v3 handlers when every entry of
    the report is read and accepted by the [Task] model; an entry that the
    model refuses makes them answer UNKNOWN with no tasks, revoked or not,
    because the entries are read before [is_revoked] is looked at.  The v2
    handler never looks at [is_revoked]: on a report whose entries carry
    the fields of a task it answers what its chain gives on the
    upper-cased statuses, never REVOKED, and a revoked report whose only
    task is DONE is answered DONE. *)
Theorem C2_revoked_v3_but_not_v2 :
  (forall states, StatusV3.status_workflow_status true states = STATUS_REVOKED)
  /\ (forall states, StatusV3.fstatus_workflow_status true states = STATUS_REVOKED)
  /\ (forall (Task_validates : list (string * pyval) -> bool)
             (id : string) (response : dict string pyval) (tasks : list pyval),
        id <> "" ->
        dict_get response "tasks" = Some (PyList tasks) ->
        existsb StatusSpec.status_unreadable tasks = false ->
        forallb (ReportObs.accepted Task_validates) tasks = true ->
        StatusV3.is_revoked response = true ->
        StatusV3.status_of_workflow Task_validates (Some id) response 200
          = (Some tasks, STATUS_REVOKED)
        /\ StatusV3.fstatus_of_workflow Task_validates (Some id) response 200
          = (Some tasks, STATUS_REVOKED))
  /\ (forall (Task_validates : list (string * pyval) -> bool)
             (executed : option string) (response : dict string pyval)
             (status_code : Z) (tasks : list pyval) (task : pyval),
        dict_get response "tasks" = Some (PyList tasks) ->
        In task tasks ->
        ReportObs.accepted Task_validates task = false ->
        StatusV3.status_of_workflow Task_validates executed response status_code
          = (None, STATUS_UNKNOWN)
        /\ StatusV3.fstatus_of_workflow Task_validates executed response status_code
          = (None, STATUS_UNKNOWN))
  /\ (forall (Task_validates : list (string * pyval) -> bool)
             (states : list string) (revoked : option bool),
        TaskModel.respects Task_validates ->
        (forall s, In s states -> TaskModel.names_state (upper s) = true) ->
        exists rebuilt st,
          StatusV2Full.status Task_validates (Reports.report states revoked)
          = Ok (rebuilt, st)
          /\ st = StatusV2.workflow_status (map upper states)
          /\ st <> STATUS_REVOKED)
  /\ (forall (Task_validates : list (string * pyval) -> bool),
        TaskModel.respects Task_validates ->
        exists rebuilt,
          StatusV2Full.status Task_validates Reports.revoked_report
          = Ok (rebuilt, STATUS_DONE)).
Proof.
  split; [reflexivity |].
  split; [reflexivity |].
  split; [| split; [| split]].
  - intros Task_validates id response tasks Hid Hget Hread Hacc Hrevoked.
    destruct (@v3_handlers_on_readable_report Task_validates id response tasks
                Hid Hget Hread Hacc) as [Hstatus Hfstatus].
    rewrite Hstatus, Hfstatus, Hrevoked. split; reflexivity.
  - intros Task_validates executed response status_code tasks task
      Hget Hin Hrefused.
    apply (@v3_handlers_fall_back Task_validates executed response status_code
             tasks Hget).
    exact (@v3_reading_raises_on_refused Task_validates tasks task Hin Hrefused).
  - intros Task_validates states revoked Hmodel Hstates.
    destruct (@v2_handler_on_report Task_validates states revoked Hmodel Hstates)
      as [rebuilt [Hstatus _]].
    exists rebuilt, (StatusV2.workflow_status (map upper states)).
    split; [exact Hstatus |].
    split; [reflexivity | apply v2_workflow_status_not_revoked].
  - intros Task_validates Hmodel.
    destruct (@v2_handler_on_report Task_validates ["DONE"] (Some true) Hmodel)
      as [rebuilt [Hstatus _]].
    + intros s [<- | []]. reflexivity.
    + exists rebuilt. exact Hstatus.
Qed.

(** The revoked report whose only task is DONE, with the validation that
    accepts what the declaration of [Task] makes valid: REVOKED with the
    task from both v3 handlers, DONE from the v2 handler. *)
Lemma C2_revoked_v3_but_not_v2_witness :
  (StatusV3.status_of_workflow TaskModel.certainly_valid (Some "run-1")
     Reports.revoked_report 200
     = (Some [Reports.entry "task" "DONE"], STATUS_REVOKED)
   /\ StatusV3.fstatus_of_workflow TaskModel.certainly_valid (Some "run-1")
        Reports.revoked_report 200
      = (Some [Reports.entry "task" "DONE"], STATUS_REVOKED))
  /\ exists rebuilt,
       StatusV2Full.status TaskModel.certainly_valid Reports.revoked_report
       = Ok (rebuilt, STATUS_DONE).
Proof.
  split.
  - apply (proj1 (proj2 (proj2 C2_revoked_v3_but_not_v2))
             TaskModel.certainly_valid "run-1" Reports.revoked_report
             [Reports.entry "task" "DONE"]);
      [discriminate | reflexivity | reflexivity | reflexivity | reflexivity].
  - apply (proj2 (proj2 (proj2 (proj2 (proj2 C2_revoked_v3_but_not_v2))))
             TaskModel.certainly_valid certainly_valid_respects).
Defined.

(** ** Malformed entries *)

(** C5, amended.  A malformed entry is never skipped.  An entry whose
    status is missing or is not a string makes the reading raise; an entry
    whose status is a string that names no state is refused by the [Task]
    model, by the v3 handlers as the entry came (before the upper-casing),
    by the v2 handler when the result is built (after the upper-casing).
    At the v3 call sites the enclosing [try] catches the exception, the
    aggregation of that workflow is abandoned and the workflow keeps state
    UNKNOWN and no task list; at the v2 call site the exception
    propagates. *)
Theorem C5_unreadable_status_aborts :
  (forall (Task_validates : list (string * pyval) -> bool)
          (executed : option string) (response : dict string pyval)
          (status_code : Z) (tasks : list pyval),
      dict_get response "tasks" = Some (PyList tasks) ->
      existsb StatusSpec.status_unreadable tasks = true ->
      StatusV3.status_of_workflow Task_validates executed response status_code
        = (None, STATUS_UNKNOWN)
      /\ StatusV3.fstatus_of_workflow Task_validates executed response status_code
        = (None, STATUS_UNKNOWN)
      /\ (exists e, StatusV2.status_block response = Raise e)
      /\ (exists e, StatusV2Full.status Task_validates response = Raise e))
  /\ (forall (Task_validates : list (string * pyval) -> bool)
             (executed : option string) (response : dict string pyval)
             (status_code : Z) (tasks : list pyval)
             (d : list (string * pyval)) (s : string),
        TaskModel.respects Task_validates ->
        dict_get response "tasks" = Some (PyList tasks) ->
        In (PyDict d) tasks ->
        dict_get d "status" = Some (PyStr s) ->
        TaskModel.names_state s = false ->
        StatusV3.status_of_workflow Task_validates executed response status_code
          = (None, STATUS_UNKNOWN)
        /\ StatusV3.fstatus_of_workflow Task_validates executed response status_code
          = (None, STATUS_UNKNOWN))
  /\ (forall (Task_validates : list (string * pyval) -> bool)
             (response : dict string pyval) (tasks : list pyval)
             (d : list (string * pyval)) (s : string),
        TaskModel.respects Task_validates ->
        dict_get response "tasks" = Some (PyList tasks) ->
        In (PyDict d) tasks ->
        dict_get d "status" = Some (PyStr s) ->
        TaskModel.is_ascii s = true ->
        TaskModel.names_state (upper s) = false ->
        exists e, StatusV2Full.status Task_validates response = Raise e).
Proof.
  split; [| split].
  - intros Task_validates executed response status_code tasks Hget Hbad.
    destruct (for_each_raises StatusV2.read_task
                StatusSpec.status_unreadable tasks
                v2_read_task_unreadable Hbad) as [e2 He2].
    assert (Hv2 : StatusV2.status_block response = Raise e2).
    { unfold StatusV2.status_block, getitem.
      rewrite Hget. cbn [bind iterate]. now rewrite He2. }
    destruct (@v3_handlers_fall_back Task_validates executed response
                status_code tasks Hget
                (for_each_raises (StatusV3.read_task Task_validates)
                   StatusSpec.status_unreadable tasks
                   (v3_read_task_unreadable Task_validates) Hbad))
      as [Hstatus Hfstatus].
    split; [exact Hstatus |].
    split; [exact Hfstatus |].
    split; [now exists e2 |].
    exists e2. unfold StatusV2Full.status. now rewrite Hv2.
  - intros Task_validates executed response status_code tasks d s
      [_ Hrefuse] Hget Hin Hs Hstate.
    apply (@v3_handlers_fall_back Task_validates executed response status_code
             tasks Hget).
    apply (@v3_reading_raises_on_refused Task_validates tasks (PyDict d) Hin).
    cbn [ReportObs.accepted]. apply Hrefuse.
    unfold TaskModel.certainly_invalid. rewrite Hs, Hstate.
    now rewrite !orb_true_r.
  - intros Task_validates response tasks d s Hmodel Hget Hin Hs _ Hstate.
    exact (@v2_handler_raises_on_unknown_state Task_validates response tasks
             d s Hmodel Hget Hin Hs Hstate).
Qed.

(** The three parts at the report with an entry without status and at the
    report with the status BOGUS, with the validation that accepts what
    the declaration of [Task] makes valid. *)
Lemma C5_unreadable_status_aborts_witness :
  (StatusV3.status_of_workflow TaskModel.certainly_valid (Some "run-1")
     Examples.report_missing_status 200 = (None, STATUS_UNKNOWN)
   /\ StatusV3.fstatus_of_workflow TaskModel.certainly_valid (Some "run-1")
        Examples.report_missing_status 200 = (None, STATUS_UNKNOWN)
   /\ (exists e, StatusV2.status_block Examples.report_missing_status = Raise e)
   /\ (exists e, StatusV2Full.status TaskModel.certainly_valid
                   Examples.report_missing_status = Raise e))
  /\ (StatusV3.status_of_workflow TaskModel.certainly_valid (Some "run-1")
        Reports.bogus_report 200 = (None, STATUS_UNKNOWN)
      /\ StatusV3.fstatus_of_workflow TaskModel.certainly_valid (Some "run-1")
           Reports.bogus_report 200 = (None, STATUS_UNKNOWN))
  /\ (exists e, StatusV2Full.status TaskModel.certainly_valid
                  Reports.bogus_report = Raise e).
Proof.
  split; [| split].
  - apply (proj1 C5_unreadable_status_aborts TaskModel.certainly_valid
             (Some "run-1") Examples.report_missing_status 200%Z
             Examples.tasks_missing_status);
      reflexivity.
  - apply (proj1 (proj2 C5_unreadable_status_aborts) TaskModel.certainly_valid
             (Some "run-1") Reports.bogus_report 200%Z
             [Reports.entry "task" "DONE"; Reports.entry "task" "BOGUS"]
             [("name", PyStr "task"); ("params", PyDict []);
              ("inputs", PyDict []); ("status", PyStr "BOGUS")]
             "BOGUS" certainly_valid_respects);
      [reflexivity | right; left; reflexivity | reflexivity | reflexivity].
  - apply (proj2 (proj2 C5_unreadable_status_aborts) TaskModel.certainly_valid
             Reports.bogus_report
             [Reports.entry "task" "DONE"; Reports.entry "task" "BOGUS"]
             [("name", PyStr "task"); ("params", PyDict []);
              ("inputs", PyDict []); ("status", PyStr "BOGUS")]
             "BOGUS" certainly_valid_respects);
      [reflexivity | right; left; reflexivity | reflexivity | reflexivity
       | reflexivity].
Defined.

(** ** A workflow stored without links *)

(** C7 fails as stated.  A workflow with the two operators of the test and
    no mapping of links (the field keeps its default) is not compiled to
    two tasks: the compiler raises. *)
Lemma C7_counterexample :
  operators Cases.no_links_workflow = Some Examples.test_operators
  /\ length Examples.test_operators = 2%nat
  /\ links Cases.no_links_workflow = None
  /\ Compiler.parse_to_list Strconv.convert Cases.no_links_workflow
     = Raise AttributeError
  /\ ~ (exists tasks,
          Compiler.parse_to_list Strconv.convert Cases.no_links_workflow
          = Ok tasks).
Proof.
  split; [reflexivity |].
  split; [reflexivity |].
  split; [reflexivity |].
  split; [reflexivity |].
  intros [tasks Htasks]. discriminate Htasks.
Qed.

(** ** Reports of the current and of older engines *)

(** The hypotheses of X5 at a report of the current engine, with the
    validation that accepts what the declaration of [Task] makes valid. *)
Lemma X5_v3_handler_is_chain_of_statuses_witness :
  StatusV3.status_of_workflow TaskModel.certainly_valid (Some "run-1")
    Reports.running_report 200
    = (Some [Reports.entry "task" "RUNNING"; Reports.entry "task" "DONE"],
       STATUS_RUNNING)
  /\ StatusV3.fstatus_of_workflow TaskModel.certainly_valid (Some "run-1")
       Reports.running_report 200
     = (Some [Reports.entry "task" "RUNNING"; Reports.entry "task" "DONE"],
        STATUS_RUNNING).
Proof.
  apply (@X5_v3_handler_is_chain_of_statuses TaskModel.certainly_valid "run-1"
           Reports.running_report
           [Reports.entry "task" "RUNNING"; Reports.entry "task" "DONE"]);
    [discriminate | reflexivity | reflexivity | reflexivity].
Defined.



(** ** An operator that no link leads to *)

(** The hypotheses of X9 at the second operator of a workflow whose links
    all lead to the third one: its input is recorded as [None]. *)
Lemma X9_unlinked_operator_has_null_inputs_witness :
  exists tasks t,
    Compiler.parse_to_list Strconv.convert Reports.partly_linked_workflow
      = Ok tasks
    /\ nth_error tasks 1 = Some t
    /\ Forall (fun v => v = None) (values (t_inputs t))
    /\ dict_get (t_inputs t) "DemoTaskTwoInput" = Some None.
Proof.
  destruct (@X9_unlinked_operator_has_null_inputs Strconv.convert
              Reports.partly_linked_workflow
              [("op_0", Examples.op_0); ("op_1", Examples.op_1);
               ("op_3", Examples.op_three_inputs)]
              Examples.dangling_links 1%nat "op_1" Examples.op_1
              strconv_convert_returns eq_refl eq_refl eq_refl)
    as [tasks [t [Hparse [Hnth [Hall Hinputs]]]]].
  - intros kv [<- | [<- | [<- | [<- | []]]]]; discriminate.
  - exists tasks, t.
    split; [exact Hparse |].
    split; [exact Hnth |].
    split; [exact Hall |].
    apply (Hinputs ("in_0", Examples.in_0)). now left.
Defined.
